(** * stock-analysis-engine: the algorithm engine and the pricing republish task

    A shallow embedding of [analysis_engine/algo.py] (class [BaseAlgo]) and of
    [analysis_engine/work_tasks/publish_pricing_update.py], with the
    properties of the specification stated and settled against them.

    Conventions of the embedding:
    - Python objects that flow through the code untyped are values of
      [PyVal]; a Python [float] is idealised as an exact rational;
    - a dictionary with string keys is a [gmap string _]; a dictionary stored
      inside a value is an association list in insertion order;
    - code that mutates [self] or talks to a service is written in a small
      state-and-exception monad [ST]: the state survives a raised exception,
      as a Python object does;
    - calls that leave the process (boto3, redis, the publish helper) append
      an event to a trace, and an oracle of the outside world decides whether
      the call returns or raises;
    - logging is not modelled, except where evaluating what a log line
      formats can raise. *)

From stdpp Require Import base option list strings gmap fin_maps pretty.
From Stdlib Require Import ZArith QArith Qround Ascii String.

Local Open Scope string_scope.
Local Open Scope Z_scope.

(** ** Python values *)

Module Py.

Inductive Exn : Type :=
| KeyError (key : string)
| TypeError
| ValueError
| AttributeError (attr : string)
| IndexError
| ExternalError (what : string)
| Exception (msg : string).

Inductive Outcome (A : Type) : Type :=
| Ok (a : A)
| Raise (e : Exn).
Arguments Ok {A} a.
Arguments Raise {A} e.

Definition is_ok {A} (o : Outcome A) : bool :=
  match o with Ok _ => true | Raise _ => false end.

(** [PyFrame] is a pandas DataFrame (named columns, rows of cells aligned
    with the columns) and [PySeries] one labelled row of it. *)
#[warnings="-register-all"]
Inductive PyVal : Type :=
| PyNone
| PyBool (b : bool)
| PyInt (z : Z)
| PyFloat (q : Q)
| PyStr (s : string)
| PyList (l : list PyVal)
| PyDict (d : list (string * PyVal))
| PySeries (items : list (string * PyVal))
| PyFrame (columns : list string) (rows : list (list PyVal)).

Definition Qis_zero (q : Q) : bool := (Qnum q =? 0)%Z.

(** [bool(v)], as [if v:] and [not v] evaluate it.  pandas refuses to give a
    DataFrame or a Series a truth value. *)
Definition truthy (v : PyVal) : Outcome bool :=
  match v with
  | PyNone => Ok false
  | PyBool b => Ok b
  | PyInt z => Ok (negb (z =? 0)%Z)
  | PyFloat q => Ok (negb (Qis_zero q))
  | PyStr s => Ok (negb (String.eqb s ""))
  | PyList l => Ok (negb (Nat.eqb (List.length l) 0))
  | PyDict d => Ok (negb (Nat.eqb (List.length d) 0))
  | PySeries _ => Raise ValueError
  | PyFrame _ _ => Raise ValueError
  end.

(** [hasattr(v, 'empty')] and [hasattr(v, 'to_json')]: only the pandas
    objects have these attributes. *)
Definition has_empty (v : PyVal) : bool :=
  match v with
  | PySeries _ | PyFrame _ _ => true
  | _ => false
  end.

Definition has_to_json (v : PyVal) : bool := has_empty v.

Fixpoint assoc_get (d : list (string * PyVal)) (k : string) : option PyVal :=
  match d with
  | [] => None
  | (k', v) :: d' => if String.eqb k k' then Some v else assoc_get d' k
  end.

(** The place of a label among the column labels of a frame. *)
Fixpoint find_label (k : string) (labels : list string) : option nat :=
  match labels with
  | [] => None
  | l :: labels' =>
      if String.eqb k l then Some 0%nat else option_map S (find_label k labels')
  end.

(** The column of a frame at a place, as pandas returns it: a Series
    labelled by the row numbers. *)
Definition column_at (i : nat) (rows : list (list PyVal)) : PyVal :=
  PySeries (imap (fun r row => (pretty r, default PyNone (row !! i))) rows).

(** [v[key]] for the row argument of the order methods: a dictionary and a
    labelled row give the value under the key and a DataFrame gives the
    column under the label; a key or a label that is missing raises
    [KeyError]; a value that cannot be indexed by a string raises
    [TypeError]. *)
Definition getitem (v : PyVal) (k : string) : Outcome PyVal :=
  match v with
  | PyDict d | PySeries d =>
      match assoc_get d k with
      | Some x => Ok x
      | None => Raise (KeyError k)
      end
  | PyFrame columns rows =>
      match find_label k columns with
      | Some i => Ok (column_at i rows)
      | None => Raise (KeyError k)
      end
  | _ => Raise TypeError
  end.

(** [str.split(':')]: the pieces between the colons, at least one piece. *)
Fixpoint split_colon_aux (cur : string) (s : string) : list string :=
  match s with
  | EmptyString => [cur]
  | String c s' =>
      if Ascii.eqb c ":"%char
      then cur :: split_colon_aux "" s'
      else split_colon_aux (cur +:+ String c "") s'
  end.

Definition split_colon (s : string) : list string := split_colon_aux "" s.

(** The builtins whose exact output the code only passes on. *)
Record Builtins : Type := {
  (** what ['{}'.format(v)] renders *)
  format_val : PyVal -> string;
  (** [int(s)] on a string: [None] when it raises ValueError *)
  int_of_str : string -> option Z;
  (** [float(s)] on a string *)
  float_of_str : string -> option Q;
  (** [json.dumps(v)]: [None] when the value is not serialisable *)
  json_dumps : PyVal -> option string;
  (** [v.to_json(orient='records', date_format='iso')] of a pandas object *)
  to_json : PyVal -> string;
  (** what ['{}'.format(e)] renders for an exception *)
  format_exn : Exn -> string
}.

Definition Qtrunc (q : Q) : Z := Z.quot (Qnum q) (Zpos (Qden q)).

(** [int(v)] and [float(v)].  pandas converts a Series of one element by
    converting the element, and refuses any other Series and every
    DataFrame. *)
Definition int_of_scalar (B : Builtins) (v : PyVal) : Outcome Z :=
  match v with
  | PyInt z => Ok z
  | PyBool b => Ok (if b then 1 else 0)%Z
  | PyFloat q => Ok (Qtrunc q)
  | PyStr s =>
      match int_of_str B s with
      | Some z => Ok z
      | None => Raise ValueError
      end
  | _ => Raise TypeError
  end.

Definition py_int (B : Builtins) (v : PyVal) : Outcome Z :=
  match v with
  | PySeries [(_, x)] => int_of_scalar B x
  | _ => int_of_scalar B v
  end.

Definition float_of_scalar (B : Builtins) (v : PyVal) : Outcome Q :=
  match v with
  | PyInt z => Ok (inject_Z z)
  | PyBool b => Ok (if b then 1 else 0)%Q
  | PyFloat q => Ok q
  | PyStr s =>
      match float_of_str B s with
      | Some q => Ok q
      | None => Raise ValueError
      end
  | _ => Raise TypeError
  end.

Definition py_float (B : Builtins) (v : PyVal) : Outcome Q :=
  match v with
  | PySeries [(_, x)] => float_of_scalar B x
  | _ => float_of_scalar B v
  end.

(** [d.get(key, default)] on a dictionary with string keys. *)
Definition dict_get {V} (d : gmap string V) (k : string) (dflt : V) : V :=
  default dflt (d !! k).

End Py.

Export Py.

(** ** A state monad with exceptions *)

Definition ST (S A : Type) : Type := S -> Outcome A * S.

Definition st_ret {S A} (a : A) : ST S A := fun s => (Ok a, s).

Definition st_bind {S A B} (m : ST S A) (k : A -> ST S B) : ST S B :=
  fun s =>
    match m s with
    | (Ok a, s') => k a s'
    | (Raise e, s') => (Raise e, s')
    end.

Definition st_raise {S A} (e : Exn) : ST S A := fun s => (Raise e, s).

(** An [Outcome] computed without touching the state. *)
Definition st_lift {S A} (o : Outcome A) : ST S A := fun s => (o, s).

Definition st_get {S} : ST S S := fun s => (Ok s, s).

Definition st_modify {S} (f : S -> S) : ST S unit := fun s => (Ok tt, f s).

(** [try: body  except Exception as e: handler(e)] *)
Definition st_try {S A} (body : ST S A) (handler : Exn -> ST S A) : ST S A :=
  fun s =>
    match body s with
    | (Ok a, s') => (Ok a, s')
    | (Raise e, s') => handler e s'
    end.

(** [respects R m]: every run of [m] relates the state it starts from to
    the state it ends in, whether it returns or raises. *)
Definition respects {S A} (R : S -> S -> Prop) (m : ST S A) : Prop :=
  forall s, R s (snd (m s)).

Declare Scope st_scope.
Delimit Scope st_scope with st.
Notation "x <- m ;; k" := (st_bind m (fun x => k))
  (at level 100, m at next level, right associativity) : st_scope.
Notation "m ;;; k" := (st_bind m (fun _ => k))
  (at level 100, right associativity) : st_scope.

(** ** Shared constants and status codes *)

(** The status codes of [analysis_engine.consts]; the members the two
    modules never name are kept as [OTHER]. *)
Inductive Status : Type :=
| NOT_RUN
| INVALID
| SUCCESS
| ERR
| TRADE_FILLED
| OTHER (code : Z).

#[global] Instance Status_eq_dec : EqDecision Status.
Proof. solve_decision. Defined.

(** The environment-derived values the two modules import from
    [analysis_engine.consts]. *)
Record Consts : Type := {
  TICKER : PyVal;
  TICKER_ID : PyVal;
  ENABLED_S3_UPLOAD : PyVal;
  ENABLED_REDIS_PUBLISH : PyVal;
  S3_ACCESS_KEY : PyVal;
  S3_SECRET_KEY : PyVal;
  S3_REGION_NAME : PyVal;
  S3_ADDRESS : PyVal;
  S3_SECURE : PyVal;
  REDIS_ADDRESS : PyVal;
  REDIS_KEY : PyVal;
  REDIS_PASSWORD : PyVal;
  REDIS_DB : PyVal;
  REDIS_EXPIRE : PyVal;
  ALGO_INPUT_DATASET_S3_BUCKET_NAME : PyVal;
  ALGO_HISTORY_DATASET_S3_BUCKET_NAME : PyVal;
  ALGO_REPORT_DATASET_S3_BUCKET_NAME : PyVal;
  ALGO_INPUT_COMPRESS : PyVal;
  ALGO_HISTORY_COMPRESS : PyVal;
  ALGO_REPORT_COMPRESS : PyVal;
  TRADE_SHARES : PyVal
}.

(** ** The pricing republish task ([work_tasks/publish_pricing_update.py]) *)

Module PricingTask.

(** The calls that reach the archive (boto3) or the cache (redis). *)
Inductive Event : Type :=
| S3Resource (endpoint_url : string) (access_key secret_key region_name : PyVal)
| S3BucketCheck (bucket : PyVal)
| S3CreateBucket (bucket : PyVal)
| S3PutObject (bucket key : PyVal) (body : string)
| RedisConnect (host port : string) (password db : PyVal)
| RedisSet (name value ex : PyVal).

Definition is_s3_event (ev : Event) : bool :=
  match ev with
  | S3Resource _ _ _ _ | S3BucketCheck _ | S3CreateBucket _ | S3PutObject _ _ _ => true
  | _ => false
  end.

Definition is_redis_event (ev : Event) : bool :=
  match ev with
  | RedisConnect _ _ _ _ | RedisSet _ _ _ => true
  | _ => false
  end.

(** The outside world: whether a call returns or raises, and whether the
    bucket is among [s3.buckets.all()]. *)
Record World : Type := {
  returns : Event -> bool;
  bucket_listed : PyVal -> bool
}.

Record Rec : Type := {
  ticker : PyVal;
  ticker_id : PyVal;
  s3_enabled : PyVal;
  redis_enabled : PyVal;
  s3_bucket : PyVal;
  s3_key : PyVal;
  redis_key : PyVal;
  updated : PyVal
}.

Record Result : Type := {
  status : Status;
  err : option string;
  rec : option Rec
}.

(** Modelled from the spec: [analysis_engine.build_result.build_result] is
    not among the sources; section 4.8 has it shape the three fields and do
    nothing else.  [rec] is [None] when the caller passes no record. *)
Definition build_result (st : Status) (e : option string) (r : option Rec) : Result :=
  {| status := st; err := e; rec := r |}.

Definition Task : Type -> Type := ST (list Event).

(** One call to a service: it is recorded, then returns or raises. *)
Definition call (W : World) (ev : Event) : Task unit :=
  fun tr =>
    (if returns W ev then Ok tt else Raise (ExternalError "service call failed"),
     (tr ++ [ev])%list).

(** A sink was contacted when the trace holds one of its calls. *)
Definition archive_contacted (tr : list Event) : bool := existsb is_s3_event tr.

Definition cache_contacted (tr : list Event) : bool := existsb is_redis_event tr.

(** The trace [tr'] is [tr] with further calls appended. *)
Definition appends (tr tr' : list Event) : Prop :=
  exists evs, tr' = (tr ++ evs)%list.

(** A task only ever appends to the trace. *)
Definition extends {A} (m : Task A) : Prop := respects appends m.

(** As [appends], with every appended call satisfying [P]. *)
Definition appends_only (P : Event -> bool) (tr tr' : list Event) : Prop :=
  exists evs, tr' = (tr ++ evs)%list /\ forallb P evs = true.

(** [v == '1'] followed by [if secure:]. *)
Definition eq_str_truth (v : PyVal) (s : string) : Outcome bool :=
  match v with
  | PyStr s' => Ok (String.eqb s' s)
  | PySeries _ | PyFrame _ _ => Raise ValueError
  | _ => Ok false
  end.

(** [v.split(':')] *)
Definition py_split_colon (v : PyVal) : Outcome (list string) :=
  match v with
  | PyStr s => Ok (split_colon s)
  | _ => Raise (AttributeError "split")
  end.

(** The string holds no colon. *)
Fixpoint colon_free (s : string) : bool :=
  match s with
  | EmptyString => true
  | String c s' => negb (Ascii.eqb c ":"%char) && colon_free s'
  end.

(** [l[i]] on a list *)
Definition index {A} (l : list A) (i : nat) : Outcome A :=
  match l !! i with
  | Some x => Ok x
  | None => Raise IndexError
  end.

Section Task.

Variable B : Builtins.
Variable C : Consts.
Variable W : World.
(** the text of ['failed - publish_pricing_update dict={} with ex={}'] *)
Variable format_failure : gmap string PyVal -> Exn -> string.

Definition rec0 : Rec :=
  {| ticker := PyNone; ticker_id := PyNone;
     s3_enabled := PyBool false; redis_enabled := PyBool false;
     s3_bucket := PyNone; s3_key := PyNone; redis_key := PyNone;
     updated := PyNone |}.

(** The [if enable_s3_upload:] branch. *)
Definition s3_upload (work_dict : gmap string PyVal)
    (s3_bucket_name s3_key data : PyVal) : Task unit :=
  (let access_key := dict_get work_dict "s3_access_key" (S3_ACCESS_KEY C) in
   let secret_key := dict_get work_dict "s3_secret_key" (S3_SECRET_KEY C) in
   let region_name := dict_get work_dict "s3_region_name" (S3_REGION_NAME C) in
   let service_address := dict_get work_dict "s3_address" (S3_ADDRESS C) in
   secure <- st_lift (eq_str_truth (dict_get work_dict "s3_secure" (S3_SECURE C)) "1") ;;
   let endpoint_url :=
     if secure : bool then "https://" +:+ format_val B service_address
     else "http://" +:+ format_val B service_address in
   call W (S3Resource endpoint_url access_key secret_key region_name) ;;;
   st_try
     (call W (S3BucketCheck s3_bucket_name) ;;;
      if bucket_listed W s3_bucket_name then st_ret tt
      else call W (S3CreateBucket s3_bucket_name))
     (fun _ => st_ret tt) ;;;
   st_try
     (match json_dumps B data with
      | Some body => call W (S3PutObject s3_bucket_name s3_key body)
      | None => st_raise TypeError
      end)
     (fun _ => st_ret tt))%st.

(** The [if enable_redis_publish:] branch. *)
Definition redis_publish (work_dict : gmap string PyVal) (data : PyVal) : Task unit :=
  (let redis_address := dict_get work_dict "redis_address" (REDIS_ADDRESS C) in
   let redis_key := dict_get work_dict "redis_key" (REDIS_KEY C) in
   let redis_password := dict_get work_dict "redis_password" (REDIS_PASSWORD C) in
   let redis_db := dict_get work_dict "redis_db" PyNone in
   has_db <- st_lift (truthy redis_db) ;;
   let redis_db := if has_db : bool then redis_db else REDIS_DB C in
   let redis_expire :=
     match work_dict !! "redis_expire" with
     | Some v => v
     | None => PyNone
     end in
   parts <- st_lift (py_split_colon redis_address) ;;
   redis_host <- st_lift (index parts 0) ;;
   redis_port <- st_lift (index parts 1) ;;
   st_try
     (call W (RedisConnect redis_host redis_port redis_password redis_db) ;;;
      call W (RedisSet redis_key data redis_expire))
     (fun _ => st_ret tt))%st.

(** The statements inside the outer [try]. *)
Definition task_body (work_dict : gmap string PyVal) : Task Result :=
  (let ticker := dict_get work_dict "ticker" (TICKER C) in
   ticker_id <- st_lift (py_int B (dict_get work_dict "ticker_id" (TICKER_ID C))) ;;
   has_ticker <- st_lift (truthy ticker) ;;
   if negb has_ticker then
     st_ret (build_result ERR (Some "missing ticker") (Some rec0))
   else
     let s3_key := dict_get work_dict "s3_key" PyNone in
     let s3_bucket_name := dict_get work_dict "s3_bucket" (PyStr "pricing") in
     let redis_key := dict_get work_dict "redis_key" PyNone in
     let data := dict_get work_dict "data" PyNone in
     let updated := dict_get work_dict "updated" PyNone in
     let enable_s3_upload := dict_get work_dict "s3_enabled" (ENABLED_S3_UPLOAD C) in
     let enable_redis_publish :=
       dict_get work_dict "redis_enabled" (ENABLED_REDIS_PUBLISH C) in
     let rec :=
       {| ticker := ticker; ticker_id := PyInt ticker_id;
          s3_enabled := enable_s3_upload; redis_enabled := enable_redis_publish;
          s3_bucket := s3_bucket_name; s3_key := s3_key; redis_key := redis_key;
          updated := updated |} in
     s3_on <- st_lift (truthy enable_s3_upload) ;;
     (if s3_on : bool then s3_upload work_dict s3_bucket_name s3_key data
      else st_ret tt) ;;;
     redis_on <- st_lift (truthy enable_redis_publish) ;;
     (if redis_on : bool then redis_publish work_dict data else st_ret tt) ;;;
     st_ret (build_result SUCCESS None (Some rec)))%st.

(** [publish_pricing_update(work_dict)]: the body under the outer handler,
    which turns any exception into an [ERR] result built without a record. *)
Definition publish_pricing_update (work_dict : gmap string PyVal) : Task Result :=
  st_try (task_body work_dict)
    (fun e => st_ret (build_result ERR (Some (format_failure work_dict e)) None)).

(** [ev(name, default)]: the process environment. *)
Variable ev : string -> string -> string.
(** The response [run_publish_pricing_update] builds when celery is
    enabled, from [publish_pricing_update.delay(work_dict=work_dict)]: the
    queue and the result object it hands back are outside the model. *)
Variable via_queue : gmap string PyVal -> Task Result.

(** [run_publish_pricing_update(work_dict)]: with celery disabled the task
    runs in process and the response is rebuilt from the three keys of its
    result; [build_result] always sets the three keys, so none of the
    defaults of the three [task_res.get] is used. *)
Definition run_publish_pricing_update (work_dict : gmap string PyVal) : Task Result :=
  (if String.eqb (ev "CELERY_DISABLED" "1") "1" then
     task_res <- publish_pricing_update work_dict ;;
     st_ret (build_result (status task_res) (err task_res) (rec task_res))
   else via_queue work_dict)%st.

End Task.

End PricingTask.

(** ** The algorithm engine ([algo.py], class [BaseAlgo]) *)

Module Algo.

(** *** Data *)

(** An order record as the builders return it: the fields the engine reads,
    and the inputs echoed back. *)
Record Order : Type := {
  order_status : Status;
  order_shares : Z;
  order_price : Q;
  order_balance : Q;
  order_ticker : string;
  order_date : PyVal;
  order_use_key : string;
  order_details : PyVal;
  order_reason : option string
}.

(** The keyword arguments of [build_buy_order] and [build_sell_order]. *)
Record OrderArgs : Type := {
  arg_ticker : string;
  arg_close : PyVal;
  arg_num_owned : Z;
  arg_shares : option Z;
  arg_balance : Q;
  arg_commission : Q;
  arg_date : PyVal;
  arg_use_key : string;
  arg_details : PyVal;
  arg_reason : option string
}.

(** One entry of [self.positions]: the keys ['shares'], ['buys'], ['sells']. *)
Record Position : Type := {
  pos_shares : Z;
  pos_buys : list Order;
  pos_sells : list Order
}.

(** A dataset node; a key the node lacks is [None]. *)
Record Node : Type := {
  node_id : option string;
  node_date : option string;
  node_data : option (gmap string PyVal)
}.

(** ticker -> nodes in chronological order *)
Abbreviation Dataset := (gmap string (list Node)).

(** What [self.ds_data] holds: [None] before the first node, the string
    ['missing-DATA'] for a node without data, else the node's data map. *)
Inductive DsData : Type :=
| DsNone
| DsMissing
| DsMap (m : gmap string PyVal).

(** The members of one publishing surface ([input_*], [history_*] or
    [report_*]); the same record holds the resolved keyword arguments of one
    publish call. *)
Record PubCfg : Type := {
  output_dir : option string;
  output_file : option string;
  label : string;
  convert_to_json : bool;
  compress : PyVal;
  redis_enabled : PyVal;
  redis_address : PyVal;
  redis_db : PyVal;
  redis_password : PyVal;
  redis_expire : PyVal;
  redis_serializer : string;
  redis_encoding : string;
  s3_enabled : PyVal;
  s3_address : PyVal;
  s3_bucket : PyVal;
  s3_access_key : PyVal;
  s3_secret_key : PyVal;
  s3_region_name : PyVal;
  s3_secure : PyVal;
  slack_enabled : bool;
  slack_code_block : bool;
  slack_full_width : bool;
  redis_key : string;
  s3_key : string;
  verbose : bool
}.

(** A configuration map or a [**kwargs] bag for a publishing surface: a key
    that is absent is [None]. *)
Record PubOverrides : Type := {
  kw_output_dir : option (option string);
  kw_output_file : option (option string);
  kw_label : option string;
  kw_convert_to_json : option bool;
  kw_compress : option PyVal;
  kw_redis_enabled : option PyVal;
  kw_redis_address : option PyVal;
  kw_redis_db : option PyVal;
  kw_redis_password : option PyVal;
  kw_redis_expire : option PyVal;
  kw_redis_serializer : option string;
  kw_redis_encoding : option string;
  kw_s3_enabled : option PyVal;
  kw_s3_address : option PyVal;
  kw_s3_bucket : option PyVal;
  kw_s3_access_key : option PyVal;
  kw_s3_secret_key : option PyVal;
  kw_s3_region_name : option PyVal;
  kw_s3_secure : option PyVal;
  kw_slack_enabled : option bool;
  kw_slack_code_block : option bool;
  kw_slack_full_width : option bool;
  kw_redis_key : option string;
  kw_s3_key : option string;
  kw_verbose : option bool
}.

Definition no_overrides : PubOverrides :=
  {| kw_output_dir := None; kw_output_file := None; kw_label := None;
     kw_convert_to_json := None; kw_compress := None;
     kw_redis_enabled := None; kw_redis_address := None; kw_redis_db := None;
     kw_redis_password := None; kw_redis_expire := None;
     kw_redis_serializer := None; kw_redis_encoding := None;
     kw_s3_enabled := None; kw_s3_address := None; kw_s3_bucket := None;
     kw_s3_access_key := None; kw_s3_secret_key := None;
     kw_s3_region_name := None; kw_s3_secure := None;
     kw_slack_enabled := None; kw_slack_code_block := None;
     kw_slack_full_width := None; kw_redis_key := None; kw_s3_key := None;
     kw_verbose := None |}.

Definition has_key {A} (o : option A) : bool :=
  match o with Some _ => true | None => false end.

(** A configuration map is falsy when it is empty. *)
Definition overrides_empty (o : PubOverrides) : bool :=
  negb (has_key (kw_output_dir o) || has_key (kw_output_file o)
        || has_key (kw_label o) || has_key (kw_convert_to_json o)
        || has_key (kw_compress o) || has_key (kw_redis_enabled o)
        || has_key (kw_redis_address o) || has_key (kw_redis_db o)
        || has_key (kw_redis_password o) || has_key (kw_redis_expire o)
        || has_key (kw_redis_serializer o) || has_key (kw_redis_encoding o)
        || has_key (kw_s3_enabled o) || has_key (kw_s3_address o)
        || has_key (kw_s3_bucket o) || has_key (kw_s3_access_key o)
        || has_key (kw_s3_secret_key o) || has_key (kw_s3_region_name o)
        || has_key (kw_s3_secure o) || has_key (kw_slack_enabled o)
        || has_key (kw_slack_code_block o) || has_key (kw_slack_full_width o)
        || has_key (kw_redis_key o) || has_key (kw_s3_key o)
        || has_key (kw_verbose o)).

(** One call of [publish.publish]: the payload and the keyword arguments
    ([output_dir] is resolved with the others but not handed over). *)
Record PublishCall : Type := {
  pub_data : string;
  pub_args : PubCfg
}.

(** *** The members of [self]

    The attributes are grouped by the methods that write them together.
    Attributes that no modelled method reads ([num_shares], [result],
    [last_close], [config_dict], [created_date]) are left out. *)

Record Account : Type := {
  balance : Q;
  buys : list Order;
  sells : list Order;
  positions : gmap string Position
}.

(** [num_owned], [num_buys], [num_sells]: what [get_ticker_positions] last
    returned.  [num_buys] and [num_sells] hold the position's lists; every
    method that appends to those lists refreshes the three members before
    it returns, so the copy kept here and the shared Python list agree
    whenever they are read. *)
Record Counters : Type := {
  num_owned : option Z;
  num_buys : option (list Order);
  num_sells : option (list Order)
}.

Record Flags : Type := {
  created_buy : bool;
  created_sell : bool;
  should_buy : bool;
  should_sell : bool
}.

Record Market : Type := {
  ds_id : option string;
  ds_date : option string;
  ds_data : DsData;
  last_ds_id : option string;
  last_ds_date : option string;
  last_ds_data : DsData;
  df_daily : PyVal;
  df_minute : PyVal;
  df_stats : PyVal;
  df_peers : PyVal;
  df_financials : PyVal;
  df_earnings : PyVal;
  df_dividends : PyVal;
  df_quote : PyVal;
  df_company : PyVal;
  df_iex_news : PyVal;
  df_yahoo_news : PyVal;
  df_options : PyVal;
  df_pricing : PyVal
}.

Record Latest : Type := {
  trade_date : option string;
  latest_high : Q;
  latest_low : Q;
  latest_open : Q;
  latest_close : Q;
  latest_volume : PyVal;
  trade_price : Q;
  starting_close : Q
}.

Record Settings : Type := {
  name : string;
  tickers : option (list string);
  commission : Q;
  starting_balance : Q;
  raise_on_err : bool;
  empty_pd : PyVal;
  empty_pd_str : string;
  version : Z;
  trade_type : PyVal;
  buy_hold_units : Z;
  sell_hold_units : Z;
  spread_exp_date : PyVal;
  ask : Q;
  bid : Q;
  buy_strength : PyVal;
  buy_risk : PyVal;
  sell_strength : PyVal;
  sell_risk : PyVal;
  stop_loss : PyVal;
  trailing_stop_loss : PyVal;
  note : PyVal;
  publish_to_slack : bool;
  publish_to_s3 : PyVal;
  publish_to_redis : PyVal;
  publish_history : bool;
  publish_report : bool;
  publish_input : bool;
  output_file_dir : option string;
  output_file_prefix : option string;
  save_as_key : string;
  default_output_file : string;
  default_s3_key : string;
  default_redis_key : string;
  default_input_output_file : string;
  default_history_output_file : string;
  default_report_output_file : string;
  default_input_redis_key : string;
  default_history_redis_key : string;
  default_report_redis_key : string;
  load_from_s3 : option string;
  load_from_redis : option string;
  load_from_file : option string;
  load_is_compress : bool
}.

Record Run : Type := {
  debug_msg : string;
  ticker : option string;
  prev_bal : option Q;
  prev_num_owned : option Z;
  loaded_dataset : option Dataset;
  last_handle_data : option Dataset;
  last_history_dict : PyVal;
  order_history : list PyVal
}.

Record Engine : Type := {
  acct : Account;
  counters : Counters;
  flags : Flags;
  market : Market;
  latest : Latest;
  settings : Settings;
  input_cfg : PubCfg;
  history_cfg : PubCfg;
  report_cfg : PubCfg;
  run : Run
}.

(** Assignments to members, as functions on the engine. *)

Definition set_acct (a : Account) (e : Engine) : Engine :=
  {| acct := a; counters := counters e; flags := flags e; market := market e;
     latest := latest e; settings := settings e; input_cfg := input_cfg e;
     history_cfg := history_cfg e; report_cfg := report_cfg e; run := run e |}.

Definition set_counters (c : Counters) (e : Engine) : Engine :=
  {| acct := acct e; counters := c; flags := flags e; market := market e;
     latest := latest e; settings := settings e; input_cfg := input_cfg e;
     history_cfg := history_cfg e; report_cfg := report_cfg e; run := run e |}.

Definition set_flags (f : Flags) (e : Engine) : Engine :=
  {| acct := acct e; counters := counters e; flags := f; market := market e;
     latest := latest e; settings := settings e; input_cfg := input_cfg e;
     history_cfg := history_cfg e; report_cfg := report_cfg e; run := run e |}.

Definition set_market (m : Market) (e : Engine) : Engine :=
  {| acct := acct e; counters := counters e; flags := flags e; market := m;
     latest := latest e; settings := settings e; input_cfg := input_cfg e;
     history_cfg := history_cfg e; report_cfg := report_cfg e; run := run e |}.

Definition set_settings (s : Settings) (e : Engine) : Engine :=
  {| acct := acct e; counters := counters e; flags := flags e;
     market := market e; latest := latest e; settings := s; input_cfg := input_cfg e;
     history_cfg := history_cfg e; report_cfg := report_cfg e; run := run e |}.

Definition set_run (r : Run) (e : Engine) : Engine :=
  {| acct := acct e; counters := counters e; flags := flags e;
     market := market e; latest := latest e; settings := settings e; input_cfg := input_cfg e;
     history_cfg := history_cfg e; report_cfg := report_cfg e; run := r |}.

Definition set_latest (l : Latest) (e : Engine) : Engine :=
  {| acct := acct e; counters := counters e; flags := flags e;
     market := market e; latest := l; settings := settings e;
     input_cfg := input_cfg e; history_cfg := history_cfg e;
     report_cfg := report_cfg e; run := run e |}.

Definition set_balance (b : Q) (e : Engine) : Engine :=
  set_acct {| balance := b; buys := buys (acct e); sells := sells (acct e);
              positions := positions (acct e) |} e.

Definition set_position (t : string) (p : Position) (e : Engine) : Engine :=
  set_acct {| balance := balance (acct e); buys := buys (acct e);
              sells := sells (acct e);
              positions := <[t := p]> (positions (acct e)) |} e.

Definition append_buy (o : Order) (e : Engine) : Engine :=
  set_acct {| balance := balance (acct e); buys := (buys (acct e) ++ [o])%list;
              sells := sells (acct e); positions := positions (acct e) |} e.

Definition append_sell (o : Order) (e : Engine) : Engine :=
  set_acct {| balance := balance (acct e); buys := buys (acct e);
              sells := (sells (acct e) ++ [o])%list;
              positions := positions (acct e) |} e.

Definition set_created_buy (b : bool) (e : Engine) : Engine :=
  set_flags {| created_buy := b; created_sell := created_sell (flags e);
               should_buy := should_buy (flags e);
               should_sell := should_sell (flags e) |} e.

Definition set_created_sell (b : bool) (e : Engine) : Engine :=
  set_flags {| created_buy := created_buy (flags e); created_sell := b;
               should_buy := should_buy (flags e);
               should_sell := should_sell (flags e) |} e.

Definition set_should (buy sell : bool) (e : Engine) : Engine :=
  set_flags {| created_buy := created_buy (flags e);
               created_sell := created_sell (flags e);
               should_buy := buy; should_sell := sell |} e.

Definition set_debug_msg (msg : string) (e : Engine) : Engine :=
  set_run {| debug_msg := msg; ticker := ticker (run e);
             prev_bal := prev_bal (run e);
             prev_num_owned := prev_num_owned (run e);
             loaded_dataset := loaded_dataset (run e);
             last_handle_data := last_handle_data (run e);
             last_history_dict := last_history_dict (run e);
             order_history := order_history (run e) |} e.

Definition Eng : Type -> Type := ST Engine.

(** The keyword arguments of [build_trade_history_entry]. *)
Record HistoryArgs : Type := {
  h_ticker : string;
  h_algo_start_price : Q;
  h_original_balance : Q;
  h_num_owned : option Z;
  h_close : Q;
  h_balance : Q;
  h_commission : Q;
  h_date : option string;
  h_trade_type : PyVal;
  h_high : Q;
  h_low : Q;
  h_open_val : Q;
  h_volume : PyVal;
  h_ask : Q;
  h_bid : Q;
  h_stop_loss : PyVal;
  h_trailing_stop_loss : PyVal;
  h_buy_hold_units : Z;
  h_sell_hold_units : Z;
  h_spread_exp_date : PyVal;
  h_prev_balance : option Q;
  h_prev_num_owned : option Z;
  h_total_buys : option (list Order);
  h_total_sells : option (list Order);
  h_buy_triggered : bool;
  h_buy_strength : PyVal;
  h_buy_risk : PyVal;
  h_sell_triggered : bool;
  h_sell_strength : PyVal;
  h_sell_risk : PyVal;
  h_note : PyVal;
  h_ds_id : option string;
  h_version : Z
}.

(** [for x in l: body(x)] *)
Fixpoint st_for {S A} (l : list A) (body : A -> ST S unit) : ST S unit :=
  match l with
  | [] => st_ret tt
  | x :: l' => st_bind (body x) (fun _ => st_for l' body)
  end.

(** [for idx, x in enumerate(l)] with the counter [cur_idx] the loops keep. *)
Fixpoint st_for_counted {S A} (cur_idx : Z) (l : list A)
    (body : Z -> A -> ST S unit) : ST S unit :=
  match l with
  | [] => st_ret tt
  | x :: l' => st_bind (body cur_idx x) (fun _ => st_for_counted (cur_idx + 1) l' body)
  end.

(** Truth value of an optional integer and of an optional string. *)
Definition truthy_int (o : option Z) : bool :=
  match o with Some z => negb (z =? 0)%Z | None => false end.

Definition truthy_str (o : option string) : bool :=
  match o with Some s => negb (String.eqb s "") | None => false end.

Definition truthy_dataset (o : option Dataset) : bool :=
  match o with Some d => negb (Nat.eqb (size d) 0) | None => false end.

(** ['{}'.format(o)] of a string or [None] *)
Definition fmt_opt (o : option string) : string :=
  match o with Some s => s | None => "None" end.

(** *** Reading positions *)

Definition get_ticker_positions (e : Engine) (t : string) : Counters :=
  match positions (acct e) !! t with
  | Some p =>
      {| num_owned := Some (pos_shares p); num_buys := Some (pos_buys p);
         num_sells := Some (pos_sells p) |}
  | None => {| num_owned := None; num_buys := None; num_sells := None |}
  end.

Definition get_owned_shares (e : Engine) (t : string) : Z :=
  match positions (acct e) !! t with
  | Some p => pos_shares p
  | None => 0
  end.

Definition get_supported_tickers_in_data (e : Engine) (data : Dataset)
  : Outcome (list string) :=
  match tickers (settings e) with
  | Some ts => Ok (List.filter (fun t => has_key (data !! t)) ts)
  | None => Raise TypeError
  end.

(** *** What the methods leave behind *)

(** The dataset members and the settings are left as they were. *)
Definition same_frames (e e' : Engine) : Prop :=
  market e' = market e /\ settings e' = settings e.

(** [self.num_owned, self.num_buys, self.num_sells =
    self.get_ticker_positions(ticker)] *)
Definition refreshed (t : string) (e : Engine) : Engine :=
  set_counters (get_ticker_positions e t) e.

(** The engine a filled buy leaves behind. *)
Definition after_filled_buy (t : string) (o : Order) (e : Engine) : Engine :=
  refreshed t
    (append_buy o
       (set_balance (order_balance o)
          match positions (acct e) !! t with
          | Some p =>
              set_created_buy true
                (refreshed t
                   (set_position t
                      {| pos_shares := pos_shares p + order_shares o;
                         pos_buys := (pos_buys p ++ [o])%list;
                         pos_sells := pos_sells p |} e))
          | None =>
              set_position t
                {| pos_shares := order_shares o; pos_buys := [o];
                   pos_sells := [] |} e
          end)).

(** The engine a filled sell leaves behind. *)
Definition after_filled_sell (t : string) (o : Order) (e : Engine) : Engine :=
  refreshed t
    (append_sell o
       (set_balance (order_balance o)
          match positions (acct e) !! t with
          | Some p =>
              set_created_sell true
                (refreshed t
                   (set_position t
                      {| pos_shares := pos_shares p + order_shares o;
                         pos_buys := pos_buys p;
                         pos_sells := (pos_sells p ++ [o])%list |} e))
          | None =>
              set_position t
                {| pos_shares := order_shares o; pos_buys := [];
                   pos_sells := [o] |} e
          end)).

(** *** Orders *)

Section Orders.

Variable B : Builtins.
(** [analysis_engine.build_buy_order.build_buy_order] and its sell twin are
    not among the sources: the engine is stated for any pair of builders. *)
Variable build_buy_order : OrderArgs -> Outcome Order.
Variable build_sell_order : OrderArgs -> Outcome Order.

(** [row.to_json(...),] when the row has [to_json] (the trailing comma makes
    it a one-element tuple, written here as a list), else the row itself. *)
Definition order_details_of (row : PyVal) : PyVal :=
  if has_to_json row then PyList [PyStr (to_json B row)] else row.

Definition order_args (e : Engine) (t : string) (close dataset_date : PyVal)
    (shares : option Z) (details : PyVal) (reason : option string) : OrderArgs :=
  {| arg_ticker := t; arg_close := close;
     arg_num_owned := get_owned_shares e t; arg_shares := shares;
     arg_balance := balance (acct e); arg_commission := commission (settings e);
     arg_date := dataset_date;
     arg_use_key := t +:+ "_" +:+ format_val B dataset_date;
     arg_details := details; arg_reason := reason |}.

(** The handler of the order methods: record the failure, re-raise on
    [raise_on_err]. *)
Definition order_failed (what t : string) (close : PyVal) (ex : Exn) : Eng unit :=
  (e <- st_get ;;
   st_modify (set_debug_msg
     (name (settings e) +:+ " - " +:+ what +:+ " " +:+ t +:+ "@"
      +:+ format_val B close +:+ " - FAILED with ex=" +:+ format_exn B ex)) ;;;
   if raise_on_err (settings e) then st_raise ex else st_ret tt)%st.

Definition refresh_counters (t : string) : Eng unit :=
  st_modify (refreshed t).

Definition create_buy_order (t : string) (row : PyVal) (shares : option Z)
    (reason : option string) : Eng unit :=
  (close <- st_lift (getitem row "close") ;;
   dataset_date <- st_lift (getitem row "date") ;;
   let order_details := order_details_of row in
   st_try
     (e <- st_get ;;
      new_buy <- st_lift (build_buy_order
                   (order_args e t close dataset_date shares order_details reason)) ;;
      (if decide (order_status new_buy = TRADE_FILLED) then
         (match positions (acct e) !! t with
          | Some p =>
              st_modify (set_position t
                {| pos_shares := pos_shares p + order_shares new_buy;
                   pos_buys := (pos_buys p ++ [new_buy])%list;
                   pos_sells := pos_sells p |}) ;;;
              refresh_counters t ;;;
              st_modify (set_created_buy true)
          | None =>
              st_modify (set_position t
                {| pos_shares := order_shares new_buy;
                   pos_buys := [new_buy];
                   pos_sells := [] |})
          end) ;;;
         st_modify (set_balance (order_balance new_buy))
       else st_ret tt) ;;;
      st_modify (append_buy new_buy))
     (order_failed "buy" t close) ;;;
   refresh_counters t)%st.

Definition create_sell_order (t : string) (row : PyVal) (shares : option Z)
    (reason : option string) : Eng unit :=
  (close <- st_lift (getitem row "close") ;;
   dataset_date <- st_lift (getitem row "date") ;;
   let order_details := order_details_of row in
   st_try
     (e <- st_get ;;
      new_sell <- st_lift (build_sell_order
                    (order_args e t close dataset_date shares order_details reason)) ;;
      (if decide (order_status new_sell = TRADE_FILLED) then
         (match positions (acct e) !! t with
          | Some p =>
              st_modify (set_position t
                {| pos_shares := pos_shares p + order_shares new_sell;
                   pos_buys := pos_buys p;
                   pos_sells := (pos_sells p ++ [new_sell])%list |}) ;;;
              refresh_counters t ;;;
              st_modify (set_created_sell true)
          | None =>
              st_modify (set_position t
                {| pos_shares := order_shares new_sell;
                   pos_buys := [];
                   pos_sells := [new_sell] |})
          end) ;;;
         st_modify (set_balance (order_balance new_sell))
       else st_ret tt) ;;;
      st_modify (append_sell new_sell))
     (order_failed "sell" t close) ;;;
   refresh_counters t)%st.

End Orders.

(** *** Loading one dataset node *)

(** [self.df_daily.columns.values] *)
Definition columns_of (v : PyVal) : Outcome (list string) :=
  match v with
  | PyFrame cols _ => Ok cols
  | _ => Raise (AttributeError "columns")
  end.

Definition in_columns (col : string) (cols : list string) : bool :=
  existsb (String.eqb col) cols.

Fixpoint column_index (col : string) (cols : list string) : option nat :=
  match cols with
  | [] => None
  | c :: cols' =>
      if String.eqb col c then Some 0%nat
      else option_map S (column_index col cols')
  end.

(** [df.iloc[-1][col]]: the cell of the last row under the column.  The
    cell is read as it is stored: numbers are exact in the model, so the
    rounding pandas applies when it brings a row of mixed integer and float
    columns to one float type is not represented. *)
Definition last_cell (v : PyVal) (col : string) : Outcome PyVal :=
  match v with
  | PyFrame cols rows =>
      match List.last (List.map Some rows) None with
      | None => Raise IndexError
      | Some r =>
          match column_index col cols with
          | None => Raise (KeyError col)
          | Some i =>
              match r !! i with
              | Some c => Ok c
              | None => Raise IndexError
              end
          end
      end
  | _ => Raise (AttributeError "iloc")
  end.

(** [len(df.index)] *)
Definition index_len (v : PyVal) : Outcome nat :=
  match v with
  | PyFrame _ rows => Ok (List.length rows)
  | PySeries items => Ok (List.length items)
  | _ => Raise (AttributeError "index")
  end.

(** [self.last_ds_* = self.ds_*], then the new id, date and data. *)
Definition backup_and_load (n : Node) (m : Market) : Market :=
  {| ds_id := Some (default "missing-ID" (node_id n));
     ds_date := Some (default "missing-DATE" (node_date n));
     ds_data := match node_data n with Some d => DsMap d | None => DsMissing end;
     last_ds_id := ds_id m; last_ds_date := ds_date m;
     last_ds_data := ds_data m;
     df_daily := df_daily m; df_minute := df_minute m; df_stats := df_stats m;
     df_peers := df_peers m; df_financials := df_financials m;
     df_earnings := df_earnings m; df_dividends := df_dividends m;
     df_quote := df_quote m; df_company := df_company m;
     df_iex_news := df_iex_news m; df_yahoo_news := df_yahoo_news m;
     df_options := df_options m; df_pricing := df_pricing m |}.

(** The thirteen [self.df_x = self.ds_data.get(key, default)]. *)
Definition assign_frames (d : gmap string PyVal) (empty : PyVal) (m : Market) : Market :=
  {| ds_id := ds_id m; ds_date := ds_date m; ds_data := ds_data m;
     last_ds_id := last_ds_id m; last_ds_date := last_ds_date m;
     last_ds_data := last_ds_data m;
     df_daily := dict_get d "daily" empty;
     df_minute := dict_get d "minute" empty;
     df_stats := dict_get d "stats" empty;
     df_peers := dict_get d "peers" empty;
     df_financials := dict_get d "financials" empty;
     df_earnings := dict_get d "earnings" empty;
     df_dividends := dict_get d "dividends" empty;
     df_quote := dict_get d "quote" empty;
     df_company := dict_get d "company" empty;
     df_iex_news := dict_get d "news1" empty;
     df_yahoo_news := dict_get d "news" empty;
     df_options := dict_get d "options" empty;
     df_pricing := dict_get d "pricing" (PyDict []) |}.

(** [if not hasattr(v, 'empty'): v = self.empty_pd] *)
Definition or_empty (empty v : PyVal) : PyVal :=
  if has_empty v then v else empty.

(** The thirteen [hasattr] checks, [df_pricing] among them. *)
Definition check_frames (empty : PyVal) (m : Market) : Market :=
  {| ds_id := ds_id m; ds_date := ds_date m; ds_data := ds_data m;
     last_ds_id := last_ds_id m; last_ds_date := last_ds_date m;
     last_ds_data := last_ds_data m;
     df_daily := or_empty empty (df_daily m);
     df_minute := or_empty empty (df_minute m);
     df_stats := or_empty empty (df_stats m);
     df_peers := or_empty empty (df_peers m);
     df_financials := or_empty empty (df_financials m);
     df_earnings := or_empty empty (df_earnings m);
     df_dividends := or_empty empty (df_dividends m);
     df_quote := or_empty empty (df_quote m);
     df_company := or_empty empty (df_company m);
     df_iex_news := or_empty empty (df_iex_news m);
     df_yahoo_news := or_empty empty (df_yahoo_news m);
     df_options := or_empty empty (df_options m);
     df_pricing := or_empty empty (df_pricing m) |}.

Definition set_trade_date (d : option string) (l : Latest) : Latest :=
  {| trade_date := d; latest_high := latest_high l; latest_low := latest_low l;
     latest_open := latest_open l; latest_close := latest_close l;
     latest_volume := latest_volume l; trade_price := trade_price l;
     starting_close := starting_close l |}.

Definition set_latest_high (q : Q) (l : Latest) : Latest :=
  {| trade_date := trade_date l; latest_high := q; latest_low := latest_low l;
     latest_open := latest_open l; latest_close := latest_close l;
     latest_volume := latest_volume l; trade_price := trade_price l;
     starting_close := starting_close l |}.

Definition set_latest_low (q : Q) (l : Latest) : Latest :=
  {| trade_date := trade_date l; latest_high := latest_high l; latest_low := q;
     latest_open := latest_open l; latest_close := latest_close l;
     latest_volume := latest_volume l; trade_price := trade_price l;
     starting_close := starting_close l |}.

Definition set_latest_open (q : Q) (l : Latest) : Latest :=
  {| trade_date := trade_date l; latest_high := latest_high l;
     latest_low := latest_low l; latest_open := q;
     latest_close := latest_close l; latest_volume := latest_volume l;
     trade_price := trade_price l; starting_close := starting_close l |}.

(** [latest_close], [trade_price] and, while it is still zero,
    [starting_close]. *)
Definition set_latest_close (q : Q) (l : Latest) : Latest :=
  {| trade_date := trade_date l; latest_high := latest_high l;
     latest_low := latest_low l; latest_open := latest_open l;
     latest_close := q; latest_volume := latest_volume l; trade_price := q;
     starting_close :=
       if Qis_zero (starting_close l) then q else starting_close l |}.

Definition set_latest_volume (v : PyVal) (l : Latest) : Latest :=
  {| trade_date := trade_date l; latest_high := latest_high l;
     latest_low := latest_low l; latest_open := latest_open l;
     latest_close := latest_close l; latest_volume := v;
     trade_price := trade_price l; starting_close := starting_close l |}.

Section Dataset.

Variable B : Builtins.

(** [if col in columns: self.member = conv(self.df_daily.iloc[-1][col])] *)
Definition load_column {A} (cols : list string) (col : string)
    (conv : PyVal -> Outcome A) (store : A -> Latest -> Latest) : Eng unit :=
  (if in_columns col cols then
     e <- st_get ;;
     cell <- st_lift (last_cell (df_daily (market e)) col) ;;
     x <- st_lift (conv cell) ;;
     st_modify (fun e => set_latest (store x (latest e)) e)
   else st_ret tt)%st.

Definition load_latest_prices : Eng unit :=
  (e <- st_get ;;
   if has_empty (df_daily (market e)) then
     columns <- st_lift (columns_of (df_daily (market e))) ;;
     load_column columns "high" (py_float B) set_latest_high ;;;
     load_column columns "low" (py_float B) set_latest_low ;;;
     load_column columns "open" (py_float B) set_latest_open ;;;
     load_column columns "close" (py_float B) set_latest_close ;;;
     load_column columns "volume"
       (fun c => match py_int B c with Ok z => Ok (PyInt z) | Raise x => Raise x end)
       set_latest_volume
   else st_ret tt)%st.

Definition load_from_dataset (ds_data : Node) : Eng unit :=
  (st_modify (fun e => set_market (backup_and_load ds_data (market e)) e) ;;;
   match node_data ds_data with
   | None => st_raise (AttributeError "get")
   | Some d =>
       st_modify (fun e =>
         set_market (assign_frames d (empty_pd (settings e)) (market e)) e) ;;;
       st_modify (fun e =>
         set_market (check_frames (empty_pd (settings e)) (market e)) e) ;;;
       st_modify (fun e =>
         set_latest (set_trade_date (ds_date (market e)) (latest e)) e) ;;;
       st_modify (set_flags
         {| created_buy := false; created_sell := false;
            should_buy := false; should_sell := false |}) ;;;
       st_try load_latest_prices
         (fun ex =>
            e <- st_get ;;
            st_modify (set_debug_msg
              (name (settings e)
               +:+ " handle - FAILED getting latest prices for algo="
               +:+ fmt_opt (ds_id (market e)) +:+ " - ds="
               +:+ fmt_opt (ds_date (market e)) +:+ " ex="
               +:+ format_exn B ex)) ;;;
            if raise_on_err (settings e) then st_raise ex else st_ret tt)
   end)%st.

End Dataset.

(** *** Running a dataset through the engine *)

Definition set_ticker_and_prev (t : string) (e : Engine) : Engine :=
  set_run {| debug_msg := debug_msg (run e); ticker := Some t;
             prev_bal := Some (balance (acct e));
             prev_num_owned := num_owned (counters e);
             loaded_dataset := loaded_dataset (run e);
             last_handle_data := last_handle_data (run e);
             last_history_dict := last_history_dict (run e);
             order_history := order_history (run e) |} e.

Definition set_last_history_dict (h : PyVal) (e : Engine) : Engine :=
  set_run {| debug_msg := debug_msg (run e); ticker := ticker (run e);
             prev_bal := prev_bal (run e);
             prev_num_owned := prev_num_owned (run e);
             loaded_dataset := loaded_dataset (run e);
             last_handle_data := last_handle_data (run e);
             last_history_dict := h;
             order_history := order_history (run e) |} e.

Definition append_history (h : PyVal) (e : Engine) : Engine :=
  set_run {| debug_msg := debug_msg (run e); ticker := ticker (run e);
             prev_bal := prev_bal (run e);
             prev_num_owned := prev_num_owned (run e);
             loaded_dataset := loaded_dataset (run e);
             last_handle_data := last_handle_data (run e);
             last_history_dict := last_history_dict (run e);
             order_history := (order_history (run e) ++ [h])%list |} e.

Definition set_last_handle_data (d : Dataset) (e : Engine) : Engine :=
  set_run {| debug_msg := debug_msg (run e); ticker := ticker (run e);
             prev_bal := prev_bal (run e);
             prev_num_owned := prev_num_owned (run e);
             loaded_dataset := loaded_dataset (run e);
             last_handle_data := Some d;
             last_history_dict := last_history_dict (run e);
             order_history := order_history (run e) |} e.

Definition set_loaded_dataset (d : option Dataset) (e : Engine) : Engine :=
  set_run {| debug_msg := debug_msg (run e); ticker := ticker (run e);
             prev_bal := prev_bal (run e);
             prev_num_owned := prev_num_owned (run e);
             loaded_dataset := d;
             last_handle_data := last_handle_data (run e);
             last_history_dict := last_history_dict (run e);
             order_history := order_history (run e) |} e.

Definition reset_for_next_run (e : Engine) : Engine :=
  set_run {| debug_msg := ""; ticker := ticker (run e);
             prev_bal := prev_bal (run e);
             prev_num_owned := prev_num_owned (run e);
             loaded_dataset := None;
             last_handle_data := None;
             last_history_dict := PyNone;
             order_history := [] |} e.

Section Run.

Variable B : Builtins.
Variable build_buy_order : OrderArgs -> Outcome Order.
Variable build_sell_order : OrderArgs -> Outcome Order.
(** [build_trade_history_entry] and [get_percent_done] are not among the
    sources either. *)
Variable build_trade_history_entry : HistoryArgs -> Outcome PyVal.
Variable get_percent_done : Z -> Z -> string.

(** The example row of the default [process]. *)
Definition example_row (algo_id : string) : PyVal :=
  PyDict [("name", PyStr algo_id); ("close", PyFloat (270 # 1));
          ("date", PyStr "2018-11-02")].

(** [BaseAlgo.process], the default strategy. *)
Definition process (algo_id t : string) (dataset : Node) : Eng unit :=
  (e <- st_get ;;
   (* the status line reads self.ticker *)
   st_lift (match ticker (run e) with
            | Some _ => Ok tt
            | None => Raise (AttributeError "ticker")
            end) ;;;
   st_modify (set_should false false) ;;;
   (* 'process has df_daily rows={}'.format(len(self.df_daily.index)) *)
   st_lift (index_len (df_daily (market e))) ;;;
   e <- st_get ;;
   (if truthy_int (num_owned (counters e)) && should_sell (flags e) then
      create_sell_order B build_sell_order t (example_row algo_id) None
        (Some "testing")
    else st_ret tt) ;;;
   e <- st_get ;;
   (if should_buy (flags e) then
      create_buy_order B build_buy_order t (example_row algo_id) None
        (Some "testing")
    else st_ret tt) ;;;
   e <- st_get ;;
   (if truthy_int (num_owned (counters e)) && negb (created_sell (flags e)) then
      create_sell_order B build_sell_order t (example_row algo_id) None
        (Some "testing")
    else st_ret tt))%st.

Definition history_args (e : Engine) (t : string) : HistoryArgs :=
  {| h_ticker := t;
     h_algo_start_price := starting_close (latest e);
     h_original_balance := starting_balance (settings e);
     h_num_owned := num_owned (counters e);
     h_close := trade_price (latest e);
     h_balance := balance (acct e);
     h_commission := commission (settings e);
     h_date := trade_date (latest e);
     h_trade_type := trade_type (settings e);
     h_high := latest_high (latest e);
     h_low := latest_low (latest e);
     h_open_val := latest_open (latest e);
     h_volume := latest_volume (latest e);
     h_ask := ask (settings e);
     h_bid := bid (settings e);
     h_stop_loss := stop_loss (settings e);
     h_trailing_stop_loss := trailing_stop_loss (settings e);
     h_buy_hold_units := buy_hold_units (settings e);
     h_sell_hold_units := sell_hold_units (settings e);
     h_spread_exp_date := spread_exp_date (settings e);
     h_prev_balance := prev_bal (run e);
     h_prev_num_owned := prev_num_owned (run e);
     h_total_buys := num_buys (counters e);
     h_total_sells := num_sells (counters e);
     h_buy_triggered := should_buy (flags e);
     h_buy_strength := buy_strength (settings e);
     h_buy_risk := buy_risk (settings e);
     h_sell_triggered := should_sell (flags e);
     h_sell_strength := sell_strength (settings e);
     h_sell_risk := sell_risk (settings e);
     h_note := note (settings e);
     h_ds_id := ds_id (market e);
     h_version := version (settings e) |}.

Definition get_trade_history_node : Eng PyVal :=
  (e <- st_get ;;
   match ticker (run e) with
   | Some t => st_lift (build_trade_history_entry (history_args e t))
   | None => st_raise (AttributeError "ticker")
   end)%st.

Definition build_progress_label (progress total : Z) : string :=
  get_percent_done progress total +:+ " " +:+ format_val B (PyInt progress)
  +:+ "/" +:+ format_val B (PyInt total).

(** The strategy hook: [process] of [BaseAlgo] or of a derived class. *)
Variable strategy : string -> string -> Node -> Eng unit.

Definition node_id_or_missing (n : Node) : string :=
  default "missing-id" (node_id n).

(** The body of the inner loop of [handle_data]. *)
Definition handle_node (t : string) (num_ticker_datasets : Z) (cur_idx : Z)
    (node : Node) : Eng unit :=
  (let track_label := build_progress_label cur_idx num_ticker_datasets in
   let algo_id := "ticker=" +:+ t +:+ " " +:+ track_label in
   (* the log line reads node['date'] *)
   st_lift (match node_date node with
            | Some _ => Ok tt
            | None => Raise (KeyError "date")
            end) ;;;
   st_modify (set_ticker_and_prev t) ;;;
   st_modify (refreshed t) ;;;
   st_modify (set_debug_msg
     (t +:+ " START - load dataset id=" +:+ node_id_or_missing node)) ;;;
   load_from_dataset B node ;;;
   st_modify (set_debug_msg
     (t +:+ " END - load dataset id=" +:+ node_id_or_missing node)) ;;;
   st_modify (set_debug_msg
     (t +:+ " START - process id=" +:+ node_id_or_missing node)) ;;;
   strategy algo_id t node ;;;
   st_modify (set_debug_msg
     (t +:+ " END - process id=" +:+ node_id_or_missing node)) ;;;
   st_modify (set_debug_msg
     (t +:+ " START - history id=" +:+ node_id_or_missing node)) ;;;
   h <- get_trade_history_node ;;
   st_modify (set_last_history_dict h) ;;;
   keep <- st_lift (truthy h) ;;
   (if keep : bool then st_modify (append_history h) else st_ret tt) ;;;
   st_modify (set_debug_msg
     (t +:+ " END - history id=" +:+ node_id_or_missing node)))%st.

Definition handle_data (data : Dataset) : Eng unit :=
  (st_modify (fun e => set_debug_msg (name (settings e) +:+ " handle - start") e) ;;;
   e <- st_get ;;
   let data :=
     if truthy_dataset (loaded_dataset (run e))
     then default data (loaded_dataset (run e))
     else data in
   data_for_tickers <- st_lift (get_supported_tickers_in_data e data) ;;
   let num_tickers := Z.of_nat (List.length data_for_tickers) in
   (if (0 <? num_tickers)%Z then
      st_modify (set_debug_msg
        (name (settings e) +:+ " handle - tickers="
         +:+ default "" (json_dumps B (PyList (List.map PyStr data_for_tickers)))))
    else st_ret tt) ;;;
   st_for data_for_tickers (fun t =>
     let nodes := default [] (data !! t) in
     st_for_counted 1 nodes (handle_node t (Z.of_nat (List.length nodes)))) ;;;
   st_modify (set_last_handle_data data) ;;;
   st_modify (fun e => set_debug_msg
     (name (settings e) +:+ " handle - end tickers="
      +:+ format_val B (PyInt num_tickers)) e))%st.

End Run.

(** *** The replay of a dataset, as the description has it

    Section 4.1 describes a run as a state machine: for each ticker of the
    map that the engine supports, for each dataset node of that ticker in
    order, snapshot the previous balance and shares, load the node (which
    resets the trigger flags), invoke the strategy, append one trade
    history entry; after all nodes the map is retained.  [replay] is that
    machine on one given map, written over the list of the nodes to visit;
    it keeps the status line of the code in [debug_msg].  The properties
    compare [handle_data] with it. *)

(** The nodes of one ticker, numbered from [i], with the ticker and the
    number of its nodes. *)
Fixpoint numbered (t : string) (total : Z) (i : Z) (nodes : list Node)
  : list (string * Z * Z * Node) :=
  match nodes with
  | [] => []
  | n :: nodes' => (t, total, i, n) :: numbered t total (i + 1) nodes'
  end.

(** The nodes to visit, in order: ticker by ticker, and for each ticker its
    nodes in the order of the map. *)
Definition replay_plan (supported : list string) (data : Dataset)
  : list (string * Z * Z * Node) :=
  List.flat_map
    (fun t =>
       let nodes := default [] (data !! t) in
       numbered t (Z.of_nat (List.length nodes)) 1 nodes)
    supported.

Section Replay.

Variable B : Builtins.
Variable build_trade_history_entry : HistoryArgs -> Outcome PyVal.
Variable get_percent_done : Z -> Z -> string.
Variable strategy : string -> string -> Node -> Eng unit.

(** One node of the run. *)
Definition replay_node (item : string * Z * Z * Node) : Eng unit :=
  (let '(t, total, i, node) := item in
   let id := default "missing-id" (node_id node) in
   let algo_id :=
     "ticker=" +:+ t +:+ " " +:+ get_percent_done i total +:+ " "
     +:+ format_val B (PyInt i) +:+ "/" +:+ format_val B (PyInt total) in
   match node_date node with
   | None => st_raise (KeyError "date")
   | Some _ =>
       (* snapshot the previous balance and shares *)
       st_modify (fun e =>
         set_debug_msg (t +:+ " START - load dataset id=" +:+ id)
           (set_counters (get_ticker_positions e t)
              (set_run {| debug_msg := debug_msg (run e); ticker := Some t;
                          prev_bal := Some (balance (acct e));
                          prev_num_owned := num_owned (counters e);
                          loaded_dataset := loaded_dataset (run e);
                          last_handle_data := last_handle_data (run e);
                          last_history_dict := last_history_dict (run e);
                          order_history := order_history (run e) |} e))) ;;;
       (* load the node *)
       load_from_dataset B node ;;;
       (* invoke the strategy *)
       st_modify (set_debug_msg (t +:+ " START - process id=" +:+ id)) ;;;
       strategy algo_id t node ;;;
       (* append one trade history entry *)
       st_modify (set_debug_msg (t +:+ " START - history id=" +:+ id)) ;;;
       h <- get_trade_history_node build_trade_history_entry ;;
       st_modify (set_last_history_dict h) ;;;
       keep <- st_lift (truthy h) ;;
       (if keep : bool then st_modify (append_history h) else st_ret tt) ;;;
       st_modify (set_debug_msg (t +:+ " END - history id=" +:+ id))
   end)%st.

(** The run on the map [data]. *)
Definition replay (data : Dataset) : Eng unit :=
  (st_modify (fun e => set_debug_msg (name (settings e) +:+ " handle - start") e) ;;;
   e <- st_get ;;
   match tickers (settings e) with
   | None => st_raise TypeError
   | Some ts =>
       (* the ticker filter *)
       let supported := List.filter (fun t => has_key (data !! t)) ts in
       let num_tickers := Z.of_nat (List.length supported) in
       (match supported with
        | [] => st_ret tt
        | _ :: _ =>
            st_modify (set_debug_msg
              (name (settings e) +:+ " handle - tickers="
               +:+ default ""
                     (json_dumps B (PyList (List.map PyStr supported)))))
        end) ;;;
       st_for (replay_plan supported data) replay_node ;;;
       (* the map is retained *)
       st_modify (fun e =>
         set_debug_msg
           (name (settings e) +:+ " handle - end tickers="
            +:+ format_val B (PyInt num_tickers))
           (set_last_handle_data data e))
   end)%st.

End Replay.

(** *** Loading a dataset from an external source *)

Definition set_load_selectors (s3 redis file : option string) (s : Settings) : Settings :=
  {| name := name s; tickers := tickers s; commission := commission s;
     starting_balance := starting_balance s; raise_on_err := raise_on_err s;
     empty_pd := empty_pd s; empty_pd_str := empty_pd_str s;
     version := version s; trade_type := trade_type s;
     buy_hold_units := buy_hold_units s; sell_hold_units := sell_hold_units s;
     spread_exp_date := spread_exp_date s; ask := ask s; bid := bid s;
     buy_strength := buy_strength s; buy_risk := buy_risk s;
     sell_strength := sell_strength s; sell_risk := sell_risk s;
     stop_loss := stop_loss s; trailing_stop_loss := trailing_stop_loss s;
     note := note s; publish_to_slack := publish_to_slack s;
     publish_to_s3 := publish_to_s3 s; publish_to_redis := publish_to_redis s;
     publish_history := publish_history s; publish_report := publish_report s;
     publish_input := publish_input s; output_file_dir := output_file_dir s;
     output_file_prefix := output_file_prefix s; save_as_key := save_as_key s;
     default_output_file := default_output_file s;
     default_s3_key := default_s3_key s;
     default_redis_key := default_redis_key s;
     default_input_output_file := default_input_output_file s;
     default_history_output_file := default_history_output_file s;
     default_report_output_file := default_report_output_file s;
     default_input_redis_key := default_input_redis_key s;
     default_history_redis_key := default_history_redis_key s;
     default_report_redis_key := default_report_redis_key s;
     load_from_s3 := s3; load_from_redis := redis; load_from_file := file;
     load_is_compress := load_is_compress s |}.

Section ExternalSource.

(** [os.path.exists] and [load_algo_dataset_from_file]: the file system. *)
Variable file_exists : string -> bool.
Variable load_algo_dataset_from_file : string -> bool -> Outcome (option Dataset).

Definition load_from_external_source (path_to_file s3_key redis_key : option string)
  : Eng unit :=
  (st_modify (fun e =>
     let s := settings e in
     set_settings (set_load_selectors
       (if truthy_str s3_key then s3_key else load_from_s3 s)
       (if truthy_str redis_key then redis_key else load_from_redis s)
       (if truthy_str path_to_file then path_to_file else load_from_file s) s) e) ;;;
   e <- st_get ;;
   let s := settings e in
   if truthy_str (load_from_s3 s) then
     st_modify (set_debug_msg
       ("external load START - s3=" +:+ fmt_opt (load_from_s3 s)))
   else if truthy_str (load_from_redis s) then
     st_modify (set_debug_msg
       ("external load START - redis=" +:+ fmt_opt (load_from_redis s)))
   else if truthy_str (load_from_file s) then
     let f := fmt_opt (load_from_file s) in
     if file_exists f then
       st_modify (set_debug_msg ("external load START - file=" +:+ f)) ;;;
       ds <- st_lift (load_algo_dataset_from_file f (load_is_compress s)) ;;
       st_modify (set_loaded_dataset ds) ;;;
       if truthy_dataset ds then
         st_modify (set_debug_msg ("external load SUCCESS - file=" +:+ f))
       else
         st_modify (set_debug_msg ("external load FAILED - file=" +:+ f)) ;;;
         st_raise (Exception ("external load FAILED - file=" +:+ f))
     else
       st_modify (set_debug_msg ("external load - did not find file=" +:+ f)) ;;;
       st_raise (Exception ("external load - did not find file=" +:+ f))
   else st_ret tt)%st.

End ExternalSource.

(** *** Publishing *)

Definition with_output_file (f : option string) (a : PubCfg) : PubCfg :=
  {| output_dir := output_dir a; output_file := f; label := label a;
     convert_to_json := convert_to_json a; compress := compress a;
     redis_enabled := redis_enabled a; redis_address := redis_address a;
     redis_db := redis_db a; redis_password := redis_password a;
     redis_expire := redis_expire a; redis_serializer := redis_serializer a;
     redis_encoding := redis_encoding a; s3_enabled := s3_enabled a;
     s3_address := s3_address a; s3_bucket := s3_bucket a;
     s3_access_key := s3_access_key a; s3_secret_key := s3_secret_key a;
     s3_region_name := s3_region_name a; s3_secure := s3_secure a;
     slack_enabled := slack_enabled a; slack_code_block := slack_code_block a;
     slack_full_width := slack_full_width a; redis_key := redis_key a;
     s3_key := s3_key a; verbose := verbose a |}.

(** The [kwargs.get(key, self.member)] block that opens each publish method.
    [output_dir] falls back to [self.output_file_dir] and [label] to
    [self.name]; every other key falls back to the member of the surface. *)
Definition resolve_kwargs (kw : PubOverrides) (e : Engine) (cfg : PubCfg) : PubCfg :=
  {| output_dir := default (output_file_dir (settings e)) (kw_output_dir kw);
     output_file := default (output_file cfg) (kw_output_file kw);
     label := default (name (settings e)) (kw_label kw);
     convert_to_json := default (convert_to_json cfg) (kw_convert_to_json kw);
     compress := default (compress cfg) (kw_compress kw);
     redis_enabled := default (redis_enabled cfg) (kw_redis_enabled kw);
     redis_address := default (redis_address cfg) (kw_redis_address kw);
     redis_db := default (redis_db cfg) (kw_redis_db kw);
     redis_password := default (redis_password cfg) (kw_redis_password kw);
     redis_expire := default (redis_expire cfg) (kw_redis_expire kw);
     redis_serializer := default (redis_serializer cfg) (kw_redis_serializer kw);
     redis_encoding := default (redis_encoding cfg) (kw_redis_encoding kw);
     s3_enabled := default (s3_enabled cfg) (kw_s3_enabled kw);
     s3_address := default (s3_address cfg) (kw_s3_address kw);
     s3_bucket := default (s3_bucket cfg) (kw_s3_bucket kw);
     s3_access_key := default (s3_access_key cfg) (kw_s3_access_key kw);
     s3_secret_key := default (s3_secret_key cfg) (kw_s3_secret_key kw);
     s3_region_name := default (s3_region_name cfg) (kw_s3_region_name kw);
     s3_secure := default (s3_secure cfg) (kw_s3_secure kw);
     slack_enabled := default (slack_enabled cfg) (kw_slack_enabled kw);
     slack_code_block := default (slack_code_block cfg) (kw_slack_code_block kw);
     slack_full_width := default (slack_full_width cfg) (kw_slack_full_width kw);
     redis_key := default (redis_key cfg) (kw_redis_key kw);
     s3_key := default (s3_key cfg) (kw_s3_key kw);
     verbose := default (verbose cfg) (kw_verbose kw) |}.

(** [output_data = {'test': 'hello'}] *)
Definition placeholder_output_data : PyVal := PyDict [("test", PyStr "hello")].

(** The local [output_file] once the [if self.raise_on_err:] block has
    run: without a usable file, an engine that raises on errors falls back
    to [<output_dir>/<surface>-<prefix>.json]. *)
Definition resolved_output_file (surface : string) (a : PubCfg) (e : Engine)
  : option string :=
  if raise_on_err (settings e) && negb (truthy_str (output_file a))
  then Some (fmt_opt (output_dir a) +:+ "/" +:+ surface +:+ "-"
             +:+ fmt_opt (output_file_prefix (settings e)) +:+ ".json")
  else output_file a.

Section Publish.

Variable B : Builtins.
(** [publish.publish]: the status the multi-sink utility answers a call with. *)
Variable publish : PublishCall -> Status.

Definition Pub : Type -> Type := ST (list PublishCall).

(** [publish_report_datasets] and [publish_trade_history] are the same text
    up to the surface they name: [surface] is ["report"] or ["history"],
    [enabled] the flag [self.publish_report] or [self.publish_history] and
    [cfg] the members [self.report_*] or [self.history_*]. *)
Definition publish_surface (surface : string) (enabled : bool) (cfg : PubCfg)
    (kw : PubOverrides) (e : Engine) : Pub (Status * option string) :=
  (let a := resolve_kwargs kw e cfg in
   let status := NOT_RUN in
   let output_file := resolved_output_file surface a e in
   if negb enabled then st_ret (status, output_file)
   else if negb (truthy_str output_file) then st_ret (INVALID, output_file)
   else if truthy_str output_file then
     match json_dumps B placeholder_output_data with
     | None => st_raise TypeError
     | Some use_data =>
         let c := {| pub_data := use_data;
                     pub_args := with_output_file output_file a |} in
         fun tr => (Ok (publish c, output_file), (tr ++ [c])%list)
     end
   else st_ret (status, output_file))%st.

Definition publish_report_datasets (kw : PubOverrides) (e : Engine)
  : Pub (Status * option string) :=
  publish_surface "report" (publish_report (settings e)) (report_cfg e) kw e.

Definition publish_trade_history (kw : PubOverrides) (e : Engine)
  : Pub (Status * option string) :=
  publish_surface "history" (publish_history (settings e)) (history_cfg e) kw e.

(** The conversion [publish_input_datasets] applies to each value of a
    node's data before it publishes them. *)
Definition serialize_value (empty_ds : string) (data_val : PyVal) : Outcome string :=
  if has_to_json data_val then Ok (to_json B data_val)
  else
    match truthy data_val with
    | Raise x => Raise x
    | Ok false => Ok empty_ds
    | Ok true =>
        match json_dumps B data_val with
        | Some s => Ok s
        | None => Raise TypeError
        end
    end.

End Publish.

(** *** Publishing the input datasets *)

(** [new_node]: the id and the date of a node, and its data converted to
    strings. *)
Record NewNode : Type := {
  new_id : string;
  new_date : string;
  new_data : gmap string string
}.

(** [for x in l: acc = body(acc, x)] *)
Fixpoint st_fold {S A X} (l : list A) (acc : X) (body : X -> A -> ST S X)
  : ST S X :=
  match l with
  | [] => st_ret acc
  | x :: l' => st_bind (body acc x) (fun acc' => st_fold l' acc' body)
  end.

(** [self.get_supported_tickers_in_data(data=self.last_handle_data)]: before
    the first run the data is [None], and [ticker in None] raises as soon as
    there is a ticker to look for. *)
Definition supported_in_last_handle_data (e : Engine) : Outcome (list string) :=
  match last_handle_data (run e) with
  | Some d => get_supported_tickers_in_data e d
  | None =>
      match tickers (settings e) with
      | Some [] => Ok []
      | _ => Raise TypeError
      end
  end.

(** The engine together with the calls made to the publish utility. *)
Definition PubEng : Type -> Type := ST (Engine * list PublishCall).

Definition on_engine {A} (m : Eng A) : PubEng A :=
  fun s => let (o, e') := m (fst s) in (o, (e', snd s)).

(** [a or b], with [b] evaluated only when [a] is falsy *)
Definition py_or (a : Outcome bool) (b : Outcome bool) : Outcome bool :=
  match a with
  | Ok true => Ok true
  | Ok false => b
  | Raise x => Raise x
  end.

Section PublishInput.

Variable B : Builtins.
Variable publish : PublishCall -> Status.
Variable get_percent_done : Z -> Z -> string.
(** ['{}'.format(node)], and [json.dumps(output_record)] of a record that
    holds strings only. *)
Variable format_node : Node -> string.
Variable dump_record : gmap string (list NewNode) -> string.

(** The body of [for ds_key in node['data']:]. *)
Definition convert_value (node : Node) (new_data : gmap string string)
    (kv : string * PyVal) : Eng (gmap string string) :=
  (e <- st_get ;;
   let empty_ds := empty_pd_str (settings e) in
   let ds_key := fst kv in
   let data_val := snd kv in
   let new_data :=
     if has_key (new_data !! ds_key) then new_data
     else <[ds_key := empty_ds]> new_data in
   st_modify (set_debug_msg
     ("convert node=" +:+ format_node node +:+ " ds_key=" +:+ ds_key)) ;;;
   converted <- st_lift (serialize_value B empty_ds data_val) ;;
   st_ret (<[ds_key := converted]> new_data))%st.

(** The body of the inner loop: one node is loaded into the members and
    converted. *)
Definition convert_node (t : string) (num_ticker_datasets cur_idx : Z)
    (node : Node) : Eng NewNode :=
  (let track_label :=
     build_progress_label B get_percent_done cur_idx num_ticker_datasets in
   let algo_id := "ticker=" +:+ t +:+ " " +:+ track_label in
   (* the log line reads node['date'] *)
   date <- st_lift (match node_date node with
                    | Some d => Ok d
                    | None => Raise (KeyError "date")
                    end) ;;
   id <- st_lift (match node_id node with
                  | Some i => Ok i
                  | None => Raise (KeyError "id")
                  end) ;;
   st_modify (set_debug_msg
     (t +:+ " START - convert load dataset id=" +:+ node_id_or_missing node)) ;;;
   load_from_dataset B node ;;;
   d <- st_lift (match node_data node with
                 | Some d => Ok d
                 | None => Raise (KeyError "data")
                 end) ;;
   new_data <- st_fold (map_to_list d) ∅ (convert_value node) ;;
   st_modify (set_debug_msg
     (t +:+ " END - convert load dataset id=" +:+ node_id_or_missing node)) ;;;
   st_ret {| new_id := id; new_date := date; new_data := new_data |})%st.

(** The body of the outer loop, on the record and the counter [cur_idx]. *)
Definition convert_ticker (data : Dataset)
    (output_record : gmap string (list NewNode)) (t : string)
  : Eng (gmap string (list NewNode)) :=
  (let output_record :=
     if has_key (output_record !! t) then output_record
     else <[t := []]> output_record in
   let nodes := default [] (data !! t) in
   let num_ticker_datasets := Z.of_nat (List.length nodes) in
   res <- st_fold nodes (output_record, 1%Z)
            (fun acc node =>
               new_node <- convert_node t num_ticker_datasets (snd acc) node ;;
               st_ret (<[t := (default [] (fst acc !! t) ++ [new_node])%list]>
                         (fst acc),
                       (snd acc + 1)%Z)) ;;
   st_ret (fst res))%st.

Definition publish_input_datasets (kw : PubOverrides)
  : PubEng (Status * option string) :=
  (e <- on_engine st_get ;;
   let a := resolve_kwargs kw e (input_cfg e) in
   let status := NOT_RUN in
   let output_file := resolved_output_file "input" a e in
   if negb (publish_input (settings e)) then st_ret (status, output_file)
   else if negb (truthy_str output_file) then st_ret (INVALID, output_file)
   else
     data_for_tickers <- st_lift (supported_in_last_handle_data e) ;;
     let num_tickers := Z.of_nat (List.length data_for_tickers) in
     (if (0 <? num_tickers)%Z then
        on_engine (st_modify (set_debug_msg
          (name (settings e) +:+ " handle - tickers="
           +:+ default ""
                 (json_dumps B (PyList (List.map PyStr data_for_tickers))))))
      else st_ret tt) ;;;
     output_record <-
       on_engine (st_fold data_for_tickers ∅
                    (convert_ticker (default ∅ (last_handle_data (run e))))) ;;
     go <- st_lift
             (py_or (Ok (truthy_str output_file))
                (py_or (truthy (s3_enabled a))
                   (py_or (truthy (redis_enabled a)) (Ok (slack_enabled a))))) ;;
     if go : bool then
       let c := {| pub_data := dump_record output_record;
                   pub_args := with_output_file output_file a |} in
       fun s => (Ok (publish c, output_file), (fst s, (snd s ++ [c])%list))
     else st_ret (status, output_file))%st.

End PublishInput.

(** *** What the methods leave alone *)

(** The positions of every ticker but [t] are as they were. *)
Definition other_positions_kept (t : string) (e e' : Engine) : Prop :=
  forall t', t' <> t -> positions (acct e') !! t' = positions (acct e) !! t'.

(** The account (balance, orders and positions), the trade history and the
    settings are as they were. *)
Definition books_kept (e e' : Engine) : Prop :=
  acct e' = acct e /\ order_history (run e') = order_history (run e)
  /\ last_handle_data (run e') = last_handle_data (run e)
  /\ settings e' = settings e.

(** The same for the engine paired with the calls it made, of which there
    is none. *)
Definition books_kept_no_call (s s' : Engine * list PublishCall) : Prop :=
  books_kept (fst s) (fst s') /\ snd s' = snd s.

(** The members of the three publishing surfaces are as they were. *)
Definition surfaces_kept (e e' : Engine) : Prop :=
  input_cfg e' = input_cfg e /\ history_cfg e' = history_cfg e
  /\ report_cfg e' = report_cfg e.

(** The trade history has only gained entries. *)
Definition history_grows (e e' : Engine) : Prop :=
  order_history (run e) `prefix_of` order_history (run e').

(** No buy order was recorded, and [should_buy] is off if it was. *)
Definition buys_kept (e e' : Engine) : Prop :=
  buys (acct e') = buys (acct e)
  /\ (should_buy (flags e) = false -> should_buy (flags e') = false).

(** A starting close that was set is the one still held. *)
Definition starting_close_kept (e e' : Engine) : Prop :=
  Qis_zero (starting_close (latest e)) = false ->
  starting_close (latest e') = starting_close (latest e).

(** *** Replaying a configuration

    [load_from_config] works on [self.__dict__] by attribute name, whatever
    the attributes hold, so it is modelled on the attribute dictionary
    itself: [self_dict] maps the names of the instance's members to their
    values and [config_dict] is the argument ([None] when the caller passes
    [None]). *)

Section Config.

Context {V : Type}.

(** [if k in self.__dict__: self.__dict__[k] = config_dict[k]] *)
Definition config_step (config_dict : gmap string V) (self_dict : gmap string V)
    (k : string) : gmap string V :=
  match self_dict !! k, config_dict !! k with
  | Some _, Some v => <[k := v]> self_dict
  | _, _ => self_dict
  end.

Definition load_from_config (config_dict : option (gmap string V))
    (self_dict : gmap string V) : gmap string V :=
  match config_dict with
  | None => self_dict
  | Some cfg =>
      if Nat.eqb (size cfg) 0 then self_dict
      else List.fold_left (config_step cfg) (List.map fst (map_to_list cfg)) self_dict
  end.

End Config.

(** *** The configuration map of the constructor

    [__init__] ends with [self.load_from_config(config_dict)], which
    overwrites every member the map names and ignores every other key.  A
    configuration map is modelled by the members it names, each with a
    value of the type the member holds: a field that is [None] is a key the
    map lacks.  The members are those [__init__] has assigned by then;
    [self.ticker] and [self.last_history_dict] do not exist yet, so a map
    cannot set them, and the attributes the model leaves out have no field.
    The members of a publishing surface are named [input_<key>],
    [history_<key>] and [report_<key>], with the keys of [PubOverrides]. *)

Record AccountConfig : Type := {
  cfg_balance : option Q;
  cfg_buys : option (list Order);
  cfg_sells : option (list Order);
  cfg_positions : option (gmap string Position)
}.

Record CountersConfig : Type := {
  cfg_num_owned : option (option Z);
  cfg_num_buys : option (option (list Order));
  cfg_num_sells : option (option (list Order))
}.

Record FlagsConfig : Type := {
  cfg_created_buy : option bool;
  cfg_created_sell : option bool;
  cfg_should_buy : option bool;
  cfg_should_sell : option bool
}.

Record MarketConfig : Type := {
  cfg_ds_id : option (option string);
  cfg_ds_date : option (option string);
  cfg_ds_data : option DsData;
  cfg_last_ds_id : option (option string);
  cfg_last_ds_date : option (option string);
  cfg_last_ds_data : option DsData;
  cfg_df_daily : option PyVal;
  cfg_df_minute : option PyVal;
  cfg_df_stats : option PyVal;
  cfg_df_peers : option PyVal;
  cfg_df_financials : option PyVal;
  cfg_df_earnings : option PyVal;
  cfg_df_dividends : option PyVal;
  cfg_df_quote : option PyVal;
  cfg_df_company : option PyVal;
  cfg_df_iex_news : option PyVal;
  cfg_df_yahoo_news : option PyVal;
  cfg_df_options : option PyVal;
  cfg_df_pricing : option PyVal
}.

Record LatestConfig : Type := {
  cfg_trade_date : option (option string);
  cfg_latest_high : option Q;
  cfg_latest_low : option Q;
  cfg_latest_open : option Q;
  cfg_latest_close : option Q;
  cfg_latest_volume : option PyVal;
  cfg_trade_price : option Q;
  cfg_starting_close : option Q
}.

Record SettingsConfig : Type := {
  cfg_name : option string;
  cfg_tickers : option (option (list string));
  cfg_commission : option Q;
  cfg_starting_balance : option Q;
  cfg_raise_on_err : option bool;
  cfg_empty_pd : option PyVal;
  cfg_empty_pd_str : option string;
  cfg_version : option Z;
  cfg_trade_type : option PyVal;
  cfg_buy_hold_units : option Z;
  cfg_sell_hold_units : option Z;
  cfg_spread_exp_date : option PyVal;
  cfg_ask : option Q;
  cfg_bid : option Q;
  cfg_buy_strength : option PyVal;
  cfg_buy_risk : option PyVal;
  cfg_sell_strength : option PyVal;
  cfg_sell_risk : option PyVal;
  cfg_stop_loss : option PyVal;
  cfg_trailing_stop_loss : option PyVal;
  cfg_note : option PyVal;
  cfg_publish_to_slack : option bool;
  cfg_publish_to_s3 : option PyVal;
  cfg_publish_to_redis : option PyVal;
  cfg_publish_history : option bool;
  cfg_publish_report : option bool;
  cfg_publish_input : option bool;
  cfg_output_file_dir : option (option string);
  cfg_output_file_prefix : option (option string);
  cfg_save_as_key : option string;
  cfg_default_output_file : option string;
  cfg_default_s3_key : option string;
  cfg_default_redis_key : option string;
  cfg_default_input_output_file : option string;
  cfg_default_history_output_file : option string;
  cfg_default_report_output_file : option string;
  cfg_default_input_redis_key : option string;
  cfg_default_history_redis_key : option string;
  cfg_default_report_redis_key : option string;
  cfg_load_from_s3 : option (option string);
  cfg_load_from_redis : option (option string);
  cfg_load_from_file : option (option string);
  cfg_load_is_compress : option bool
}.

Record RunConfig : Type := {
  cfg_debug_msg : option string;
  cfg_prev_bal : option (option Q);
  cfg_prev_num_owned : option (option Z);
  cfg_loaded_dataset : option (option Dataset);
  cfg_last_handle_data : option (option Dataset);
  cfg_order_history : option (list PyVal)
}.

Record ConfigDict : Type := {
  cfg_acct : AccountConfig;
  cfg_counters : CountersConfig;
  cfg_flags : FlagsConfig;
  cfg_market : MarketConfig;
  cfg_latest : LatestConfig;
  cfg_settings : SettingsConfig;
  cfg_run : RunConfig;
  cfg_input : PubOverrides;
  cfg_history : PubOverrides;
  cfg_report : PubOverrides
}.

(** [self.__dict__[k] = config_dict[k]] for the keys [k] of one group of
    members. *)
Definition config_account (c : AccountConfig) (m : Account) : Account :=
  {| balance := default (balance m) (cfg_balance c);
     buys := default (buys m) (cfg_buys c);
     sells := default (sells m) (cfg_sells c);
     positions := default (positions m) (cfg_positions c) |}.

Definition config_counters (c : CountersConfig) (m : Counters) : Counters :=
  {| num_owned := default (num_owned m) (cfg_num_owned c);
     num_buys := default (num_buys m) (cfg_num_buys c);
     num_sells := default (num_sells m) (cfg_num_sells c) |}.

Definition config_flags (c : FlagsConfig) (m : Flags) : Flags :=
  {| created_buy := default (created_buy m) (cfg_created_buy c);
     created_sell := default (created_sell m) (cfg_created_sell c);
     should_buy := default (should_buy m) (cfg_should_buy c);
     should_sell := default (should_sell m) (cfg_should_sell c) |}.

Definition config_market (c : MarketConfig) (m : Market) : Market :=
  {| ds_id := default (ds_id m) (cfg_ds_id c);
     ds_date := default (ds_date m) (cfg_ds_date c);
     ds_data := default (ds_data m) (cfg_ds_data c);
     last_ds_id := default (last_ds_id m) (cfg_last_ds_id c);
     last_ds_date := default (last_ds_date m) (cfg_last_ds_date c);
     last_ds_data := default (last_ds_data m) (cfg_last_ds_data c);
     df_daily := default (df_daily m) (cfg_df_daily c);
     df_minute := default (df_minute m) (cfg_df_minute c);
     df_stats := default (df_stats m) (cfg_df_stats c);
     df_peers := default (df_peers m) (cfg_df_peers c);
     df_financials := default (df_financials m) (cfg_df_financials c);
     df_earnings := default (df_earnings m) (cfg_df_earnings c);
     df_dividends := default (df_dividends m) (cfg_df_dividends c);
     df_quote := default (df_quote m) (cfg_df_quote c);
     df_company := default (df_company m) (cfg_df_company c);
     df_iex_news := default (df_iex_news m) (cfg_df_iex_news c);
     df_yahoo_news := default (df_yahoo_news m) (cfg_df_yahoo_news c);
     df_options := default (df_options m) (cfg_df_options c);
     df_pricing := default (df_pricing m) (cfg_df_pricing c) |}.

Definition config_latest (c : LatestConfig) (m : Latest) : Latest :=
  {| trade_date := default (trade_date m) (cfg_trade_date c);
     latest_high := default (latest_high m) (cfg_latest_high c);
     latest_low := default (latest_low m) (cfg_latest_low c);
     latest_open := default (latest_open m) (cfg_latest_open c);
     latest_close := default (latest_close m) (cfg_latest_close c);
     latest_volume := default (latest_volume m) (cfg_latest_volume c);
     trade_price := default (trade_price m) (cfg_trade_price c);
     starting_close := default (starting_close m) (cfg_starting_close c) |}.

Definition config_settings (c : SettingsConfig) (m : Settings) : Settings :=
  {| name := default (name m) (cfg_name c);
     tickers := default (tickers m) (cfg_tickers c);
     commission := default (commission m) (cfg_commission c);
     starting_balance := default (starting_balance m) (cfg_starting_balance c);
     raise_on_err := default (raise_on_err m) (cfg_raise_on_err c);
     empty_pd := default (empty_pd m) (cfg_empty_pd c);
     empty_pd_str := default (empty_pd_str m) (cfg_empty_pd_str c);
     version := default (version m) (cfg_version c);
     trade_type := default (trade_type m) (cfg_trade_type c);
     buy_hold_units := default (buy_hold_units m) (cfg_buy_hold_units c);
     sell_hold_units := default (sell_hold_units m) (cfg_sell_hold_units c);
     spread_exp_date := default (spread_exp_date m) (cfg_spread_exp_date c);
     ask := default (ask m) (cfg_ask c);
     bid := default (bid m) (cfg_bid c);
     buy_strength := default (buy_strength m) (cfg_buy_strength c);
     buy_risk := default (buy_risk m) (cfg_buy_risk c);
     sell_strength := default (sell_strength m) (cfg_sell_strength c);
     sell_risk := default (sell_risk m) (cfg_sell_risk c);
     stop_loss := default (stop_loss m) (cfg_stop_loss c);
     trailing_stop_loss := default (trailing_stop_loss m) (cfg_trailing_stop_loss c);
     note := default (note m) (cfg_note c);
     publish_to_slack := default (publish_to_slack m) (cfg_publish_to_slack c);
     publish_to_s3 := default (publish_to_s3 m) (cfg_publish_to_s3 c);
     publish_to_redis := default (publish_to_redis m) (cfg_publish_to_redis c);
     publish_history := default (publish_history m) (cfg_publish_history c);
     publish_report := default (publish_report m) (cfg_publish_report c);
     publish_input := default (publish_input m) (cfg_publish_input c);
     output_file_dir := default (output_file_dir m) (cfg_output_file_dir c);
     output_file_prefix := default (output_file_prefix m) (cfg_output_file_prefix c);
     save_as_key := default (save_as_key m) (cfg_save_as_key c);
     default_output_file := default (default_output_file m) (cfg_default_output_file c);
     default_s3_key := default (default_s3_key m) (cfg_default_s3_key c);
     default_redis_key := default (default_redis_key m) (cfg_default_redis_key c);
     default_input_output_file := default (default_input_output_file m) (cfg_default_input_output_file c);
     default_history_output_file := default (default_history_output_file m) (cfg_default_history_output_file c);
     default_report_output_file := default (default_report_output_file m) (cfg_default_report_output_file c);
     default_input_redis_key := default (default_input_redis_key m) (cfg_default_input_redis_key c);
     default_history_redis_key := default (default_history_redis_key m) (cfg_default_history_redis_key c);
     default_report_redis_key := default (default_report_redis_key m) (cfg_default_report_redis_key c);
     load_from_s3 := default (load_from_s3 m) (cfg_load_from_s3 c);
     load_from_redis := default (load_from_redis m) (cfg_load_from_redis c);
     load_from_file := default (load_from_file m) (cfg_load_from_file c);
     load_is_compress := default (load_is_compress m) (cfg_load_is_compress c) |}.

Definition config_run (c : RunConfig) (m : Run) : Run :=
  {| debug_msg := default (debug_msg m) (cfg_debug_msg c);
     ticker := ticker m;
     prev_bal := default (prev_bal m) (cfg_prev_bal c);
     prev_num_owned := default (prev_num_owned m) (cfg_prev_num_owned c);
     loaded_dataset := default (loaded_dataset m) (cfg_loaded_dataset c);
     last_handle_data := default (last_handle_data m) (cfg_last_handle_data c);
     last_history_dict := last_history_dict m;
     order_history := default (order_history m) (cfg_order_history c) |}.

Definition config_surface (c : PubOverrides) (m : PubCfg) : PubCfg :=
  {| output_dir := default (output_dir m) (kw_output_dir c);
     output_file := default (output_file m) (kw_output_file c);
     label := default (label m) (kw_label c);
     convert_to_json := default (convert_to_json m) (kw_convert_to_json c);
     compress := default (compress m) (kw_compress c);
     redis_enabled := default (redis_enabled m) (kw_redis_enabled c);
     redis_address := default (redis_address m) (kw_redis_address c);
     redis_db := default (redis_db m) (kw_redis_db c);
     redis_password := default (redis_password m) (kw_redis_password c);
     redis_expire := default (redis_expire m) (kw_redis_expire c);
     redis_serializer := default (redis_serializer m) (kw_redis_serializer c);
     redis_encoding := default (redis_encoding m) (kw_redis_encoding c);
     s3_enabled := default (s3_enabled m) (kw_s3_enabled c);
     s3_address := default (s3_address m) (kw_s3_address c);
     s3_bucket := default (s3_bucket m) (kw_s3_bucket c);
     s3_access_key := default (s3_access_key m) (kw_s3_access_key c);
     s3_secret_key := default (s3_secret_key m) (kw_s3_secret_key c);
     s3_region_name := default (s3_region_name m) (kw_s3_region_name c);
     s3_secure := default (s3_secure m) (kw_s3_secure c);
     slack_enabled := default (slack_enabled m) (kw_slack_enabled c);
     slack_code_block := default (slack_code_block m) (kw_slack_code_block c);
     slack_full_width := default (slack_full_width m) (kw_slack_full_width c);
     redis_key := default (redis_key m) (kw_redis_key c);
     s3_key := default (s3_key m) (kw_s3_key c);
     verbose := default (verbose m) (kw_verbose c) |}.

(** [load_from_config] on the members: nothing for [None], and for a map
    the members it names; a map that names none (the empty map among them)
    leaves every member as it was. *)
Definition load_from_config_members (config_dict : option ConfigDict)
    (e : Engine) : Engine :=
  match config_dict with
  | None => e
  | Some c =>
      {| acct := config_account (cfg_acct c) (acct e);
         counters := config_counters (cfg_counters c) (counters e);
         flags := config_flags (cfg_flags c) (flags e);
         market := config_market (cfg_market c) (market e);
         latest := config_latest (cfg_latest c) (latest e);
         settings := config_settings (cfg_settings c) (settings e);
         input_cfg := config_surface (cfg_input c) (input_cfg e);
         history_cfg := config_surface (cfg_history c) (history_cfg e);
         report_cfg := config_surface (cfg_report c) (report_cfg e);
         run := config_run (cfg_run c) (run e) |}
  end.

(** The map that names no member. *)
Definition no_config : ConfigDict :=
  {|
     cfg_acct :=
       {|
         cfg_balance := None; cfg_buys := None; cfg_sells := None;
         cfg_positions := None |};
     cfg_counters :=
       {|
         cfg_num_owned := None; cfg_num_buys := None; cfg_num_sells := None |};
     cfg_flags :=
       {|
         cfg_created_buy := None; cfg_created_sell := None;
         cfg_should_buy := None; cfg_should_sell := None |};
     cfg_market :=
       {|
         cfg_ds_id := None; cfg_ds_date := None; cfg_ds_data := None;
         cfg_last_ds_id := None; cfg_last_ds_date := None;
         cfg_last_ds_data := None; cfg_df_daily := None;
         cfg_df_minute := None; cfg_df_stats := None; cfg_df_peers := None;
         cfg_df_financials := None; cfg_df_earnings := None;
         cfg_df_dividends := None; cfg_df_quote := None;
         cfg_df_company := None; cfg_df_iex_news := None;
         cfg_df_yahoo_news := None; cfg_df_options := None;
         cfg_df_pricing := None |};
     cfg_latest :=
       {|
         cfg_trade_date := None; cfg_latest_high := None;
         cfg_latest_low := None; cfg_latest_open := None;
         cfg_latest_close := None; cfg_latest_volume := None;
         cfg_trade_price := None; cfg_starting_close := None |};
     cfg_settings :=
       {|
         cfg_name := None; cfg_tickers := None; cfg_commission := None;
         cfg_starting_balance := None; cfg_raise_on_err := None;
         cfg_empty_pd := None; cfg_empty_pd_str := None; cfg_version := None;
         cfg_trade_type := None; cfg_buy_hold_units := None;
         cfg_sell_hold_units := None; cfg_spread_exp_date := None;
         cfg_ask := None; cfg_bid := None; cfg_buy_strength := None;
         cfg_buy_risk := None; cfg_sell_strength := None;
         cfg_sell_risk := None; cfg_stop_loss := None;
         cfg_trailing_stop_loss := None; cfg_note := None;
         cfg_publish_to_slack := None; cfg_publish_to_s3 := None;
         cfg_publish_to_redis := None; cfg_publish_history := None;
         cfg_publish_report := None; cfg_publish_input := None;
         cfg_output_file_dir := None; cfg_output_file_prefix := None;
         cfg_save_as_key := None; cfg_default_output_file := None;
         cfg_default_s3_key := None; cfg_default_redis_key := None;
         cfg_default_input_output_file := None;
         cfg_default_history_output_file := None;
         cfg_default_report_output_file := None;
         cfg_default_input_redis_key := None;
         cfg_default_history_redis_key := None;
         cfg_default_report_redis_key := None; cfg_load_from_s3 := None;
         cfg_load_from_redis := None; cfg_load_from_file := None;
         cfg_load_is_compress := None |};
     cfg_run :=
       {|
         cfg_debug_msg := None; cfg_prev_bal := None;
         cfg_prev_num_owned := None; cfg_loaded_dataset := None;
         cfg_last_handle_data := None; cfg_order_history := None |};
     cfg_input := no_overrides; cfg_history := no_overrides;
     cfg_report := no_overrides |}.

(** The map names [history_redis_address] or [history_output_file]. *)
Definition names_history_target (config_dict : option ConfigDict) : bool :=
  match config_dict with
  | None => false
  | Some c =>
      has_key (kw_redis_address (cfg_history c))
      || has_key (kw_output_file (cfg_history c))
  end.

(** *** Construction *)

Record InitArgs : Type := {
  a_ticker : option string;
  a_balance : Q;
  a_commission : Q;
  a_tickers : option (list string);
  a_name : option string;
  a_use_key : option string;
  a_auto_fill : bool;
  a_version : Z;
  a_config_dict : option ConfigDict;
  a_output_dir : option string;
  a_input_config : option PubOverrides;
  a_history_config : option PubOverrides;
  a_report_config : option PubOverrides;
  a_publish_to_slack : bool;
  a_publish_to_s3 : option bool;
  a_publish_to_redis : option bool;
  a_publish_input : bool;
  a_publish_history : bool;
  a_publish_report : bool;
  a_raise_on_err : bool;
  a_load_from_s3 : option string;
  a_load_from_redis : option string;
  a_load_from_file : option string;
  a_load_compress : bool
}.

Definition upper_ascii (c : ascii) : ascii :=
  let n := nat_of_ascii c in
  if (97 <=? n)%nat && (n <=? 122)%nat then ascii_of_nat (n - 32) else c.

(** [s.upper()] on the strings of the model, which are ASCII: the letters
    [a] to [z] are raised and every other character is kept. *)
Fixpoint upper (s : string) : string :=
  match s with
  | EmptyString => EmptyString
  | String c s' => String (upper_ascii c) (upper s')
  end.

(** [s.replace(' ', '')] *)
Fixpoint remove_spaces (s : string) : string :=
  match s with
  | EmptyString => EmptyString
  | String c s' =>
      if Ascii.eqb c " "%char then remove_spaces s' else String c (remove_spaces s')
  end.

Definition truthy_list {A} (o : option (list A)) : bool :=
  match o with Some (_ :: _) => true | _ => false end.

Definition truthy_flag (o : option bool) : bool :=
  match o with Some b => b | None => false end.

Definition truthy_overrides (o : option PubOverrides) : bool :=
  match o with Some c => negb (overrides_empty c) | None => false end.

Definition opt_str (o : option string) : PyVal :=
  match o with Some s => PyStr s | None => PyNone end.

Definition empty_frame : PyVal := PyFrame [] [[]].

Section Init.

Variable C : Consts.
(** [utc_now_str(fmt=...)]: the clock, rendered *)
Variable utc_now_str : string -> string.
(** [build_publish_request.build_publish_request()] *)
Variable build_publish_request : PubOverrides.
Variable file_exists : string -> bool.
Variable load_algo_dataset_from_file : string -> bool -> Outcome (option Dataset).

(** The members of one publishing surface, read from its configuration map
    with the defaults of the constructor. *)
Definition surface_cfg (config : PubOverrides) (dir : option string)
    (default_file : string) (nm : string) (compress_default : PyVal)
    (to_redis to_s3 : PyVal) (bucket : PyVal) (default_redis : string)
    (default_s3 : string) : PubCfg :=
  {| output_dir := default dir (kw_output_dir config);
     output_file := default (Some default_file) (kw_output_file config);
     label := default nm (kw_label config);
     convert_to_json := default true (kw_convert_to_json config);
     compress := default compress_default (kw_compress config);
     redis_enabled := default to_redis (kw_redis_enabled config);
     redis_address := default (ENABLED_S3_UPLOAD C) (kw_redis_address config);
     redis_db := default (REDIS_DB C) (kw_redis_db config);
     redis_password := default (REDIS_PASSWORD C) (kw_redis_password config);
     redis_expire := default (REDIS_EXPIRE C) (kw_redis_expire config);
     redis_serializer := default "json" (kw_redis_serializer config);
     redis_encoding := default "utf-8" (kw_redis_encoding config);
     s3_enabled := default to_s3 (kw_s3_enabled config);
     s3_address := default (S3_ADDRESS C) (kw_s3_address config);
     s3_bucket := default bucket (kw_s3_bucket config);
     s3_access_key := default (S3_ACCESS_KEY C) (kw_s3_access_key config);
     s3_secret_key := default (S3_SECRET_KEY C) (kw_s3_secret_key config);
     s3_region_name := default (S3_REGION_NAME C) (kw_s3_region_name config);
     s3_secure := default (S3_SECURE C) (kw_s3_secure config);
     slack_enabled := default false (kw_slack_enabled config);
     slack_code_block := default false (kw_slack_code_block config);
     slack_full_width := default false (kw_slack_full_width config);
     redis_key := default default_redis (kw_redis_key config);
     s3_key := default default_s3 (kw_s3_key config);
     verbose := default false (kw_verbose config) |}.

(** The engine as [__init__] has assigned it just before it calls
    [load_from_external_source]. *)
Definition init_members (a : InitArgs) : Engine :=
  let tickers :=
    if truthy_list (a_tickers a) then a_tickers a
    else if truthy_str (a_ticker a)
         then Some [upper (default "" (a_ticker a))]
         else a_tickers a in
  let publish_to_s3 :=
    if truthy_flag (a_publish_to_s3 a) then PyBool true else ENABLED_S3_UPLOAD C in
  let publish_to_redis :=
    if truthy_flag (a_publish_to_redis a) then PyBool true
    else ENABLED_REDIS_PUBLISH C in
  let output_file_prefix :=
    if a_raise_on_err a then
      match tickers with
      | Some (t :: _) => Some (upper t)
      | _ => None
      end
    else None in
  let name := if truthy_str (a_name a) then default "" (a_name a) else "eqa" in
  let save_as_key :=
    if truthy_str (a_use_key a) then default "" (a_use_key a)
    else remove_spaces name +:+ "-" +:+ utc_now_str "%Y-%m-%d-%H-%M-%S.%f" in
  let output_file_dir :=
    if negb (truthy_str (a_output_dir a)) then a_output_dir a
    else Some "/opt/sa/tests/datasets/algo" in
  let default_output_file :=
    fmt_opt output_file_dir +:+ "/" +:+ save_as_key +:+ ".json" in
  let default_s3_key := save_as_key +:+ ".json" in
  let default_redis_key := save_as_key in
  let default_input_output_file :=
    fmt_opt output_file_dir +:+ "/input-" +:+ save_as_key +:+ ".json" in
  let default_history_output_file :=
    fmt_opt output_file_dir +:+ "/history-" +:+ save_as_key +:+ ".json" in
  let default_report_output_file :=
    fmt_opt output_file_dir +:+ "/report-" +:+ save_as_key +:+ ".json" in
  let default_input_redis_key := "algo:input:" +:+ default_redis_key in
  let default_history_redis_key := "algo:history:" +:+ default_redis_key in
  let default_report_redis_key := "algo:output:" +:+ default_redis_key in
  let config_of (o : option PubOverrides) :=
    if truthy_overrides o then default build_publish_request o
    else build_publish_request in
  {| acct := {| balance := a_balance a; buys := []; sells := []; positions := ∅ |};
     counters := {| num_owned := None; num_buys := None; num_sells := None |};
     flags := {| created_buy := false; created_sell := false;
                 should_buy := false; should_sell := false |};
     market :=
       {| ds_id := None; ds_date := None; ds_data := DsNone;
          last_ds_id := None; last_ds_date := None; last_ds_data := DsNone;
          df_daily := empty_frame; df_minute := empty_frame;
          df_stats := empty_frame; df_peers := empty_frame;
          df_financials := PyFrame [] []; df_earnings := empty_frame;
          df_dividends := empty_frame; df_quote := empty_frame;
          df_company := empty_frame; df_iex_news := empty_frame;
          df_yahoo_news := empty_frame; df_options := empty_frame;
          df_pricing := PyDict [] |};
     latest :=
       {| trade_date := None; latest_high := 0; latest_low := 0;
          latest_open := 0; latest_close := 0; latest_volume := PyFloat 0;
          trade_price := 0; starting_close := 0 |};
     settings :=
       {| name := name; tickers := tickers; commission := a_commission a;
          starting_balance := a_balance a; raise_on_err := a_raise_on_err a;
          empty_pd := empty_frame; empty_pd_str := "[{}]";
          version := a_version a; trade_type := TRADE_SHARES C;
          buy_hold_units := 20; sell_hold_units := 20;
          spread_exp_date := PyNone; ask := 0; bid := 0;
          buy_strength := PyNone; buy_risk := PyNone;
          sell_strength := PyNone; sell_risk := PyNone;
          stop_loss := PyNone; trailing_stop_loss := PyNone; note := PyNone;
          publish_to_slack := a_publish_to_slack a;
          publish_to_s3 := publish_to_s3; publish_to_redis := publish_to_redis;
          publish_history := a_publish_history a;
          publish_report := a_publish_report a;
          publish_input := a_publish_input a;
          output_file_dir := output_file_dir;
          output_file_prefix := output_file_prefix;
          save_as_key := save_as_key;
          default_output_file := default_output_file;
          default_s3_key := default_s3_key;
          default_redis_key := default_redis_key;
          default_input_output_file := default_input_output_file;
          default_history_output_file := default_history_output_file;
          default_report_output_file := default_report_output_file;
          default_input_redis_key := default_input_redis_key;
          default_history_redis_key := default_history_redis_key;
          default_report_redis_key := default_report_redis_key;
          load_from_s3 := a_load_from_s3 a;
          load_from_redis := a_load_from_redis a;
          load_from_file := a_load_from_file a;
          load_is_compress := a_load_compress a |};
     input_cfg :=
       surface_cfg (config_of (a_input_config a)) output_file_dir
         default_input_output_file name (ALGO_INPUT_COMPRESS C)
         publish_to_redis publish_to_s3 (ALGO_INPUT_DATASET_S3_BUCKET_NAME C)
         default_input_redis_key default_s3_key;
     history_cfg :=
       surface_cfg (config_of (a_history_config a)) output_file_dir
         default_history_output_file name (ALGO_HISTORY_COMPRESS C)
         publish_to_redis publish_to_s3 (ALGO_HISTORY_DATASET_S3_BUCKET_NAME C)
         default_history_redis_key default_s3_key;
     report_cfg :=
       surface_cfg (config_of (a_report_config a)) output_file_dir
         default_report_output_file name (ALGO_REPORT_COMPRESS C)
         publish_to_redis publish_to_s3 (ALGO_REPORT_DATASET_S3_BUCKET_NAME C)
         default_report_redis_key default_s3_key;
     run :=
       {| debug_msg := ""; ticker := None; prev_bal := None;
          prev_num_owned := None; loaded_dataset := None;
          last_handle_data := None; last_history_dict := PyNone;
          order_history := [] |} |}.

(** [BaseAlgo.__init__]: the members, then [load_from_external_source()],
    where an exception aborts construction, then
    [load_from_config(config_dict)]. *)
Definition init (a : InitArgs) : Outcome Engine :=
  match load_from_external_source file_exists load_algo_dataset_from_file
          None None None (init_members a) with
  | (Ok _, e) => Ok (load_from_config_members (a_config_dict a) e)
  | (Raise x, _) => Raise x
  end.

End Init.

End Algo.

(** ** The order builders, from their contract *)

Module OrderBuilders.

Import Algo.

(** A status of an order that did not fill; its code is left to the
    implementation. *)
Definition TRADE_NOT_FILLED : Status := OTHER 0.

Definition echo (a : OrderArgs) (st : Status) (n : Z) (price bal : Q) : Order :=
  {| order_status := st; order_shares := n; order_price := price;
     order_balance := bal; order_ticker := arg_ticker a;
     order_date := arg_date a; order_use_key := arg_use_key a;
     order_details := arg_details a; order_reason := arg_reason a |}.

(** Modelled from the spec: [analysis_engine.build_buy_order.build_buy_order]
    is not among the sources.  Section 4.2: an explicit share count is
    attempted as given, otherwise the largest whole count with
    [shares * close + commission <= balance]; a count of at least one that
    is affordable fills, with [balance - (shares * close + commission)];
    anything else comes back unfilled with the balance unchanged. *)
Definition build_buy_order (B : Builtins) (a : OrderArgs) : Outcome Order :=
  match py_float B (arg_close a) with
  | Raise x => Raise x
  | Ok close =>
      let n :=
        match arg_shares a with
        | Some k => k
        | None =>
            if Qle_bool close 0 then 0
            else Qfloor ((arg_balance a - arg_commission a) / close)
        end in
      let cost := (inject_Z n * close + arg_commission a)%Q in
      if (1 <=? n)%Z && Qle_bool cost (arg_balance a)
      then Ok (echo a TRADE_FILLED n close (arg_balance a - cost)%Q)
      else Ok (echo a TRADE_NOT_FILLED 0 close (arg_balance a))
  end.

(** Modelled from the spec: [analysis_engine.build_sell_order.build_sell_order]
    is not among the sources.  Section 4.2: an explicit share count is
    capped at the owned shares, otherwise all owned shares are sold; with
    shares owned the order fills with the count sold and
    [balance + (shares * close - commission)]; with nothing owned it comes
    back unfilled with the balance unchanged. *)
Definition build_sell_order (B : Builtins) (a : OrderArgs) : Outcome Order :=
  match py_float B (arg_close a) with
  | Raise x => Raise x
  | Ok close =>
      if (0 <? arg_num_owned a)%Z then
        let n :=
          match arg_shares a with
          | Some k => Z.min k (arg_num_owned a)
          | None => arg_num_owned a
          end in
        Ok (echo a TRADE_FILLED n close
              (arg_balance a + (inject_Z n * close - arg_commission a))%Q)
      else Ok (echo a TRADE_NOT_FILLED 0 close (arg_balance a))
  end.

End OrderBuilders.

(** ** A concrete environment

    Everything above is stated for any builtins, constants and outside
    world.  To run the model on concrete inputs this module fixes one of
    each: a small renderer for the builtins, the documented defaults for
    the constants, and a world whose services all answer. *)

Module Demo.

Import Algo.

Definition quote : string := String "034"%char "".

Definition render_int (z : Z) : string := pretty z.

Fixpoint render (v : PyVal) : option string :=
  match v with
  | PyNone => Some "null"
  | PyBool true => Some "true"
  | PyBool false => Some "false"
  | PyInt z => Some (render_int z)
  | PyFloat q => Some (render_int (Qnum q) +:+ "/" +:+ render_int (Zpos (Qden q)))
  | PyStr s => Some (quote +:+ s +:+ quote)
  | PyList l =>
      let fix go (l : list PyVal) : option string :=
        match l with
        | [] => Some ""
        | [x] => render x
        | x :: l' =>
            match render x, go l' with
            | Some a, Some b => Some (a +:+ ", " +:+ b)
            | _, _ => None
            end
        end in
      option_map (fun s => "[" +:+ s +:+ "]") (go l)
  | PyDict d =>
      let fix go (d : list (string * PyVal)) : option string :=
        match d with
        | [] => Some ""
        | (k, x) :: d' =>
            match render x, go d' with
            | Some a, Some b =>
                Some (quote +:+ k +:+ quote +:+ ": " +:+ a
                      +:+ (match d' with [] => "" | _ => ", " end) +:+ b)
            | _, _ => None
            end
        end in
      option_map (fun s => "{" +:+ s +:+ "}") (go d)
  | PySeries _ => None
  | PyFrame _ _ => None
  end.

(** Decimal literals, for [int(s)] and [float(s)]: blanks around the
    literal are dropped, then come an optional sign and digits, and for
    [float] an optional fraction after a point.  The other spellings that
    Python reads (underscores between digits, exponents, [inf], [nan]) are
    not used by the inputs below. *)
Definition digit_of (c : ascii) : option Z :=
  let n := Z.of_nat (nat_of_ascii c) in
  if (48 <=? n) && (n <=? 57) then Some (n - 48) else None.

Fixpoint digits_from (acc : Z) (s : string) : option Z :=
  match s with
  | EmptyString => Some acc
  | String c s' =>
      match digit_of c with
      | Some d => digits_from (10 * acc + d) s'
      | None => None
      end
  end.

Definition digits (s : string) : option Z :=
  match s with
  | EmptyString => None
  | _ => digits_from 0 s
  end.

Definition is_blank (c : ascii) : bool :=
  let n := nat_of_ascii c in
  Nat.eqb n 32 || ((9 <=? n)%nat && (n <=? 13)%nat).

Fixpoint drop_blanks (s : string) : string :=
  match s with
  | EmptyString => EmptyString
  | String c s' => if is_blank c then drop_blanks s' else s
  end.

(** The string without the blanks at its end. *)
Fixpoint drop_blanks_end (s : string) : string :=
  match s with
  | EmptyString => EmptyString
  | String c s' =>
      match drop_blanks_end s' with
      | EmptyString => if is_blank c then EmptyString else String c EmptyString
      | rest => String c rest
      end
  end.

Definition strip (s : string) : string := drop_blanks_end (drop_blanks s).

Definition int_literal (s : string) : option Z :=
  match strip s with
  | String "-" s' => Z.opp <$> digits s'
  | String "+" s' => digits s'
  | s' => digits s'
  end.

(** The digits before and after the first point. *)
Fixpoint split_point (cur : string) (s : string) : string * option string :=
  match s with
  | EmptyString => (cur, None)
  | String c s' =>
      if Ascii.eqb c "."%char then (cur, Some s')
      else split_point (cur +:+ String c "") s'
  end.

Definition unsigned_float (s : string) : option Q :=
  match split_point "" s with
  | (whole, None) => inject_Z <$> digits whole
  | (whole, Some frac) =>
      match whole, frac with
      | EmptyString, EmptyString => None
      | _, _ =>
          match digits_from 0 whole, digits_from 0 frac with
          | Some w, Some f =>
              Some (inject_Z w + (f # Pos.pow 10 (Pos.of_nat (String.length frac))))%Q
          | _, _ => None
          end
      end
  end.

Definition float_literal (s : string) : option Q :=
  match strip s with
  | String "-" s' => Qopp <$> unsigned_float s'
  | String "+" s' => unsigned_float s'
  | s' => unsigned_float s'
  end.

Definition builtins : Builtins :=
  {| format_val := fun v =>
       match v with
       | PyStr s => s
       | _ => default "<object>" (render v)
       end;
     int_of_str := int_literal;
     float_of_str := float_literal;
     json_dumps := render;
     to_json := fun _ => "[{}]";
     format_exn := fun _ => "<exception>" |}.

(** Modelled from the spec: [analysis_engine.consts] is not among the
    sources.  Section 4.7 has it provide default ticker and ticker-id
    placeholders for callers that omit them, the two sink toggles (off
    unless overridden), the connection defaults and the per-artifact bucket
    names and compression flags; the docstrings of the engine use [SPY] as
    the ticker. *)
Definition consts : Consts :=
  {| TICKER := PyStr "SPY"; TICKER_ID := PyInt 1;
     ENABLED_S3_UPLOAD := PyBool false; ENABLED_REDIS_PUBLISH := PyBool false;
     S3_ACCESS_KEY := PyStr "access"; S3_SECRET_KEY := PyStr "secret";
     S3_REGION_NAME := PyStr "us-east-1"; S3_ADDRESS := PyStr "localhost:9000";
     S3_SECURE := PyStr "0"; REDIS_ADDRESS := PyStr "localhost:6379";
     REDIS_KEY := PyStr "test_redis_key"; REDIS_PASSWORD := PyNone;
     REDIS_DB := PyInt 0; REDIS_EXPIRE := PyNone;
     ALGO_INPUT_DATASET_S3_BUCKET_NAME := PyStr "algoready";
     ALGO_HISTORY_DATASET_S3_BUCKET_NAME := PyStr "algohistory";
     ALGO_REPORT_DATASET_S3_BUCKET_NAME := PyStr "algoreport";
     ALGO_INPUT_COMPRESS := PyBool false;
     ALGO_HISTORY_COMPRESS := PyBool false;
     ALGO_REPORT_COMPRESS := PyBool false;
     TRADE_SHARES := PyInt 1 |}.

(** Every service call returns; no bucket exists yet. *)
Definition calm : PricingTask.World :=
  {| PricingTask.returns := fun _ => true;
     PricingTask.bucket_listed := fun _ => false |}.

(** The clients can be built, and every call they then make raises. *)
Definition stormy : PricingTask.World :=
  {| PricingTask.returns := fun ev =>
       match ev with
       | PricingTask.S3Resource _ _ _ _ => true
       | PricingTask.RedisConnect _ _ _ _ => true
       | _ => false
       end;
     PricingTask.bucket_listed := fun _ => false |}.

(** A work order for the cache alone, without a key. *)
Definition cache_only : gmap string PyVal :=
  {[ "ticker" := PyStr "SPY"; "redis_enabled" := PyBool true;
     "data" := PyDict [("close", PyInt 270)] ]}.

(** A world whose archive client cannot be built. *)
Definition no_archive : PricingTask.World :=
  {| PricingTask.returns := fun ev =>
       match ev with
       | PricingTask.S3Resource _ _ _ _ => false
       | _ => true
       end;
     PricingTask.bucket_listed := fun _ => false |}.

(** A world in which the bucket is already there. *)
Definition bucket_there : PricingTask.World :=
  {| PricingTask.returns := fun _ => true;
     PricingTask.bucket_listed := fun _ => true |}.

(** The environment with celery switched off, and a queue that is never
    reached. *)
Definition env (name dflt : string) : string := dflt.

Definition no_queue (w : gmap string PyVal)
  : PricingTask.Task PricingTask.Result :=
  st_raise (ExternalError "no queue").

(** A work order that enables both sinks. *)
Definition both_sinks : gmap string PyVal :=
  {[ "ticker" := PyStr "SPY"; "s3_enabled" := PyBool true;
     "redis_enabled" := PyBool true; "s3_key" := PyStr "spy-pricing";
     "redis_key" := PyStr "spy-pricing";
     "data" := PyDict [("close", PyInt 270)] ]}.

Definition format_failure (w : gmap string PyVal) (e : Exn) : string :=
  "failed - publish_pricing_update with ex=" +:+ format_exn builtins e.

Definition args_with (output_dir : option string) (publish_report : bool)
    (load_from_file : option string) : InitArgs :=
  {| a_ticker := Some "spy"; a_balance := 1000; a_commission := 6;
     a_tickers := None; a_name := Some "demo"; a_use_key := Some "run1";
     a_auto_fill := true; a_version := 1; a_config_dict := None;
     a_output_dir := output_dir;
     a_input_config := None; a_history_config := None;
     a_report_config := None; a_publish_to_slack := true;
     a_publish_to_s3 := None; a_publish_to_redis := None;
     a_publish_input := true; a_publish_history := true;
     a_publish_report := publish_report; a_raise_on_err := false;
     a_load_from_s3 := None; a_load_from_redis := None;
     a_load_from_file := load_from_file; a_load_compress := false |}.

Definition args : InitArgs := args_with None true None.

Definition utc_now_str (fmt : string) : string := "2018-11-05-16-00-00.000001".

Definition no_files (path : string) : bool := false.

Definition no_loader (path : string) (compress : bool) : Outcome (option Dataset) :=
  Ok None.

(** The engine [BaseAlgo(ticker='spy', balance=1000.0, commission=6.0,
    name='demo', use_key='run1')] just constructed. *)
Definition engine : Engine := init_members consts utc_now_str no_overrides args.

(** The same engine built with [publish_report=False]. *)
Definition engine_report_off : Engine :=
  init_members consts utc_now_str no_overrides (args_with None false None).

(** One trading day of SPY. *)
Definition daily (close : Z) (volume : Z) : PyVal :=
  PyFrame ["high"; "low"; "open"; "close"; "volume"; "date"]
    [[PyFloat (inject_Z (close + 8)); PyFloat (inject_Z (close - 2));
      PyFloat (inject_Z (close + 3)); PyFloat (inject_Z close);
      PyInt volume; PyStr "2018-11-01 15:59:59"]].

Definition node (date : string) (close volume : Z) : Node :=
  {| node_id := Some ("SPY_" +:+ date); node_date := Some date;
     node_data := Some {[ "daily" := daily close volume ]} |}.

Definition dataset : Dataset :=
  {[ "SPY" := [node "2018-11-01" 272 123; node "2018-11-02" 273 124] ]}.

(** A stand-in for [build_trade_history_entry], which is not among the
    sources: an entry that keeps a handful of the fields it is given. *)
Definition history_entry (a : HistoryArgs) : Outcome PyVal :=
  Ok (PyDict [("ticker", PyStr (h_ticker a)); ("ds_id", opt_str (h_ds_id a));
              ("date", opt_str (h_date a)); ("close", PyFloat (h_close a));
              ("balance", PyFloat (h_balance a));
              ("version", PyInt (h_version a))]).

(** A stand-in for [get_percent_done], which is not among the sources. *)
Definition percent_done (progress total : Z) : string :=
  render_int (100 * progress / total) +:+ "%".

(** [handle_data] with the default [process] and the builders of the
    contract. *)
Definition handle_data (data : Dataset) : Eng unit :=
  Algo.handle_data builtins history_entry percent_done
    (process builtins (OrderBuilders.build_buy_order builtins)
       (OrderBuilders.build_sell_order builtins))
    data.

(** The demo engine after it has run over the two days. *)
Definition engine_after_run : Engine := snd (handle_data dataset engine).

(** The demo engine after [create_buy_order('SPY', row, shares=10)] at a
    close of 50: it holds ten shares. *)
Definition engine_holding : Engine :=
  snd (create_buy_order builtins (OrderBuilders.build_buy_order builtins) "SPY"
         (PyDict [("close", PyFloat 50); ("date", PyStr "2018-11-01")])
         (Some 10%Z) None engine).

(** A file system with one saved dataset, and the engine built with
    [load_from_file] naming it. *)
Definition saved_file : string := "/data/SPY-latest.json".

Definition one_file (path : string) : bool := String.eqb path saved_file.

Definition loader (path : string) (compress : bool) : Outcome (option Dataset) :=
  if String.eqb path saved_file then Ok (Some dataset) else Ok None.

Definition engine_loaded : Engine :=
  snd (load_from_external_source one_file loader None None None
         (init_members consts utc_now_str no_overrides
            (args_with None true (Some saved_file)))).

(** The keyword arguments [output_file=None]. *)
Definition to_no_file : PubOverrides :=
  {| kw_output_dir := None; kw_output_file := Some None; kw_label := None;
     kw_convert_to_json := None; kw_compress := None;
     kw_redis_enabled := None; kw_redis_address := None; kw_redis_db := None;
     kw_redis_password := None; kw_redis_expire := None;
     kw_redis_serializer := None; kw_redis_encoding := None;
     kw_s3_enabled := None; kw_s3_address := None; kw_s3_bucket := None;
     kw_s3_access_key := None; kw_s3_secret_key := None;
     kw_s3_region_name := None; kw_s3_secure := None;
     kw_slack_enabled := None; kw_slack_code_block := None;
     kw_slack_full_width := None; kw_redis_key := None; kw_s3_key := None;
     kw_verbose := None |}.


(** A node that has a date and no data, and a node whose daily frame holds
    a close that is not a number. *)
Definition bare_node : Node :=
  {| node_id := Some "SPY_2018-11-03"; node_date := Some "2018-11-03";
     node_data := None |}.

Definition broken_node : Node :=
  {| node_id := Some "SPY_2018-11-04"; node_date := Some "2018-11-04";
     node_data := Some {[ "daily" := PyFrame ["close"] [[PyStr "n/a"]] ]} |}.

(** The configuration map [{'history_redis_address': 'localhost:6379'}],
    and the arguments of the demo engine with it as [config_dict]. *)
Definition history_address_config : ConfigDict :=
  {| cfg_acct := cfg_acct no_config; cfg_counters := cfg_counters no_config;
     cfg_flags := cfg_flags no_config; cfg_market := cfg_market no_config;
     cfg_latest := cfg_latest no_config; cfg_settings := cfg_settings no_config;
     cfg_run := cfg_run no_config; cfg_input := no_overrides;
     cfg_history :=
       {|
         kw_output_dir := None; kw_output_file := None; kw_label := None;
         kw_convert_to_json := None; kw_compress := None;
         kw_redis_enabled := None;
         kw_redis_address := Some (PyStr "localhost:6379");
         kw_redis_db := None; kw_redis_password := None;
         kw_redis_expire := None; kw_redis_serializer := None;
         kw_redis_encoding := None; kw_s3_enabled := None;
         kw_s3_address := None; kw_s3_bucket := None;
         kw_s3_access_key := None; kw_s3_secret_key := None;
         kw_s3_region_name := None; kw_s3_secure := None;
         kw_slack_enabled := None; kw_slack_code_block := None;
         kw_slack_full_width := None; kw_redis_key := None;
         kw_s3_key := None; kw_verbose := None |};
     cfg_report := no_overrides |}.

Definition args_configured : InitArgs :=
  {| a_ticker := Some "spy"; a_balance := 1000; a_commission := 6;
     a_tickers := None; a_name := Some "demo"; a_use_key := Some "run1";
     a_auto_fill := true; a_version := 1;
     a_config_dict := Some history_address_config; a_output_dir := None;
     a_input_config := None; a_history_config := None;
     a_report_config := None; a_publish_to_slack := true;
     a_publish_to_s3 := None; a_publish_to_redis := None;
     a_publish_input := true; a_publish_history := true;
     a_publish_report := true; a_raise_on_err := false;
     a_load_from_s3 := None; a_load_from_redis := None;
     a_load_from_file := None; a_load_compress := false |}.

(** An engine as [handle_data] hands it to the strategy for a node of SPY:
    the ticker is set, the counters are read and the node is loaded. *)
Definition at_node (e : Engine) : Engine :=
  snd ((st_modify (set_ticker_and_prev "SPY") ;;;
        st_modify (refreshed "SPY") ;;;
        load_from_dataset builtins (node "2018-11-01" 272 123))%st e).

(** The demo engine, and the demo engine holding ten shares, at that
    point. *)
Definition engine_at_node : Engine := at_node engine.

Definition engine_holding_at_node : Engine := at_node engine_holding.

End Demo.

(** * Properties *)

(** ** The monad *)

Lemma st_bind_ok {S A B} (m : ST S A) (k : A -> ST S B) (s s' : S) (b : B) :
  st_bind m k s = (Ok b, s') ->
  exists a s1, m s = (Ok a, s1) /\ k a s1 = (Ok b, s').
Proof.
  unfold st_bind. destruct (m s) as [[a|x] s1]; intros H.
  - exists a, s1. split; [reflexivity | exact H].
  - discriminate H.
Qed.

Lemma st_lift_ok {S A} (o : Outcome A) (s s' : S) (a : A) :
  st_lift o s = (Ok a, s') -> o = Ok a /\ s' = s.
Proof. unfold st_lift. intros H. inversion H. split; reflexivity. Qed.

Lemma st_try_ok {S A} (body : ST S A) (h : Exn -> ST S A) (s s' : S) (a : A) :
  body s = (Ok a, s') -> st_try body h s = (Ok a, s').
Proof. unfold st_try. intros ->. reflexivity. Qed.

(** A relation between the state before and the state after that every
    step of a computation respects, whether it returns or raises. *)
Section Respects.

Context {S : Type} (R : S -> S -> Prop) `{!PreOrder R}.

Lemma respects_run {A} (m : ST S A) (s s' : S) (o : Outcome A) :
  respects R m -> m s = (o, s') -> R s s'.
Proof. intros Hm H. specialize (Hm s). by rewrite H in Hm. Qed.

Lemma respects_ret {A} (a : A) : respects R (st_ret a).
Proof. intros s. reflexivity. Qed.

Lemma respects_raise {A} (x : Exn) : respects R (@st_raise S A x).
Proof. intros s. reflexivity. Qed.

Lemma respects_lift {A} (o : Outcome A) : respects R (@st_lift S A o).
Proof. intros s. reflexivity. Qed.

Lemma respects_get : respects R (@st_get S).
Proof. intros s. reflexivity. Qed.

Lemma respects_modify (f : S -> S) :
  (forall s, R s (f s)) -> respects R (st_modify f).
Proof. intros Hf s. apply Hf. Qed.

Lemma respects_bind {A B} (m : ST S A) (k : A -> ST S B) :
  respects R m -> (forall a, respects R (k a)) -> respects R (st_bind m k).
Proof.
  intros Hm Hk s. unfold st_bind.
  specialize (Hm s). destruct (m s) as [[a|x] s1]; simpl in *.
  - etransitivity; [exact Hm | apply Hk].
  - exact Hm.
Qed.

Lemma respects_try {A} (body : ST S A) (h : Exn -> ST S A) :
  respects R body -> (forall x, respects R (h x)) -> respects R (st_try body h).
Proof.
  intros Hb Hh s. unfold st_try.
  specialize (Hb s). destruct (body s) as [[a|x] s1]; simpl in *.
  - exact Hb.
  - etransitivity; [exact Hb | apply Hh].
Qed.

End Respects.

(** Reduces [respects R m] to the assignments of [m]. *)
Ltac respects_tac :=
  repeat match goal with
         | |- forall _, respects _ _ => intro
         | |- respects _ (st_bind _ _) => apply respects_bind
         | |- respects _ (st_try _ _) => apply respects_try
         | |- respects _ (st_ret _) => apply respects_ret
         | |- respects _ (st_raise _) => apply respects_raise
         | |- respects _ (st_lift _) => apply respects_lift
         | |- respects _ st_get => apply respects_get
         | |- respects _ (if ?b then _ else _) => destruct b
         | |- respects _ (match ?o with _ => _ end) => destruct o
         | |- PreOrder _ => exact _
         end.

(** ** The pricing republish task *)

Module PricingTaskFacts.

Import PricingTask.

#[local] Instance appends_preorder : PreOrder appends.
Proof.
  split.
  - intros tr. exists []. by rewrite app_nil_r.
  - intros t1 t2 t3 [e1 ->] [e2 ->]. exists (e1 ++ e2)%list. by rewrite app_assoc.
Qed.

Lemma extends_call (W : World) (ev : Event) : extends (call W ev).
Proof. intros tr. exists [ev]. reflexivity. Qed.

Lemma extends_run {A} (m : Task A) (tr tr' : list Event) (o : Outcome A) :
  extends m -> m tr = (o, tr') -> exists evs, tr' = (tr ++ evs)%list.
Proof. intros Hm H. exact (respects_run appends m tr tr' o Hm H). Qed.

Ltac extends_tac :=
  unfold extends;
  repeat first [ apply extends_call | progress respects_tac ].

Section Facts.

Variable B : Builtins.
Variable C : Consts.
Variable W : World.
Variable format_failure : gmap string PyVal -> Exn -> string.

Lemma extends_s3_upload w bucket key data :
  extends (s3_upload B C W w bucket key data).
Proof. unfold s3_upload. extends_tac. Qed.

Lemma extends_redis_publish w data : extends (redis_publish C W w data).
Proof. unfold redis_publish. extends_tac. Qed.

(** C4, as amended.  The task reads the ticker with the shared default
    [TICKER] standing in when the work order has none.  When that value is
    falsy and [ticker_id] converts to an integer, the task returns the
    [ERR] result with the message "missing ticker" and the record it
    started from, and appends nothing to the trace: neither the archive nor
    the cache is contacted. *)
Theorem falsy_ticker_is_missing_ticker (w : gmap string PyVal) (tr : list Event) :
  is_ok (py_int B (dict_get w "ticker_id" (TICKER_ID C))) = true ->
  truthy (dict_get w "ticker" (TICKER C)) = Ok false ->
  publish_pricing_update B C W format_failure w tr
  = (Ok (build_result ERR (Some "missing ticker") (Some rec0)), tr).
Proof.
  intros Hid Ht.
  unfold publish_pricing_update. apply st_try_ok.
  unfold task_body.
  destruct (py_int B (dict_get w "ticker_id" (TICKER_ID C))) as [tid|x] eqn:E;
    [clear Hid | discriminate Hid].
  unfold st_bind at 1. unfold st_lift at 1.
  unfold st_bind at 1. unfold st_lift at 1. rewrite Ht.
  reflexivity.
Qed.

End Facts.

(** C4 as stated fails.  With the default ticker [SPY], a work order that
    has no [ticker] but enables the archive is carried out under the
    default ticker: the result is not [ERR] and the archive is contacted. *)
Lemma lacking_ticker_runs_under_default :
  let w : gmap string PyVal :=
    {[ "s3_enabled" := PyBool true; "s3_key" := PyStr "spy-pricing";
       "data" := PyDict [("close", PyInt 270)] ]} in
  w !! "ticker" = None
  /\ exists r tr,
      publish_pricing_update Demo.builtins Demo.consts Demo.calm
        Demo.format_failure w [] = (Ok r, tr)
      /\ status r = SUCCESS /\ err r = None /\ archive_contacted tr = true.
Proof.
  split; [reflexivity|].
  eexists _, _. split; [vm_compute; reflexivity|].
  repeat split.
Qed.

Lemma falsy_ticker_is_missing_ticker_witness :
  is_ok (py_int Demo.builtins
           (dict_get ({[ "ticker" := PyStr "" ]} : gmap string PyVal)
              "ticker_id" (TICKER_ID Demo.consts))) = true
  /\ publish_pricing_update Demo.builtins Demo.consts Demo.calm
       Demo.format_failure {[ "ticker" := PyStr "" ]} []
     = (Ok (build_result ERR (Some "missing ticker") (Some rec0)), []).
Proof.
  split; [reflexivity|].
  apply (falsy_ticker_is_missing_ticker Demo.builtins Demo.consts Demo.calm
           Demo.format_failure {[ "ticker" := PyStr "" ]} []);
    reflexivity.
Defined.

(** C8 as stated fails.  A work order whose ticker is the empty string
    raises nothing, the statements under the outer [try] end with the early
    return, and the result is [ERR], not [SUCCESS]. *)
Lemma empty_ticker_returns_err_without_exception :
  exists r tr,
    task_body Demo.builtins Demo.consts Demo.calm {[ "ticker" := PyStr "" ]} []
    = (Ok r, tr)
    /\ publish_pricing_update Demo.builtins Demo.consts Demo.calm
         Demo.format_failure {[ "ticker" := PyStr "" ]} [] = (Ok r, tr)
    /\ status r = ERR.
Proof.
  eexists _, _. split; [vm_compute; reflexivity|].
  split; reflexivity.
Qed.


(** *** Further properties of the task *)

Lemma respects_bind_lift {S A B} (R : S -> S -> Prop) `{!PreOrder R}
    (o : Outcome A) (k : A -> ST S B) :
  (forall a, o = Ok a -> respects R (k a)) ->
  respects R (st_bind (st_lift o) k).
Proof.
  intros H s. unfold st_bind, st_lift.
  destruct o as [a|x]; [apply (H a eq_refl) | simpl; reflexivity].
Qed.

#[local] Instance appends_only_preorder (P : Event -> bool) :
  PreOrder (appends_only P).
Proof.
  split.
  - intros tr. exists []. split; [by rewrite app_nil_r | reflexivity].
  - intros t1 t2 t3 (e1 & -> & H1) (e2 & -> & H2). exists (e1 ++ e2)%list.
    split; [by rewrite app_assoc|]. rewrite forallb_app, H1, H2. reflexivity.
Qed.

Lemma only_call (P : Event -> bool) (W : World) (ev : Event) :
  P ev = true -> respects (appends_only P) (call W ev).
Proof.
  intros HP tr. exists [ev]. split; [reflexivity|]. simpl. by rewrite HP.
Qed.

Lemma forallb_negb_existsb {A} (P : A -> bool) (l : list A) :
  forallb (fun x => negb (P x)) l = true -> existsb P l = false.
Proof.
  induction l as [|x l IH]; simpl; [reflexivity|].
  intros H. apply andb_prop in H as [Hx Hl].
  apply negb_true_iff in Hx. rewrite Hx. simpl. exact (IH Hl).
Qed.

Section MoreFacts.

Variable B : Builtins.
Variable C : Consts.
Variable W : World.
Variable format_failure : gmap string PyVal -> Exn -> string.

Local Abbreviation run_task := (publish_pricing_update B C W format_failure).

(** The archive branch makes archive calls only, the cache branch cache
    calls only. *)
Lemma s3_upload_only (P : Event -> bool) w bucket key data :
  (forall ev, is_s3_event ev = true -> P ev = true) ->
  respects (appends_only P) (s3_upload B C W w bucket key data).
Proof.
  intros HP. unfold s3_upload. respects_tac; apply only_call, HP; reflexivity.
Qed.

Lemma redis_publish_only (P : Event -> bool) w data :
  (forall ev, is_redis_event ev = true -> P ev = true) ->
  respects (appends_only P) (redis_publish C W w data).
Proof.
  intros HP. unfold redis_publish. respects_tac; apply only_call, HP; reflexivity.
Qed.

(** The task never lets an exception out: it always returns a result, and
    the result is either [SUCCESS] without an error message or [ERR] with
    one. *)
Theorem publish_pricing_update_never_raises (w : gmap string PyVal)
    (tr : list Event) :
  exists r tr',
    run_task w tr = (Ok r, tr')
    /\ ((status r = SUCCESS /\ err r = None)
        \/ (status r = ERR /\ err r <> None)).
Proof.
  unfold publish_pricing_update, st_try.
  destruct (task_body B C W w tr) as [[r|x] t] eqn:E.
  - exists r, t. split; [reflexivity|].
    unfold task_body in E.
    apply st_bind_ok in E as (tid & t1 & H1 & E).
    apply st_bind_ok in E as (ht & t2 & H2 & E).
    destruct ht; cbn [negb] in E; cbv iota in E.
    + apply st_bind_ok in E as (s3on & t3 & H3 & E).
      apply st_bind_ok in E as ([] & t4 & H4 & E).
      apply st_bind_ok in E as (ron & t5 & H5 & E).
      apply st_bind_ok in E as ([] & t6 & H6 & E).
      unfold st_ret in E. inversion E. left. split; reflexivity.
    + unfold st_ret in E. inversion E. right. split; [reflexivity|discriminate].
  - eexists _, _. split; [reflexivity|]. right. split; [reflexivity|discriminate].
Qed.

(** [ticker_id] is converted before the ticker is looked at: when the
    conversion raises, the task ends with the generic failure built from
    the exception, without a record, and contacts no sink, whatever the
    ticker is. *)
Theorem bad_ticker_id_fails_first (w : gmap string PyVal) (tr : list Event)
    (x : Exn) :
  py_int B (dict_get w "ticker_id" (TICKER_ID C)) = Raise x ->
  run_task w tr = (Ok (build_result ERR (Some (format_failure w x)) None), tr).
Proof.
  intros H. unfold publish_pricing_update, st_try, task_body.
  unfold st_bind at 1. unfold st_lift at 1. rewrite H. reflexivity.
Qed.

(** With both sinks switched off the task contacts nothing and succeeds;
    the record echoes the ticker, the converted ticker id, the bucket
    (["pricing"] by default), the keys and the two switches. *)
Theorem disabled_sinks_contact_nothing (w : gmap string PyVal)
    (tr : list Event) (tid : Z) :
  py_int B (dict_get w "ticker_id" (TICKER_ID C)) = Ok tid ->
  truthy (dict_get w "ticker" (TICKER C)) = Ok true ->
  truthy (dict_get w "s3_enabled" (ENABLED_S3_UPLOAD C)) = Ok false ->
  truthy (dict_get w "redis_enabled" (ENABLED_REDIS_PUBLISH C)) = Ok false ->
  run_task w tr
  = (Ok (build_result SUCCESS None
           (Some {| ticker := dict_get w "ticker" (TICKER C);
                    ticker_id := PyInt tid;
                    s3_enabled := dict_get w "s3_enabled" (ENABLED_S3_UPLOAD C);
                    redis_enabled :=
                      dict_get w "redis_enabled" (ENABLED_REDIS_PUBLISH C);
                    s3_bucket := dict_get w "s3_bucket" (PyStr "pricing");
                    s3_key := dict_get w "s3_key" PyNone;
                    redis_key := dict_get w "redis_key" PyNone;
                    updated := dict_get w "updated" PyNone |})),
     tr).
Proof.
  intros Hid Ht Hs3 Hr. unfold publish_pricing_update, st_try, task_body.
  unfold st_bind at 1. unfold st_lift at 1. rewrite Hid.
  unfold st_bind at 1. unfold st_lift at 1. rewrite Ht. cbn [negb]. cbv zeta.
  unfold st_bind at 1. unfold st_lift at 1. rewrite Hs3.
  unfold st_bind at 1. unfold st_ret at 1.
  unfold st_bind at 1. unfold st_lift at 1. rewrite Hr.
  reflexivity.
Qed.

(** The task as a whole respects a relation on traces as soon as its two
    branches do, each under the switch that guards it. *)
Lemma task_respects (P : Event -> bool) (w : gmap string PyVal) :
  (truthy (dict_get w "s3_enabled" (ENABLED_S3_UPLOAD C)) = Ok true ->
   forall ev, is_s3_event ev = true -> P ev = true) ->
  (truthy (dict_get w "redis_enabled" (ENABLED_REDIS_PUBLISH C)) = Ok true ->
   forall ev, is_redis_event ev = true -> P ev = true) ->
  respects (appends_only P) (run_task w).
Proof.
  intros Hs3 Hr. unfold publish_pricing_update.
  apply respects_try; [exact _ | | intros x; apply respects_ret; exact _].
  unfold task_body.
  apply respects_bind_lift; [exact _|]. intros tid _.
  apply respects_bind_lift; [exact _|]. intros ht _.
  destruct ht; cbn [negb]; cbv iota; [|apply respects_ret; exact _].
  cbv zeta.
  apply respects_bind_lift; [exact _|]. intros s3on Hon.
  apply respects_bind; [exact _ | |].
  { destruct s3on; [|apply respects_ret; exact _].
    apply s3_upload_only, Hs3, Hon. }
  intros _.
  apply respects_bind_lift; [exact _|]. intros ron Hron.
  apply respects_bind; [exact _ | |].
  { destruct ron; [|apply respects_ret; exact _].
    apply redis_publish_only, Hr, Hron. }
  intros _. apply respects_ret; exact _.
Qed.

(** A sink that is switched off is never contacted, whatever happens at
    the other sink and however the task ends. *)
Theorem disabled_archive_is_never_contacted (w : gmap string PyVal) :
  truthy (dict_get w "s3_enabled" (ENABLED_S3_UPLOAD C)) = Ok false ->
  archive_contacted (snd (run_task w [])) = false.
Proof.
  intros Hoff.
  destruct (task_respects (fun ev => negb (is_s3_event ev)) w) with (s := @nil Event)
    as (evs & -> & Hevs).
  - intros Hon. rewrite Hoff in Hon. discriminate Hon.
  - intros _ ev Hev. destruct ev; try discriminate Hev; reflexivity.
  - apply forallb_negb_existsb, Hevs.
Qed.

(** The same for the cache: when [redis_enabled] resolves to a falsy value
    no cache call is made, whatever happens at the archive and however the
    task ends. *)
Theorem disabled_cache_is_never_contacted (w : gmap string PyVal) :
  truthy (dict_get w "redis_enabled" (ENABLED_REDIS_PUBLISH C)) = Ok false ->
  cache_contacted (snd (run_task w [])) = false.
Proof.
  intros Hoff.
  destruct (task_respects (fun ev => negb (is_redis_event ev)) w) with (s := @nil Event)
    as (evs & -> & Hevs).
  - intros _ ev Hev. destruct ev; try discriminate Hev; reflexivity.
  - intros Hon. rewrite Hoff in Hon. discriminate Hon.
  - apply forallb_negb_existsb, Hevs.
Qed.

End MoreFacts.


Lemma append_cons (c : ascii) (s t : string) :
  String c s +:+ t = String c (s +:+ t).
Proof. reflexivity. Qed.

Lemma append_empty_r (s : string) : s +:+ "" = s.
Proof.
  induction s as [|c s IH]; [reflexivity|]. by rewrite append_cons, IH.
Qed.

Lemma append_snoc (cur : string) (c : ascii) (s : string) :
  (cur +:+ String c "") +:+ s = cur +:+ String c s.
Proof.
  induction cur as [|d cur IH]; [reflexivity|]. by rewrite !append_cons, IH.
Qed.

(** A string without a colon splits into itself. *)
Lemma split_colon_aux_free (cur s : string) :
  colon_free s = true -> split_colon_aux cur s = [cur +:+ s].
Proof.
  revert cur. induction s as [|c s IH]; intros cur H; simpl in *.
  - by rewrite append_empty_r.
  - apply andb_prop in H as [Hc Hs]. apply negb_true_iff in Hc. rewrite Hc.
    by rewrite (IH _ Hs), append_snoc.
Qed.

Lemma snd_try_ret {S A} (m : ST S A) (f : Exn -> A) (s : S) :
  snd (st_try m (fun e => st_ret (f e)) s) = snd (m s).
Proof. unfold st_try. destruct (m s) as [[a|x] s1]; reflexivity. Qed.

Section TraceFacts.

Variable B : Builtins.
Variable C : Consts.
Variable W : World.
Variable format_failure : gmap string PyVal -> Exn -> string.

Local Abbreviation run_task := (publish_pricing_update B C W format_failure).

(** The trace of a run from the empty trace: what the archive branch
    appended, then what the cache branch appended. *)
Lemma task_trace_split (w : gmap string PyVal) :
  exists a c,
    snd (run_task w []) = (a ++ c)%list
    /\ (a = []
        \/ exists o,
            s3_upload B C W w (dict_get w "s3_bucket" (PyStr "pricing"))
              (dict_get w "s3_key" PyNone) (dict_get w "data" PyNone) []
            = (o, a))
    /\ (c = []
        \/ exists o,
            redis_publish C W w (dict_get w "data" PyNone) a = (o, (a ++ c)%list)).
Proof.
  unfold publish_pricing_update. rewrite snd_try_ret. unfold task_body.
  unfold st_bind at 1. unfold st_lift at 1.
  destruct (py_int B _) as [tid|x]; [|exists [], []; simpl; auto].
  unfold st_bind at 1. unfold st_lift at 1.
  destruct (truthy (dict_get w "ticker" _)) as [[|]|x]; cbn [negb]; cbv iota;
    [|exists [], []; simpl; auto..].
  cbv zeta.
  unfold st_bind at 1. unfold st_lift at 1.
  destruct (truthy (dict_get w "s3_enabled" _)) as [s3on|x];
    [|exists [], []; simpl; auto].
  unfold st_bind at 1.
  match goal with
  | |- context [let (_, _) := ?t in _] => destruct t as [oa a] eqn:Ea
  end.
  assert (Ha : a = []
               \/ exists o,
                   s3_upload B C W w (dict_get w "s3_bucket" (PyStr "pricing"))
                     (dict_get w "s3_key" PyNone) (dict_get w "data" PyNone) []
                   = (o, a)).
  { destruct s3on; [right; by exists oa | left; by inversion Ea]. }
  destruct oa as [[]|x]; [|exists a, []; rewrite app_nil_r; auto].
  unfold st_bind at 1. unfold st_lift at 1.
  destruct (truthy (dict_get w "redis_enabled" _)) as [ron|x];
    [|exists a, []; rewrite app_nil_r; auto].
  unfold st_bind at 1.
  destruct ron.
  - destruct (redis_publish C W w (dict_get w "data" PyNone) a) as [oc tc] eqn:E.
    destruct (extends_run _ _ _ _ (extends_redis_publish C W w _) E) as [c ->].
    exists a, c. split; [destruct oc; reflexivity|]. split; [exact Ha|].
    right. by exists oc.
  - exists a, []. rewrite app_nil_r. simpl. auto.
Qed.

(** Every call to the archive comes before every call to the cache. *)
Theorem archive_calls_precede_cache_calls (w : gmap string PyVal) :
  exists a c,
    snd (run_task w []) = (a ++ c)%list
    /\ forallb is_s3_event a = true
    /\ forallb is_redis_event c = true.
Proof.
  destruct (task_trace_split w) as (a & c & Htr & Ha & Hc).
  exists a, c. split; [exact Htr|]. split.
  - destruct Ha as [->|[o Ho]]; [reflexivity|].
    apply (respects_run (appends_only is_s3_event)) in Ho
      as (evs & Hevs & Hall); [by subst a|].
    apply s3_upload_only. auto.
  - destruct Hc as [->|[o Ho]]; [reflexivity|].
    apply (respects_run (appends_only is_redis_event)) in Ho
      as (evs & Hevs & Hall);
      [apply app_inv_head in Hevs; by subst c|].
    apply redis_publish_only. auto.
Qed.

(** When [boto3.resource] raises, the task ends there: the result is
    [ERR] without a record and the cache is not contacted, enabled or not. *)
Theorem failed_archive_client_stops_the_task (w : gmap string PyVal)
    (tr : list Event) (tid : Z) (secure : bool) :
  py_int B (dict_get w "ticker_id" (TICKER_ID C)) = Ok tid ->
  truthy (dict_get w "ticker" (TICKER C)) = Ok true ->
  truthy (dict_get w "s3_enabled" (ENABLED_S3_UPLOAD C)) = Ok true ->
  eq_str_truth (dict_get w "s3_secure" (S3_SECURE C)) "1" = Ok secure ->
  let client :=
    S3Resource
      (if secure
       then "https://" +:+ format_val B (dict_get w "s3_address" (S3_ADDRESS C))
       else "http://" +:+ format_val B (dict_get w "s3_address" (S3_ADDRESS C)))
      (dict_get w "s3_access_key" (S3_ACCESS_KEY C))
      (dict_get w "s3_secret_key" (S3_SECRET_KEY C))
      (dict_get w "s3_region_name" (S3_REGION_NAME C)) in
  returns W client = false ->
  exists r,
    run_task w tr = (Ok r, (tr ++ [client])%list)
    /\ status r = ERR /\ rec r = None.
Proof.
  intros Hid Ht Hs3 Hsec client Hret.
  eexists. split; [|split].
  - unfold publish_pricing_update, st_try, task_body.
    unfold st_bind at 1. unfold st_lift at 1. rewrite Hid.
    unfold st_bind at 1. unfold st_lift at 1. rewrite Ht. cbn [negb]. cbv zeta.
    unfold st_bind at 1. unfold st_lift at 1. rewrite Hs3.
    unfold st_bind at 1. unfold s3_upload.
    unfold st_bind at 1. unfold st_lift at 1. rewrite Hsec.
    unfold st_bind at 1. unfold call at 1. fold client. rewrite Hret.
    reflexivity.
  - reflexivity.
  - reflexivity.
Qed.

(** What the archive branch does once the client is built, whatever the
    bucket check and the bucket creation do: with a payload that
    [json.dumps] accepts, the object write is attempted under the bucket and
    the key of the work order. *)
Lemma s3_upload_puts (w : gmap string PyVal) (bucket key data : PyVal)
    (tr : list Event) (secure : bool) (body : string) :
  eq_str_truth (dict_get w "s3_secure" (S3_SECURE C)) "1" = Ok secure ->
  (forall url ak sk rn, returns W (S3Resource url ak sk rn) = true) ->
  json_dumps B data = Some body ->
  exists evs,
    s3_upload B C W w bucket key data tr = (Ok tt, (tr ++ evs)%list)
    /\ In (S3PutObject bucket key body) evs.
Proof.
  intros Hsec Hret Hd. unfold s3_upload.
  unfold st_bind at 1. unfold st_lift at 1. rewrite Hsec.
  unfold st_bind at 1. unfold call at 1. rewrite Hret.
  unfold st_bind, st_try, call, st_ret. rewrite Hd.
  repeat match goal with
         | |- context [if ?b then _ else _] => destruct b
         end;
    eexists; (split; [rewrite <- ?app_assoc; reflexivity|]); simpl; auto 10.
Qed.

Lemma extends_after_archive (w : gmap string PyVal) (r : Rec) :
  extends
    (st_bind
       (st_lift (truthy (dict_get w "redis_enabled" (ENABLED_REDIS_PUBLISH C))))
       (fun redis_on : bool =>
          st_bind
            (if redis_on
             then redis_publish C W w (dict_get w "data" PyNone)
             else st_ret tt)
            (fun _ => st_ret (build_result SUCCESS None (Some r))))).
Proof. extends_tac; apply extends_redis_publish. Qed.

(** The object write does not depend on the bucket: once the archive
    client is built and [json.dumps] accepts the payload, [put_object] is
    attempted under the bucket and the key of the work order, whether the
    bucket check or the bucket creation raised or not. *)
Theorem object_write_survives_bucket_failures (w : gmap string PyVal)
    (tid : Z) (secure : bool) (body : string) :
  py_int B (dict_get w "ticker_id" (TICKER_ID C)) = Ok tid ->
  truthy (dict_get w "ticker" (TICKER C)) = Ok true ->
  truthy (dict_get w "s3_enabled" (ENABLED_S3_UPLOAD C)) = Ok true ->
  eq_str_truth (dict_get w "s3_secure" (S3_SECURE C)) "1" = Ok secure ->
  (forall url ak sk rn, returns W (S3Resource url ak sk rn) = true) ->
  json_dumps B (dict_get w "data" PyNone) = Some body ->
  In (S3PutObject (dict_get w "s3_bucket" (PyStr "pricing"))
        (dict_get w "s3_key" PyNone) body)
     (snd (run_task w [])).
Proof.
  intros Hid Ht Hs3 Hsec Hret Hd.
  destruct (s3_upload_puts w (dict_get w "s3_bucket" (PyStr "pricing"))
              (dict_get w "s3_key" PyNone) (dict_get w "data" PyNone) []
              secure body Hsec Hret Hd) as (evs & Hup & Hin).
  unfold publish_pricing_update. rewrite snd_try_ret. unfold task_body.
  unfold st_bind at 1. unfold st_lift at 1. rewrite Hid.
  unfold st_bind at 1. unfold st_lift at 1. rewrite Ht. cbn [negb]. cbv zeta.
  unfold st_bind at 1. unfold st_lift at 1. rewrite Hs3.
  unfold st_bind at 1. rewrite Hup. cbv beta iota.
  match goal with
  | |- In _ (snd (?K ?t)) =>
      destruct (extends_run K t _ _ (extends_after_archive w _)
                  (surjective_pairing (K t))) as [more ->]
  end.
  apply in_or_app. left. exact Hin.
Qed.

(** The trace of a run, with the kind of its two parts. *)
Lemma task_trace_parts (w : gmap string PyVal) :
  exists a c,
    snd (run_task w []) = (a ++ c)%list
    /\ (a = []
        \/ exists o,
            s3_upload B C W w (dict_get w "s3_bucket" (PyStr "pricing"))
              (dict_get w "s3_key" PyNone) (dict_get w "data" PyNone) []
            = (o, a))
    /\ (c = []
        \/ exists o,
            redis_publish C W w (dict_get w "data" PyNone) a = (o, (a ++ c)%list))
    /\ forallb is_s3_event a = true
    /\ forallb is_redis_event c = true.
Proof.
  destruct (task_trace_split w) as (a & c & Htr & Ha & Hc).
  exists a, c. split; [exact Htr|]. split; [exact Ha|]. split; [exact Hc|].
  split.
  - destruct Ha as [->|[o Ho]]; [reflexivity|].
    apply (respects_run (appends_only is_s3_event)) in Ho
      as (evs & Hevs & Hall); [by subst a|].
    apply s3_upload_only. auto.
  - destruct Hc as [->|[o Ho]]; [reflexivity|].
    apply (respects_run (appends_only is_redis_event)) in Ho
      as (evs & Hevs & Hall);
      [apply app_inv_head in Hevs; by subst c|].
    apply redis_publish_only. auto.
Qed.

(** Where the archive branch creates a bucket. *)
Lemma s3_upload_creates (w : gmap string PyVal) (bucket key data : PyVal)
    (o : Outcome unit) (a : list Event) (b : PyVal) :
  s3_upload B C W w bucket key data [] = (o, a) ->
  In (S3CreateBucket b) a ->
  b = bucket /\ bucket_listed W bucket = false
  /\ returns W (S3BucketCheck bucket) = true.
Proof.
  unfold s3_upload, st_bind, st_try, st_lift, call, st_ret, st_raise.
  intros H Hin.
  destruct (eq_str_truth _ _) as [secure|x];
    [|inversion H; subst a; simpl in Hin; contradiction].
  destruct (returns W (S3Resource _ _ _ _));
    [|inversion H; subst a; simpl in Hin; intuition discriminate].
  destruct (returns W (S3BucketCheck bucket)) eqn:Hcheck;
    destruct (bucket_listed W bucket) eqn:Hlisted;
    destruct (returns W (S3CreateBucket bucket));
    (destruct (json_dumps B data) as [body|];
     [destruct (returns W (S3PutObject bucket key body))|]);
    cbn in H; inversion H; subst a; simpl in Hin;
    repeat (destruct Hin as [Hin|Hin];
            [try discriminate Hin; inversion Hin; subst; auto|]);
    try contradiction.
Qed.

(** A bucket is created only when the check returned and did not list it,
    and it is the bucket of the work order. *)
Theorem bucket_is_created_only_when_missing (w : gmap string PyVal) (b : PyVal) :
  In (S3CreateBucket b) (snd (run_task w [])) ->
  b = dict_get w "s3_bucket" (PyStr "pricing")
  /\ bucket_listed W b = false
  /\ returns W (S3BucketCheck b) = true.
Proof.
  intros Hin.
  destruct (task_trace_parts w) as (a & c & Htr & Ha & _ & _ & Hc).
  rewrite Htr in Hin. apply in_app_or in Hin as [Hin|Hin].
  - destruct Ha as [->|[o Ho]]; [destruct Hin|].
    destruct (s3_upload_creates w _ _ _ o a b Ho Hin) as (-> & Hl & Hr).
    auto.
  - rewrite forallb_forall in Hc. specialize (Hc _ Hin). discriminate Hc.
Qed.

(** An address without a colon has no port: the cache branch raises before
    it contacts the cache. *)
Lemma redis_publish_no_port (w : gmap string PyVal) (data : PyVal)
    (addr : string) (tr : list Event) :
  dict_get w "redis_address" (REDIS_ADDRESS C) = PyStr addr ->
  colon_free addr = true ->
  exists x, redis_publish C W w data tr = (Raise x, tr).
Proof.
  intros Haddr Hfree. unfold redis_publish. rewrite Haddr.
  unfold st_bind at 1. unfold st_lift at 1.
  destruct (truthy (dict_get w "redis_db" PyNone)) as [has_db|x];
    [|by exists x].
  unfold py_split_colon, split_colon. rewrite (split_colon_aux_free "" addr Hfree).
  exists IndexError. reflexivity.
Qed.

(** With the cache enabled and an address that holds no colon, the task
    ends with [ERR] and the cache is never contacted. *)
Theorem address_without_port_fails_the_task (w : gmap string PyVal)
    (addr : string) :
  dict_get w "redis_address" (REDIS_ADDRESS C) = PyStr addr ->
  colon_free addr = true ->
  truthy (dict_get w "redis_enabled" (ENABLED_REDIS_PUBLISH C)) = Ok true ->
  exists r,
    fst (run_task w []) = Ok r
    /\ status r = ERR
    /\ cache_contacted (snd (run_task w [])) = false.
Proof.
  intros Haddr Hfree Hon.
  assert (Hstatus : exists r, fst (run_task w []) = Ok r /\ status r = ERR).
  { unfold publish_pricing_update, st_try.
    destruct (task_body B C W w []) as [[r|x] t] eqn:E;
      [|eexists; split; reflexivity].
    exists r. split; [reflexivity|].
    unfold task_body in E.
    apply st_bind_ok in E as (tid & t1 & H1 & E).
    apply st_bind_ok in E as (ht & t2 & H2 & E).
    destruct ht; cbn [negb] in E; cbv iota in E;
      [|unfold st_ret in E; by inversion E].
    apply st_bind_ok in E as (s3on & t3 & H3 & E).
    apply st_bind_ok in E as ([] & t4 & H4 & E).
    apply st_bind_ok in E as (ron & t5 & H5 & E).
    apply st_lift_ok in H5 as [H5 ->]. rewrite Hon in H5. inversion H5. subst ron.
    apply st_bind_ok in E as ([] & t6 & H6 & E).
    destruct (redis_publish_no_port w (dict_get w "data" PyNone) addr t4
                Haddr Hfree) as [x Hx].
    rewrite Hx in H6. discriminate H6. }
  destruct Hstatus as (r & Hr & Hs). exists r. split; [exact Hr|].
  split; [exact Hs|].
  destruct (task_trace_parts w) as (a & c & -> & _ & Hc & Ha & _).
  assert (c = []) as ->.
  { destruct Hc as [->|[o Ho]]; [reflexivity|].
    destruct (redis_publish_no_port w (dict_get w "data" PyNone) addr a
                Haddr Hfree) as [x Hx].
    rewrite Hx in Ho. injection Ho as _ Heq.
    rewrite <- (app_nil_r a) in Heq at 1. by apply app_inv_head in Heq. }
  rewrite app_nil_r. unfold cache_contacted. apply forallb_negb_existsb.
  rewrite forallb_forall in *. intros ev Hev. specialize (Ha ev Hev).
  destruct ev; try discriminate Ha; reflexivity.
Qed.

(** The key the cache is written under and the key the record echoes are
    read with different defaults: the write falls back to [REDIS_KEY], the
    record to [None].  When the statements under the outer [try] run to
    their end with the cache enabled and the client built, the value set
    is the payload as it came, under the first key, with the expiry of the
    work order or none. *)
Theorem cache_write_and_its_echo (w : gmap string PyVal) (r : Result)
    (tr : list Event) :
  task_body B C W w [] = (Ok r, tr) ->
  truthy (dict_get w "ticker" (TICKER C)) = Ok true ->
  truthy (dict_get w "redis_enabled" (ENABLED_REDIS_PUBLISH C)) = Ok true ->
  (forall h p pw db, returns W (RedisConnect h p pw db) = true) ->
  In (RedisSet (dict_get w "redis_key" (REDIS_KEY C)) (dict_get w "data" PyNone)
        (default PyNone (w !! "redis_expire"))) tr
  /\ redis_key <$> rec r = Some (dict_get w "redis_key" PyNone).
Proof.
  intros E Ht Hon Hconn. unfold task_body in E.
  apply st_bind_ok in E as (tid & t1 & H1 & E).
  apply st_bind_ok in E as (ht & t2 & H2 & E).
  apply st_lift_ok in H2 as [H2 ->]. rewrite Ht in H2. inversion H2. subst ht.
  cbn [negb] in E. cbv iota in E.
  apply st_bind_ok in E as (s3on & t3 & H3 & E).
  apply st_bind_ok in E as ([] & t4 & H4 & E).
  apply st_bind_ok in E as (ron & t5 & H5 & E).
  apply st_lift_ok in H5 as [H5 ->]. rewrite Hon in H5. inversion H5. subst ron.
  apply st_bind_ok in E as ([] & t6 & H6 & E).
  unfold st_ret in E. inversion E. subst r tr. clear E.
  split; [|reflexivity].
  unfold redis_publish in H6.
  apply st_bind_ok in H6 as (has_db & s1 & Hdb & H6).
  apply st_lift_ok in Hdb as [_ ->].
  apply st_bind_ok in H6 as (parts & s1 & Hp & H6).
  apply st_lift_ok in Hp as [_ ->].
  apply st_bind_ok in H6 as (host & s1 & Hh & H6).
  apply st_lift_ok in Hh as [_ ->].
  apply st_bind_ok in H6 as (port & s1 & Hpt & H6).
  apply st_lift_ok in Hpt as [_ ->].
  unfold st_try, st_bind, call, st_ret in H6. rewrite Hconn in H6.
  destruct (returns W (RedisSet _ _ _)); inversion H6;
    apply in_or_app; right; left; reflexivity.
Qed.

(** With celery switched off (the default), the wrapper answers with the
    result of the task and makes the calls of the task; the queue is not
    used. *)
Theorem run_inline_is_the_task (ev : string -> string -> string)
    (via_queue : gmap string PyVal -> Task Result) (w : gmap string PyVal)
    (tr : list Event) :
  ev "CELERY_DISABLED" "1" = "1" ->
  run_publish_pricing_update B C W format_failure ev via_queue w tr
  = run_task w tr.
Proof.
  intros Hoff. unfold run_publish_pricing_update. rewrite Hoff.
  change (String.eqb "1" "1") with true. cbv iota.
  unfold st_bind, publish_pricing_update, st_try.
  destruct (task_body B C W w tr) as [[r|x] t]; [destruct r|]; reflexivity.
Qed.

End TraceFacts.


Lemma bad_ticker_id_fails_first_witness :
  publish_pricing_update Demo.builtins Demo.consts Demo.calm
    Demo.format_failure
    {[ "ticker" := PyStr "SPY"; "ticker_id" := PyStr "first" ]} []
  = (Ok (build_result ERR
           (Some (Demo.format_failure
                    {[ "ticker" := PyStr "SPY"; "ticker_id" := PyStr "first" ]}
                    ValueError))
           None),
     []).
Proof.
  apply (bad_ticker_id_fails_first Demo.builtins Demo.consts Demo.calm
           Demo.format_failure).
  reflexivity.
Defined.

Lemma disabled_sinks_contact_nothing_witness :
  exists r,
    publish_pricing_update Demo.builtins Demo.consts Demo.calm
      Demo.format_failure {[ "ticker" := PyStr "SPY" ]} []
    = (Ok (build_result SUCCESS None (Some r)), [])
    /\ s3_bucket r = PyStr "pricing" /\ ticker_id r = PyInt 1.
Proof.
  eexists. split.
  - apply (disabled_sinks_contact_nothing Demo.builtins Demo.consts Demo.calm
             Demo.format_failure {[ "ticker" := PyStr "SPY" ]} [] 1);
      reflexivity.
  - split; reflexivity.
Defined.

Lemma disabled_archive_is_never_contacted_witness :
  archive_contacted
    (snd (publish_pricing_update Demo.builtins Demo.consts Demo.calm
            Demo.format_failure Demo.cache_only []))
  = false.
Proof.
  apply (disabled_archive_is_never_contacted Demo.builtins Demo.consts
           Demo.calm Demo.format_failure Demo.cache_only).
  reflexivity.
Defined.

Lemma disabled_cache_is_never_contacted_witness :
  cache_contacted
    (snd (publish_pricing_update Demo.builtins Demo.consts Demo.calm
            Demo.format_failure
            {[ "ticker" := PyStr "SPY"; "s3_enabled" := PyBool true ]} []))
  = false.
Proof.
  apply (disabled_cache_is_never_contacted Demo.builtins Demo.consts
           Demo.calm Demo.format_failure
           {[ "ticker" := PyStr "SPY"; "s3_enabled" := PyBool true ]}).
  reflexivity.
Defined.

Lemma failed_archive_client_stops_the_task_witness :
  exists r,
    publish_pricing_update Demo.builtins Demo.consts Demo.no_archive
      Demo.format_failure Demo.both_sinks []
    = (Ok r,
       [S3Resource "http://localhost:9000" (PyStr "access") (PyStr "secret")
          (PyStr "us-east-1")])
    /\ status r = ERR /\ rec r = None.
Proof.
  apply (failed_archive_client_stops_the_task Demo.builtins Demo.consts
           Demo.no_archive Demo.format_failure Demo.both_sinks [] 1 false);
    reflexivity.
Defined.

Lemma object_write_survives_bucket_failures_witness :
  In (S3PutObject (PyStr "pricing") (PyStr "spy-pricing")
        (default "" (Demo.render (PyDict [("close", PyInt 270)]))))
     (snd (publish_pricing_update Demo.builtins Demo.consts Demo.stormy
             Demo.format_failure Demo.both_sinks [])).
Proof.
  apply (object_write_survives_bucket_failures Demo.builtins Demo.consts
           Demo.stormy Demo.format_failure Demo.both_sinks 1 false);
    solve [reflexivity | intros; reflexivity | vm_compute; reflexivity].
Defined.

Lemma bucket_is_created_only_when_missing_witness :
  PyStr "pricing" = dict_get Demo.both_sinks "s3_bucket" (PyStr "pricing")
  /\ bucket_listed Demo.calm (PyStr "pricing") = false
  /\ returns Demo.calm (S3BucketCheck (PyStr "pricing")) = true.
Proof.
  apply (bucket_is_created_only_when_missing Demo.builtins Demo.consts
           Demo.calm Demo.format_failure Demo.both_sinks).
  vm_compute. right. right. left. reflexivity.
Defined.

Lemma address_without_port_fails_the_task_witness :
  exists r,
    fst (publish_pricing_update Demo.builtins Demo.consts Demo.calm
           Demo.format_failure
           (<["redis_address" := PyStr "localhost"]> Demo.cache_only) [])
    = Ok r
    /\ status r = ERR
    /\ cache_contacted
         (snd (publish_pricing_update Demo.builtins Demo.consts Demo.calm
                 Demo.format_failure
                 (<["redis_address" := PyStr "localhost"]> Demo.cache_only) []))
       = false.
Proof.
  apply (address_without_port_fails_the_task Demo.builtins Demo.consts
           Demo.calm Demo.format_failure
           (<["redis_address" := PyStr "localhost"]> Demo.cache_only)
           "localhost");
    reflexivity.
Defined.

Lemma cache_write_and_its_echo_witness :
  exists r tr,
    task_body Demo.builtins Demo.consts Demo.calm Demo.cache_only [] = (Ok r, tr)
    /\ In (RedisSet (PyStr "test_redis_key") (PyDict [("close", PyInt 270)])
             PyNone) tr
    /\ redis_key <$> rec r = Some PyNone.
Proof.
  edestruct (cache_write_and_its_echo Demo.builtins Demo.consts Demo.calm
               Demo.cache_only) as (Hset & Hecho);
    [vm_compute; reflexivity | reflexivity | reflexivity
    | intros; reflexivity |].
  eexists _, _. split; [vm_compute; reflexivity|].
  split; [exact Hset | exact Hecho].
Defined.

Lemma run_inline_is_the_task_witness :
  run_publish_pricing_update Demo.builtins Demo.consts Demo.calm
    Demo.format_failure Demo.env Demo.no_queue Demo.both_sinks []
  = publish_pricing_update Demo.builtins Demo.consts Demo.calm
      Demo.format_failure Demo.both_sinks [].
Proof.
  apply (run_inline_is_the_task Demo.builtins Demo.consts Demo.calm
           Demo.format_failure Demo.env Demo.no_queue).
  reflexivity.
Defined.

(** *** Failures at the sinks *)

Lemma split_colon_aux_nonempty (cur s : string) : split_colon_aux cur s <> [].
Proof.
  revert cur. induction s as [|c s IH]; intros cur; cbn [split_colon_aux].
  - discriminate.
  - destruct (Ascii.eqb c ":"%char); [discriminate | apply IH].
Qed.

(** An address that holds a colon splits into two pieces at least. *)
Lemma split_colon_aux_two (cur s : string) :
  colon_free s = false ->
  exists a b rest, split_colon_aux cur s = a :: b :: rest.
Proof.
  revert cur. induction s as [|c s IH]; intros cur H;
    cbn [split_colon_aux colon_free] in *; [discriminate H|].
  destruct (Ascii.eqb c ":"%char); cbn [negb andb] in H.
  - pose proof (split_colon_aux_nonempty "" s) as Hne.
    destruct (split_colon_aux "" s) as [|b rest]; [contradiction|].
    eauto.
  - apply IH, H.
Qed.

Section Swallowed.

Variable B : Builtins.
Variable C : Consts.
Variable W : World.
Variable format_failure : gmap string PyVal -> Exn -> string.

(** Once [boto3.resource] has returned, the archive branch returns too,
    whatever the bucket check, the bucket creation, [json.dumps] and the
    object write do; it has contacted the archive and nothing else. *)
Lemma s3_upload_completes (w : gmap string PyVal) (bucket key data : PyVal)
    (tr : list Event) :
  is_ok (eq_str_truth (dict_get w "s3_secure" (S3_SECURE C)) "1") = true ->
  (forall url ak sk rn, returns W (S3Resource url ak sk rn) = true) ->
  exists evs,
    s3_upload B C W w bucket key data tr = (Ok tt, (tr ++ evs)%list)
    /\ archive_contacted evs = true /\ cache_contacted evs = false.
Proof.
  intros Hsec Hret. unfold s3_upload.
  destruct (eq_str_truth _ _) as [secure|x]; [|discriminate Hsec].
  unfold st_bind at 1. unfold st_lift at 1.
  unfold st_bind at 1. unfold call at 1. rewrite Hret.
  unfold st_bind, st_try, call, st_ret, st_raise.
  destruct (json_dumps B data) as [body|];
    repeat match goal with
           | |- context [if ?b then _ else _] => destruct b
           end;
    eexists; (split; [rewrite <- ?app_assoc; reflexivity|]);
    split; reflexivity.
Qed.

(** With a host and a port to connect to, the cache branch returns,
    whatever building the client and the write do; it has contacted the
    cache and nothing else. *)
Lemma redis_publish_completes (w : gmap string PyVal) (data : PyVal)
    (tr : list Event) (addr : string) :
  is_ok (truthy (dict_get w "redis_db" PyNone)) = true ->
  dict_get w "redis_address" (REDIS_ADDRESS C) = PyStr addr ->
  colon_free addr = false ->
  exists evs,
    redis_publish C W w data tr = (Ok tt, (tr ++ evs)%list)
    /\ cache_contacted evs = true /\ archive_contacted evs = false.
Proof.
  intros Hdb Haddr Hport. unfold redis_publish. rewrite Haddr.
  destruct (truthy (dict_get w "redis_db" PyNone)) as [has_db|x];
    [|discriminate Hdb].
  unfold st_bind at 1. unfold st_lift at 1.
  unfold py_split_colon, split_colon.
  destruct (split_colon_aux_two "" addr Hport) as (host & port & rest & ->).
  unfold st_bind, st_lift, st_try, call, st_ret, index. cbn [lookup list_lookup].
  repeat match goal with
         | |- context [if ?b then _ else _] => destruct b
         end;
    eexists; (split; [rewrite <- ?app_assoc; reflexivity|]);
    split; reflexivity.
Qed.

(** C8, as amended.  Take a work order with a truthy ticker, a ticker id
    that converts and sink switches that have a truth value; when the
    archive is enabled let [boto3.resource] return, and when the cache is
    enabled let the address hold a host and a port.  Then the task returns
    the [SUCCESS] result without an error, whatever the bucket check, the
    bucket creation, the object write, the cache client and the cache write
    do: nothing is assumed of them, so each may raise.  And the calls the
    task made are to the archive exactly when the archive is enabled and to
    the cache exactly when the cache is enabled: a failure at one sink does
    not keep the task from the other. *)
Theorem sink_failures_are_swallowed (w : gmap string PyVal) (tr : list Event)
    (s3_on redis_on : bool) :
  is_ok (py_int B (dict_get w "ticker_id" (TICKER_ID C))) = true ->
  truthy (dict_get w "ticker" (TICKER C)) = Ok true ->
  truthy (dict_get w "s3_enabled" (ENABLED_S3_UPLOAD C)) = Ok s3_on ->
  truthy (dict_get w "redis_enabled" (ENABLED_REDIS_PUBLISH C)) = Ok redis_on ->
  (s3_on = true ->
   is_ok (eq_str_truth (dict_get w "s3_secure" (S3_SECURE C)) "1") = true
   /\ forall url ak sk rn, returns W (S3Resource url ak sk rn) = true) ->
  (redis_on = true ->
   is_ok (truthy (dict_get w "redis_db" PyNone)) = true
   /\ exists addr,
       dict_get w "redis_address" (REDIS_ADDRESS C) = PyStr addr
       /\ colon_free addr = false) ->
  exists r evs,
    publish_pricing_update B C W format_failure w tr = (Ok r, (tr ++ evs)%list)
    /\ status r = SUCCESS /\ err r = None
    /\ archive_contacted evs = s3_on
    /\ cache_contacted evs = redis_on.
Proof.
  intros Hid Ht Hs3 Hredis Harchive Hcache.
  unfold publish_pricing_update, st_try, task_body.
  destruct (py_int B (dict_get w "ticker_id" (TICKER_ID C))) as [tid|x];
    [|discriminate Hid].
  unfold st_bind at 1. unfold st_lift at 1.
  unfold st_bind at 1. unfold st_lift at 1. rewrite Ht. cbn [negb]. cbv zeta.
  unfold st_bind at 1. unfold st_lift at 1. rewrite Hs3.
  unfold st_bind at 1.
  match goal with
  | |- context [let (_, _) := ?m tr in _] =>
      assert (Ha : exists evs,
                 m tr = (Ok tt, (tr ++ evs)%list)
                 /\ archive_contacted evs = s3_on
                 /\ cache_contacted evs = false)
  end.
  { destruct s3_on.
    - destruct (Harchive eq_refl) as [Hsec Hret].
      apply s3_upload_completes; assumption.
    - exists []. rewrite app_nil_r. repeat split. }
  destruct Ha as (evs1 & Hrun1 & Ha1 & Hc1). rewrite Hrun1.
  unfold st_bind at 1. unfold st_lift at 1. rewrite Hredis.
  unfold st_bind at 1.
  match goal with
  | |- context [let (_, _) := ?m (tr ++ evs1)%list in _] =>
      assert (Hc : exists evs,
                 m (tr ++ evs1)%list = (Ok tt, ((tr ++ evs1) ++ evs)%list)
                 /\ cache_contacted evs = redis_on
                 /\ archive_contacted evs = false)
  end.
  { destruct redis_on.
    - destruct (Hcache eq_refl) as (Hdb & addr & Haddr & Hport).
      eapply redis_publish_completes; eassumption.
    - exists []. rewrite app_nil_r. repeat split. }
  destruct Hc as (evs2 & Hrun2 & Hc2 & Ha2). rewrite Hrun2.
  eexists _, (evs1 ++ evs2)%list. split; [rewrite app_assoc; reflexivity|].
  split; [reflexivity|]. split; [reflexivity|].
  unfold archive_contacted, cache_contacted in *. rewrite !existsb_app.
  rewrite Ha1, Ha2, Hc1, Hc2. split; [apply orb_false_r | reflexivity].
Qed.

End Swallowed.

Lemma sink_failures_are_swallowed_witness :
  exists r evs,
    publish_pricing_update Demo.builtins Demo.consts Demo.stormy
      Demo.format_failure Demo.both_sinks [] = (Ok r, evs)
    /\ status r = SUCCESS /\ err r = None
    /\ archive_contacted evs = true /\ cache_contacted evs = true
    /\ List.length evs = 5%nat.
Proof.
  edestruct (sink_failures_are_swallowed Demo.builtins Demo.consts Demo.stormy
               Demo.format_failure Demo.both_sinks [] true true)
    as (r & evs & Hrun & Hs & He & Ha & Hc);
    [ reflexivity | reflexivity | reflexivity | reflexivity
    | intros _; split; [reflexivity | intros; reflexivity]
    | intros _; split; [reflexivity | eexists; split; reflexivity] |].
  exists r, evs. split; [exact Hrun|].
  split; [exact Hs|]. split; [exact He|]. split; [exact Ha|].
  split; [exact Hc|].
  cbn [app] in Hrun. vm_compute in Hrun. inversion Hrun. reflexivity.
Defined.

End PricingTaskFacts.

(** ** The algorithm engine *)

Module AlgoFacts.

Import Algo.

(** *** Replaying a configuration *)

Section ConfigFacts.

Context {V : Type}.
Implicit Types (cfg d : gmap string V) (k : string).

Lemma config_step_lookup cfg d k0 k :
  config_step cfg d k0 !! k =
    if decide (k = k0)
    then (fun old => default old (cfg !! k)) <$> (d !! k)
    else d !! k.
Proof.
  unfold config_step. destruct (decide (k = k0)) as [->|Hne].
  - destruct (d !! k0) as [old|] eqn:Hd; [|by rewrite Hd].
    destruct (cfg !! k0) as [v|] eqn:Hc.
    + by rewrite lookup_insert_eq.
    + by rewrite Hd.
  - destruct (d !! k0), (cfg !! k0); try reflexivity.
    by rewrite lookup_insert_ne.
Qed.

(** The loop over the keys of the configuration, one key at a time. *)
Lemma fold_config_lookup cfg (ks : list string) d k :
  List.fold_left (config_step cfg) ks d !! k =
    (fun old => if bool_decide (k ∈ ks) then default old (cfg !! k) else old)
      <$> (d !! k).
Proof.
  revert d. induction ks as [|k0 ks IH]; intros d; simpl.
  - destruct (d !! k); reflexivity.
  - rewrite IH, config_step_lookup.
    destruct (decide (k = k0)) as [->|Hne].
    + rewrite (bool_decide_eq_true_2 (k0 ∈ k0 :: ks)) by apply list_elem_of_here.
      destruct (d !! k0) as [old|]; simpl; [|reflexivity].
      destruct (bool_decide (k0 ∈ ks)); destruct (cfg !! k0); reflexivity.
    + destruct (d !! k) as [old|]; simpl; [|reflexivity].
      f_equal. apply (f_equal (fun b : bool => if b then _ else _)).
      apply bool_decide_ext. rewrite elem_of_cons. tauto.
Qed.

(** What [load_from_config] leaves under each name: a member that exists
    takes the configured value when the map has one and keeps its own
    otherwise; a name that is not a member stays absent. *)
Lemma load_from_config_lookup cfg d k :
  load_from_config (Some cfg) d !! k =
    (fun old => default old (cfg !! k)) <$> (d !! k).
Proof.
  unfold load_from_config. destruct (Nat.eqb (size cfg) 0) eqn:Hsz.
  - apply Nat.eqb_eq, map_size_empty_iff in Hsz. subst cfg.
    rewrite lookup_empty. destruct (d !! k); reflexivity.
  - rewrite fold_config_lookup. destruct (d !! k) as [old|]; simpl; [|reflexivity].
    f_equal. case_bool_decide as Hin; [reflexivity|].
    destruct (cfg !! k) as [v|] eqn:Hc; [|reflexivity].
    exfalso. apply Hin. apply list_elem_of_fmap.
    exists (k, v). split; [reflexivity|]. by apply elem_of_map_to_list.
Qed.

(** C9.  Applying a configuration map a second time changes nothing; one
    application leaves the set of members as it was, gives a member the
    configured value when the map has its name, and ignores every other
    key of the map. *)
Theorem load_from_config_idempotent (config_dict : option (gmap string V)) d :
  load_from_config config_dict (load_from_config config_dict d)
  = load_from_config config_dict d
  /\ dom (load_from_config config_dict d) = dom d
  /\ load_from_config None d = d
  /\ forall cfg k,
      load_from_config (Some cfg) d !! k
      = (fun old => default old (cfg !! k)) <$> (d !! k).
Proof.
  split; [|split; [|split]].
  - destruct config_dict as [cfg|]; [|reflexivity].
    apply map_eq. intros k. rewrite !load_from_config_lookup.
    destruct (d !! k) as [old|]; simpl; [|reflexivity].
    destruct (cfg !! k); reflexivity.
  - destruct config_dict as [cfg|]; [|reflexivity].
    apply set_eq. intros k. rewrite !elem_of_dom, load_from_config_lookup.
    destruct (d !! k); simpl; split; intros [x Hx]; eauto; discriminate.
  - reflexivity.
  - intros cfg k. apply load_from_config_lookup.
Qed.

End ConfigFacts.

(** *** Publishing *)

(** C7.  With the report-publish flag off, [publish_report_datasets] returns
    [NOT_RUN] with the output file it resolved, and the trace of calls to
    the publish utility is the one it started from: nothing was written to
    a file, the cache, the archive or the chat channel. *)
Theorem publish_report_disabled_is_noop (B : Builtins)
    (publish : PublishCall -> Status) (kw : PubOverrides) (e : Engine)
    (tr : list PublishCall) :
  publish_report (settings e) = false ->
  publish_report_datasets B publish kw e tr
  = (Ok (NOT_RUN,
         resolved_output_file "report" (resolve_kwargs kw e (report_cfg e)) e),
     tr).
Proof.
  intros Hoff. unfold publish_report_datasets, publish_surface.
  rewrite Hoff. reflexivity.
Qed.

Lemma publish_report_disabled_is_noop_witness :
  publish_report (settings Demo.engine_report_off) = false
  /\ publish_report_datasets Demo.builtins (fun _ => SUCCESS) no_overrides
       Demo.engine_report_off []
     = (Ok (NOT_RUN, Some "None/report-run1.json"), []).
Proof.
  split; [reflexivity|].
  apply (publish_report_disabled_is_noop Demo.builtins (fun _ => SUCCESS)
           no_overrides Demo.engine_report_off []).
  reflexivity.
Defined.

(** What an enabled history surface with an output file publishes: the
    placeholder, whatever the engine holds, and the status is the one the
    publish utility answered. *)
Lemma publish_trade_history_payload (B : Builtins)
    (publish : PublishCall -> Status) (kw : PubOverrides) (e : Engine)
    (tr : list PublishCall) (use_data : string) :
  publish_history (settings e) = true ->
  truthy_str (resolved_output_file "history"
                (resolve_kwargs kw e (history_cfg e)) e) = true ->
  json_dumps B placeholder_output_data = Some use_data ->
  let f := resolved_output_file "history" (resolve_kwargs kw e (history_cfg e)) e in
  let c := {| pub_data := use_data;
              pub_args := with_output_file f (resolve_kwargs kw e (history_cfg e)) |} in
  publish_trade_history B publish kw e tr = (Ok (publish c, f), (tr ++ [c])%list).
Proof.
  intros Hon Hf Hd. unfold publish_trade_history, publish_surface.
  rewrite Hon. cbn [negb]. cbv zeta. rewrite Hf, Hd. reflexivity.
Qed.

(** What the input surface does with each value before it publishes: a
    pandas object is rendered by [to_json], a falsy value becomes the empty
    placeholder, anything else goes through [json.dumps]. *)
Lemma serialize_value_cases (B : Builtins) (empty_ds : string) (v : PyVal) :
  (has_to_json v = true -> serialize_value B empty_ds v = Ok (to_json B v))
  /\ (has_to_json v = false -> truthy v = Ok false ->
      serialize_value B empty_ds v = Ok empty_ds)
  /\ (forall s, has_to_json v = false -> truthy v = Ok true ->
                json_dumps B v = Some s -> serialize_value B empty_ds v = Ok s).
Proof.
  unfold serialize_value. repeat split.
  - intros ->. reflexivity.
  - intros -> ->. reflexivity.
  - intros s -> -> ->. reflexivity.
Qed.

(** C3, at an engine that has traded.  After a run over two days the
    engine holds two history entries, yet the payload [publish_trade_history]
    hands to the publish utility is [json.dumps({'test': 'hello'})]: it is
    not the serialization of the trade history.  The status returned is
    the utility's. *)
Theorem publish_trade_history_sends_placeholder :
  let answer : PublishCall -> Status := fun _ => SUCCESS in
  List.length (order_history (run Demo.engine_after_run)) = 2%nat
  /\ exists c f,
      publish_trade_history Demo.builtins answer no_overrides
        Demo.engine_after_run [] = (Ok (answer c, f), [c])
      /\ Some (pub_data c) = json_dumps Demo.builtins placeholder_output_data
      /\ Some (pub_data c)
         <> json_dumps Demo.builtins
              (PyList (order_history (run Demo.engine_after_run))).
Proof.
  split; [vm_compute; reflexivity|].
  eexists _, _. split; [vm_compute; reflexivity|].
  split; [vm_compute; reflexivity|].
  vm_compute. discriminate.
Qed.

(** *** Construction *)

(** The directory the default paths are built under: the fixed test
    directory when the caller names a directory, and the caller's value
    ([None] or the empty string) when it does not. *)
Lemma output_file_dir_of_init (C : Consts) (utc_now_str : string -> string)
    (build_publish_request : PubOverrides) (a : InitArgs) :
  output_file_dir (settings (init_members C utc_now_str build_publish_request a))
  = if truthy_str (a_output_dir a) then Some "/opt/sa/tests/datasets/algo"
    else a_output_dir a.
Proof. simpl. destruct (truthy_str (a_output_dir a)); reflexivity. Qed.

(** The four default paths are built under that directory. *)
Lemma default_output_files_of_init (C : Consts) (utc_now_str : string -> string)
    (build_publish_request : PubOverrides) (a : InitArgs) :
  let s := settings (init_members C utc_now_str build_publish_request a) in
  let dir := fmt_opt (output_file_dir s) in
  default_output_file s = dir +:+ "/" +:+ save_as_key s +:+ ".json"
  /\ default_input_output_file s = dir +:+ "/input-" +:+ save_as_key s +:+ ".json"
  /\ default_history_output_file s
     = dir +:+ "/history-" +:+ save_as_key s +:+ ".json"
  /\ default_report_output_file s
     = dir +:+ "/report-" +:+ save_as_key s +:+ ".json".
Proof. repeat split. Qed.

(** C6, at an engine built with [output_dir='/tmp/algo-out'] and
    [use_key='run1']: the four default paths lie under the fixed test
    directory, not under the directory of the caller. *)
Theorem caller_output_dir_is_ignored :
  exists e,
    init Demo.consts Demo.utc_now_str no_overrides Demo.no_files Demo.no_loader
      (Demo.args_with (Some "/tmp/algo-out") true None) = Ok e
    /\ default_output_file (settings e) = "/opt/sa/tests/datasets/algo/run1.json"
    /\ default_input_output_file (settings e)
       = "/opt/sa/tests/datasets/algo/input-run1.json"
    /\ default_history_output_file (settings e)
       = "/opt/sa/tests/datasets/algo/history-run1.json"
    /\ default_report_output_file (settings e)
       = "/opt/sa/tests/datasets/algo/report-run1.json"
    /\ default_output_file (settings e) <> "/tmp/algo-out/run1.json".
Proof.
  eexists. split; [vm_compute; reflexivity|].
  repeat split; discriminate.
Qed.

(** *** Loading one dataset node *)

#[local] Instance same_frames_preorder : PreOrder same_frames.
Proof.
  split.
  - intros e. split; reflexivity.
  - intros e1 e2 e3 [H1 H2] [H3 H4]. split; congruence.
Qed.

Lemma load_column_same_frames {A} (B : Builtins) (cols : list string)
    (col : string) (conv : PyVal -> Outcome A) (store : A -> Latest -> Latest) :
  respects same_frames (load_column cols col conv store).
Proof.
  unfold load_column. respects_tac.
  apply respects_modify. intros e. split; reflexivity.
Qed.

Lemma load_latest_prices_same_frames (B : Builtins) :
  respects same_frames (load_latest_prices B).
Proof.
  unfold load_latest_prices. respects_tac;
    apply (load_column_same_frames B).
Qed.

(** The dataset members after [load_from_dataset], whether the price
    extraction raised or not: the values of the node's data under the
    thirteen keys, each replaced by [empty_pd] when it lacks the [empty]
    attribute. *)
Lemma load_from_dataset_frames (B : Builtins) (n : Node)
    (d : gmap string PyVal) (e : Engine) :
  node_data n = Some d ->
  market (snd (load_from_dataset B n e))
  = check_frames (empty_pd (settings e))
      (assign_frames d (empty_pd (settings e)) (backup_and_load n (market e)))
  /\ settings (snd (load_from_dataset B n e)) = settings e.
Proof.
  intros Hd.
  assert (H : same_frames
                (set_market
                   (check_frames (empty_pd (settings e))
                      (assign_frames d (empty_pd (settings e))
                         (backup_and_load n (market e)))) e)
                (snd (load_from_dataset B n e))).
  { unfold load_from_dataset. rewrite Hd.
    do 5 (unfold st_bind at 1; unfold st_modify at 1).
    match goal with
    | |- same_frames _ (snd (st_try ?body ?h ?s)) =>
        transitivity s; [split; reflexivity|];
        apply (respects_try same_frames body h)
    end.
    - apply load_latest_prices_same_frames.
    - intros x. respects_tac; apply respects_modify; intros s; split; reflexivity. }
  destruct H as [Hm Hs]. rewrite Hm, Hs. split; reflexivity.
Qed.

(** [df_pricing] never keeps a map: a dictionary lacks the [empty]
    attribute, so the last of the thirteen checks replaces it. *)
Lemma load_from_dataset_pricing (B : Builtins) (n : Node)
    (d : gmap string PyVal) (e : Engine) :
  node_data n = Some d ->
  df_pricing (market (snd (load_from_dataset B n e)))
  = or_empty (empty_pd (settings e)) (dict_get d "pricing" (PyDict [])).
Proof.
  intros Hd. destruct (load_from_dataset_frames B n d e Hd) as [-> _].
  reflexivity.
Qed.

(** A node whose data has no daily dataset raises nothing, when the shared
    placeholder is a frame without columns. *)
Lemma load_from_dataset_no_daily (B : Builtins) (n : Node)
    (d : gmap string PyVal) (e : Engine) (rows : list (list PyVal)) :
  node_data n = Some d ->
  d !! "daily" = None ->
  empty_pd (settings e) = PyFrame [] rows ->
  fst (load_from_dataset B n e) = Ok tt.
Proof.
  intros Hd Hdaily Hep. unfold load_from_dataset. rewrite Hd.
  do 5 (unfold st_bind at 1; unfold st_modify at 1).
  match goal with |- fst (st_try _ _ ?s) = _ => set (s1 := s) end.
  assert (Hdf : df_daily (market s1) = PyFrame [] rows).
  { subst s1. cbn [market set_flags set_latest set_market df_daily check_frames
                   settings].
    unfold assign_frames at 1. cbn [df_daily]. unfold dict_get.
    rewrite Hdaily. cbn [default]. rewrite Hep. reflexivity. }
  unfold st_try, load_latest_prices. unfold st_bind at 1. unfold st_get at 1.
  rewrite Hdf. reflexivity.
Qed.

(** C2, at the engine just constructed.  For a node whose data is the
    empty map nothing is raised and the twelve tabular members are the
    shared placeholder, but so is [df_pricing], which is not the empty map;
    and a pricing map that the data does hold is replaced by the placeholder
    as well. *)
Theorem load_from_dataset_replaces_pricing :
  let bare : Node :=
    {| node_id := Some "SPY_2018-11-05"; node_date := Some "2018-11-05";
       node_data := Some ∅ |} in
  let priced : Node :=
    {| node_id := Some "SPY_2018-11-05"; node_date := Some "2018-11-05";
       node_data := Some {[ "pricing" := PyDict [("close", PyInt 270)] ]} |} in
  let ep := empty_pd (settings Demo.engine) in
  (exists e',
     load_from_dataset Demo.builtins bare Demo.engine = (Ok tt, e')
     /\ [df_daily (market e'); df_minute (market e'); df_stats (market e');
         df_peers (market e'); df_financials (market e');
         df_earnings (market e'); df_dividends (market e');
         df_quote (market e'); df_company (market e');
         df_iex_news (market e'); df_yahoo_news (market e');
         df_options (market e')] = replicate 12 ep
     /\ df_pricing (market e') = ep
     /\ df_pricing (market e') <> PyDict [])
  /\ (exists e',
        load_from_dataset Demo.builtins priced Demo.engine = (Ok tt, e')
        /\ df_pricing (market e') = ep
        /\ df_pricing (market e') <> PyDict [("close", PyInt 270)]).
Proof.
  split.
  - eexists. split; [vm_compute; reflexivity|].
    split; [reflexivity|]. split; [reflexivity | discriminate].
  - eexists. split; [vm_compute; reflexivity|].
    split; [reflexivity | discriminate].
Qed.

(** *** Orders *)

Section OrderFacts.

Variable B : Builtins.
Variable build_buy_order : OrderArgs -> Outcome Order.
Variable build_sell_order : OrderArgs -> Outcome Order.

Ltac run_order Hclose Hdate Hbuild Hpos :=
  repeat (cbv beta iota zeta delta
            [create_buy_order create_sell_order st_bind st_try st_lift st_get
             st_modify st_ret refresh_counters];
          first [rewrite Hclose | rewrite Hdate | rewrite Hbuild | rewrite Hpos]).

Lemma create_buy_order_filled_run (t : string) (row : PyVal)
    (shares : option Z) (reason : option string) (e : Engine)
    (close dataset_date : PyVal) (o : Order) :
  getitem row "close" = Ok close ->
  getitem row "date" = Ok dataset_date ->
  build_buy_order
    (order_args B e t close dataset_date shares (order_details_of B row) reason)
  = Ok o ->
  order_status o = TRADE_FILLED ->
  create_buy_order B build_buy_order t row shares reason e
  = (Ok tt, after_filled_buy t o e).
Proof.
  intros Hclose Hdate Hbuild Hfilled. unfold after_filled_buy.
  destruct (positions (acct e) !! t) as [p|] eqn:Hpos;
    run_order Hclose Hdate Hbuild Hpos;
    (destruct (decide (order_status o = TRADE_FILLED)) as [_|Hne];
       [|contradiction]);
    run_order Hclose Hdate Hbuild Hpos; reflexivity.
Qed.

Lemma create_sell_order_filled_run (t : string) (row : PyVal)
    (shares : option Z) (reason : option string) (e : Engine)
    (close dataset_date : PyVal) (o : Order) :
  getitem row "close" = Ok close ->
  getitem row "date" = Ok dataset_date ->
  build_sell_order
    (order_args B e t close dataset_date shares (order_details_of B row) reason)
  = Ok o ->
  order_status o = TRADE_FILLED ->
  create_sell_order B build_sell_order t row shares reason e
  = (Ok tt, after_filled_sell t o e).
Proof.
  intros Hclose Hdate Hbuild Hfilled. unfold after_filled_sell.
  destruct (positions (acct e) !! t) as [p|] eqn:Hpos;
    run_order Hclose Hdate Hbuild Hpos;
    (destruct (decide (order_status o = TRADE_FILLED)) as [_|Hne];
       [|contradiction]);
    run_order Hclose Hdate Hbuild Hpos; reflexivity.
Qed.

(** What a filled buy does to the engine.  The position is created or
    grown by the order's shares and lists the order, the lifetime list
    gains the order, the balance is the order's, and the three counters
    are read back from the position; [created_buy] is raised when the
    ticker already had a position and left alone when the fill creates
    it. *)
Lemma create_buy_order_filled (t : string) (o : Order) (e : Engine) :
  let e' := after_filled_buy t o e in
  positions (acct e') !! t
  = Some match positions (acct e) !! t with
         | Some p => {| pos_shares := pos_shares p + order_shares o;
                        pos_buys := (pos_buys p ++ [o])%list;
                        pos_sells := pos_sells p |}
         | None => {| pos_shares := order_shares o; pos_buys := [o];
                      pos_sells := [] |}
         end
  /\ buys (acct e') = (buys (acct e) ++ [o])%list
  /\ balance (acct e') = order_balance o
  /\ counters e' = get_ticker_positions e' t
  /\ created_buy (flags e')
     = match positions (acct e) !! t with
       | Some _ => true
       | None => created_buy (flags e)
       end.
Proof.
  unfold after_filled_buy.
  destruct (positions (acct e) !! t) as [p|];
    cbn; unfold get_ticker_positions; cbn; rewrite lookup_insert_eq;
    repeat split; reflexivity.
Qed.

(** The sell method is the same text: a filled sell adds the order's
    shares to the position. *)
Lemma create_sell_order_filled (t : string) (o : Order) (e : Engine) :
  let e' := after_filled_sell t o e in
  positions (acct e') !! t
  = Some match positions (acct e) !! t with
         | Some p => {| pos_shares := pos_shares p + order_shares o;
                        pos_buys := pos_buys p;
                        pos_sells := (pos_sells p ++ [o])%list |}
         | None => {| pos_shares := order_shares o; pos_buys := [];
                      pos_sells := [o] |}
         end
  /\ sells (acct e') = (sells (acct e) ++ [o])%list
  /\ balance (acct e') = order_balance o
  /\ counters e' = get_ticker_positions e' t
  /\ created_sell (flags e')
     = match positions (acct e) !! t with
       | Some _ => true
       | None => created_sell (flags e)
       end.
Proof.
  unfold after_filled_sell.
  destruct (positions (acct e) !! t) as [p|];
    cbn; unfold get_ticker_positions; cbn; rewrite lookup_insert_eq;
    repeat split; reflexivity.
Qed.

(** Selling everything: when the builder answers a sell of all [n] owned
    shares with a filled order that counts the [n] shares sold, the position
    counts [2 * n] shares afterwards, not none; the balance is the order's. *)
Lemma sell_all_adds_the_shares_sold (t : string) (row : PyVal)
    (reason : option string) (e : Engine) (close dataset_date : PyVal)
    (o : Order) (p : Position) :
  getitem row "close" = Ok close ->
  getitem row "date" = Ok dataset_date ->
  positions (acct e) !! t = Some p ->
  0 < pos_shares p ->
  build_sell_order
    (order_args B e t close dataset_date None (order_details_of B row) reason)
  = Ok o ->
  order_status o = TRADE_FILLED ->
  order_shares o = pos_shares p ->
  let r := create_sell_order B build_sell_order t row None reason e in
  fst r = Ok tt
  /\ get_owned_shares (snd r) t = 2 * pos_shares p
  /\ get_owned_shares (snd r) t <> 0
  /\ balance (acct (snd r)) = order_balance o.
Proof.
  intros Hclose Hdate Hpos Hn Hbuild Hfilled Hshares r. subst r.
  rewrite (create_sell_order_filled_run t row None reason e close dataset_date o
             Hclose Hdate Hbuild Hfilled).
  destruct (create_sell_order_filled t o e) as (Hp & _ & Hb & _).
  cbn [fst snd]. unfold get_owned_shares. rewrite Hp, Hpos. cbn [pos_shares].
  rewrite Hshares.
  split; [reflexivity|]. split; [lia|]. split; [lia | exact Hb].
Qed.

End OrderFacts.

(** C5, at the first fill of a ticker.  The engine just constructed has no
    position; a buy at a close of 270 fills three shares.  The position is
    created with the three shares and the order, the lifetime list holds
    the order, the balance is the order's 184 and the counters are read
    back from the position, but [created_buy] is still false. *)
Theorem first_fill_leaves_created_buy_unset :
  let row := PyDict [("close", PyFloat 270); ("date", PyStr "2018-11-02")] in
  positions (acct Demo.engine) !! "SPY" = None
  /\ exists e' o,
      create_buy_order Demo.builtins
        (OrderBuilders.build_buy_order Demo.builtins) "SPY" row None None
        Demo.engine = (Ok tt, e')
      /\ buys (acct e') = [o]
      /\ order_status o = TRADE_FILLED
      /\ order_shares o = 3
      /\ order_balance o = 184%Q
      /\ positions (acct e') !! "SPY"
         = Some {| pos_shares := 3; pos_buys := [o]; pos_sells := [] |}
      /\ balance (acct e') = 184%Q
      /\ counters e'
         = {| num_owned := Some 3; num_buys := Some [o]; num_sells := Some [] |}
      /\ created_buy (flags e') = false.
Proof.
  split; [reflexivity|].
  eexists _, _. split; [vm_compute; reflexivity|].
  split; [vm_compute; reflexivity|].
  repeat split.
Qed.

(** C1, at a position of ten shares.  The sell builder returns the order
    filled with the ten shares sold and the balance raised by
    [10 * 50 - 6]; the engine takes the balance and adds the ten shares to
    the position, which then counts twenty shares instead of none. *)
Theorem sell_all_doubles_the_position :
  let row := PyDict [("close", PyFloat 50); ("date", PyStr "2018-11-02")] in
  get_owned_shares Demo.engine_holding "SPY" = 10
  /\ exists e' o,
      create_sell_order Demo.builtins
        (OrderBuilders.build_sell_order Demo.builtins) "SPY" row None None
        Demo.engine_holding = (Ok tt, e')
      /\ sells (acct e') = [o]
      /\ order_status o = TRADE_FILLED
      /\ order_shares o = 10
      /\ (balance (acct e')
          == balance (acct Demo.engine_holding) + (10 * 50 - 6))%Q
      /\ get_owned_shares e' "SPY" = 20
      /\ num_owned (counters e') = Some 20.
Proof.
  split; [reflexivity|].
  eexists _, _. split; [vm_compute; reflexivity|].
  split; [vm_compute; reflexivity|].
  repeat split.
Qed.

(** *** The run and the replay *)

Section Pointwise.

Context {S : Type}.

Lemma st_bind_ext {A B} (m m' : ST S A) (k k' : A -> ST S B) (s : S) :
  m s = m' s -> (forall a s', k a s' = k' a s') ->
  st_bind m k s = st_bind m' k' s.
Proof.
  intros Hm Hk. unfold st_bind. rewrite Hm.
  destruct (m' s) as [[a|x] s']; [apply Hk | reflexivity].
Qed.

Lemma st_for_ext {A} (l : list A) (f g : A -> ST S unit) (s : S) :
  (forall x s', f x s' = g x s') -> st_for l f s = st_for l g s.
Proof.
  intros H. revert s. induction l as [|x l IH]; intros s; cbn [st_for];
    [reflexivity|].
  apply st_bind_ext; [apply H | intros _ s'; apply IH].
Qed.

Lemma st_for_app {A} (l1 l2 : list A) (f : A -> ST S unit) (s : S) :
  st_for (l1 ++ l2)%list f s = st_bind (st_for l1 f) (fun _ => st_for l2 f) s.
Proof.
  revert s. induction l1 as [|x l1 IH]; intros s; cbn [app st_for].
  - reflexivity.
  - unfold st_bind in *. destruct (f x s) as [[[]|e] s'];
      [apply IH | reflexivity].
Qed.

Lemma st_for_flat_map {A X} (l : list A) (g : A -> list X)
    (f : X -> ST S unit) (s : S) :
  st_for l (fun a => st_for (g a) f) s = st_for (List.flat_map g l) f s.
Proof.
  revert s. induction l as [|a l IH]; intros s; cbn [st_for flat_map];
    [reflexivity|].
  rewrite st_for_app. apply st_bind_ext; [reflexivity | intros _ s'; apply IH].
Qed.

End Pointwise.

Section RunIsReplay.

Variable B : Builtins.
Variable build_trade_history_entry : HistoryArgs -> Outcome PyVal.
Variable get_percent_done : Z -> Z -> string.
Variable strategy : string -> string -> Node -> Eng unit.

Local Abbreviation run_data :=
  (handle_data B build_trade_history_entry get_percent_done strategy).
Local Abbreviation replay_of :=
  (replay B build_trade_history_entry get_percent_done strategy).

(** The body of the inner loop is one node of the replay. *)
Lemma handle_node_is_replay_node (t : string) (total i : Z) (n : Node)
    (e : Engine) :
  handle_node B build_trade_history_entry get_percent_done strategy t total i n e
  = replay_node B build_trade_history_entry get_percent_done strategy
      (t, total, i, n) e.
Proof.
  unfold handle_node, replay_node, build_progress_label, node_id_or_missing.
  destruct (node_date n) as [d|]; reflexivity.
Qed.

Lemma st_for_counted_is_numbered (t : string) (total i : Z)
    (nodes : list Node) (e : Engine) :
  st_for_counted i nodes
    (handle_node B build_trade_history_entry get_percent_done strategy t total) e
  = st_for (numbered t total i nodes)
      (replay_node B build_trade_history_entry get_percent_done strategy) e.
Proof.
  revert i e. induction nodes as [|n nodes IH]; intros i e;
    cbn [st_for_counted numbered st_for]; [reflexivity|].
  apply st_bind_ext; [apply handle_node_is_replay_node | intros _ s'; apply IH].
Qed.

(** The dataset a run is on: the loaded dataset when the engine holds one,
    the argument otherwise. *)
Lemma handle_data_is_replay (d : Dataset) (e : Engine) :
  run_data d e
  = replay_of
      (if truthy_dataset (loaded_dataset (run e))
       then default d (loaded_dataset (run e)) else d) e.
Proof.
  unfold handle_data, replay.
  unfold st_bind at 1. unfold st_modify at 1.
  unfold st_bind at 1. unfold st_get at 1.
  symmetry.
  unfold st_bind at 1. unfold st_modify at 1.
  unfold st_bind at 1. unfold st_get at 1.
  symmetry.
  unfold get_supported_tickers_in_data.
  cbn [loaded_dataset run set_debug_msg set_run settings].
  set (data := if truthy_dataset (loaded_dataset (run e))
               then default d (loaded_dataset (run e)) else d).
  destruct (tickers (settings e)) as [ts|]; [|reflexivity].
  set (supported := List.filter (fun t => has_key (data !! t)) ts).
  unfold st_bind at 1. unfold st_lift at 1.
  apply st_bind_ext; [destruct supported; reflexivity|]. intros [] s1.
  apply st_bind_ext.
  - unfold replay_plan. rewrite <- st_for_flat_map. apply st_for_ext.
    intros t s2. apply st_for_counted_is_numbered.
  - intros [] s2. reflexivity.
Qed.

End RunIsReplay.

(** *** Replaying a loaded dataset *)

Section ReplayFacts.

Variable B : Builtins.
Variable build_trade_history_entry : HistoryArgs -> Outcome PyVal.
Variable get_percent_done : Z -> Z -> string.
Variable strategy : string -> string -> Node -> Eng unit.

Local Abbreviation run_data :=
  (handle_data B build_trade_history_entry get_percent_done strategy).

(** With a loaded dataset, [handle_data] runs on it and not on its
    argument. *)
Lemma handle_data_uses_loaded (e : Engine) (loaded d : Dataset) :
  loaded_dataset (run e) = Some loaded ->
  truthy_dataset (Some loaded) = true ->
  run_data d e = run_data loaded e.
Proof.
  intros Hl Ht. unfold handle_data.
  unfold st_bind at 1. unfold st_modify at 1.
  unfold st_bind at 1. unfold st_get at 1.
  symmetry.
  unfold st_bind at 1. unfold st_modify at 1.
  unfold st_bind at 1. unfold st_get at 1.
  cbn [loaded_dataset run set_debug_msg set_run].
  rewrite Hl, Ht. reflexivity.
Qed.

(** When the run returns, the dataset it remembers is the one it ran on. *)
Lemma handle_data_remembers (e e' : Engine) (loaded d : Dataset) :
  loaded_dataset (run e) = Some loaded ->
  truthy_dataset (Some loaded) = true ->
  run_data d e = (Ok tt, e') ->
  last_handle_data (run e') = Some loaded.
Proof.
  intros Hl Ht H. unfold handle_data in H.
  apply st_bind_ok in H as ([] & s1 & H1 & H).
  unfold st_modify in H1. inversion H1 as [Hs1]. clear H1.
  apply st_bind_ok in H as (e0 & s2 & H2 & H).
  unfold st_get in H2. inversion H2. subst e0 s2. clear H2.
  assert (Hl1 : loaded_dataset (run s1) = Some loaded) by (subst s1; exact Hl).
  rewrite Hl1, Ht in H. cbn [default] in H.
  apply st_bind_ok in H as (ts & s2 & H2 & H).
  apply st_bind_ok in H as ([] & s3 & H3 & H).
  apply st_bind_ok in H as ([] & s4 & H4 & H).
  apply st_bind_ok in H as ([] & s5 & H5 & H).
  unfold st_modify in H5, H. inversion H5 as [Hs5]. inversion H as [He'].
  subst e' s5. reflexivity.
Qed.

(** C10.  When the engine holds a loaded dataset, a call of [handle_data]
    replays that dataset and not its argument.  The outcome and every
    member of the engine afterwards agree for any two arguments; and the
    run is the replay of the loaded dataset as section 4.1 describes it:
    the engine's tickers are filtered by the keys of the loaded dataset,
    each of its nodes is loaded and handed to the strategy in order, one
    trade history entry is recorded per node, and the loaded dataset is the
    one remembered when the run returns. *)
Theorem handle_data_replays_loaded_dataset (e : Engine) (d1 d2 : Dataset) :
  truthy_dataset (loaded_dataset (run e)) = true ->
  run_data d1 e = run_data d2 e
  /\ exists loaded,
      loaded_dataset (run e) = Some loaded
      /\ run_data d1 e
         = replay B build_trade_history_entry get_percent_done strategy loaded e
      /\ forall e', run_data d1 e = (Ok tt, e') ->
                    last_handle_data (run e') = Some loaded.
Proof.
  intros Ht. destruct (loaded_dataset (run e)) as [loaded|] eqn:Hl;
    [|discriminate Ht].
  split.
  - rewrite (handle_data_uses_loaded e loaded d1 Hl Ht).
    rewrite (handle_data_uses_loaded e loaded d2 Hl Ht). reflexivity.
  - exists loaded. split; [reflexivity|]. split.
    + rewrite handle_data_is_replay, Hl, Ht. reflexivity.
    + intros e' H. exact (handle_data_remembers e e' loaded d1 Hl Ht H).
Qed.

End ReplayFacts.

(** At the engine that loaded the two days of SPY: run on the empty map
    and on a map for another ticker, it returns the same, and what it
    replayed is the loaded dataset: two entries, one per loaded node, each
    with the id of its node. *)
Lemma handle_data_replays_loaded_dataset_witness :
  truthy_dataset (loaded_dataset (run Demo.engine_loaded)) = true
  /\ Demo.handle_data ∅ Demo.engine_loaded
     = Demo.handle_data {[ "QQQ" := [] ]} Demo.engine_loaded
  /\ exists e',
      Demo.handle_data ∅ Demo.engine_loaded = (Ok tt, e')
      /\ last_handle_data (run e') = Some Demo.dataset
      /\ List.map (fun h => getitem h "ds_id") (order_history (run e'))
         = [Ok (PyStr "SPY_2018-11-01"); Ok (PyStr "SPY_2018-11-02")].
Proof.
  split; [reflexivity|].
  destruct (handle_data_replays_loaded_dataset Demo.builtins Demo.history_entry
              Demo.percent_done
              (process Demo.builtins (OrderBuilders.build_buy_order Demo.builtins)
                 (OrderBuilders.build_sell_order Demo.builtins))
              Demo.engine_loaded ∅ {[ "QQQ" := [] ]})
    as (Hsame & loaded & Hl & _ & Hlast); [reflexivity|].
  split; [exact Hsame|].
  eexists. split; [vm_compute; reflexivity|].
  split; [|vm_compute; reflexivity].
  vm_compute in Hl. inversion Hl. subst loaded.
  vm_compute. reflexivity.
Defined.

(** *** Orders that do not fill, and orders that cannot be built *)

Section MoreOrderFacts.

Variable B : Builtins.
Variable build_buy_order : OrderArgs -> Outcome Order.
Variable build_sell_order : OrderArgs -> Outcome Order.


(** An order that comes back unfilled is recorded in the lifetime list and
    nowhere else: the balance and the positions are as they were, and the
    counters are read back from the position. *)
Theorem unfilled_orders_are_only_recorded (t : string) (row : PyVal)
    (shares : option Z) (reason : option string) (e : Engine)
    (close dataset_date : PyVal) (o : Order) :
  getitem row "close" = Ok close ->
  getitem row "date" = Ok dataset_date ->
  order_status o <> TRADE_FILLED ->
  (build_buy_order
     (order_args B e t close dataset_date shares (order_details_of B row) reason)
   = Ok o ->
   create_buy_order B build_buy_order t row shares reason e
   = (Ok tt, refreshed t (append_buy o e)))
  /\ (build_sell_order
        (order_args B e t close dataset_date shares (order_details_of B row) reason)
      = Ok o ->
      create_sell_order B build_sell_order t row shares reason e
      = (Ok tt, refreshed t (append_sell o e))).
Proof.
  intros Hclose Hdate Hne. split; intros Hbuild.
  - unfold create_buy_order, st_bind, st_try, st_lift, st_get.
    rewrite Hclose, Hdate, Hbuild.
    destruct (decide (order_status o = TRADE_FILLED)); [contradiction|].
    reflexivity.
  - unfold create_sell_order, st_bind, st_try, st_lift, st_get.
    rewrite Hclose, Hdate, Hbuild.
    destruct (decide (order_status o = TRADE_FILLED)); [contradiction|].
    reflexivity.
Qed.

(** The failure message the order methods leave in [debug_msg]. *)
Local Abbreviation failure_msg what t close x e :=
  (name (settings e) +:+ " - " +:+ what +:+ " " +:+ t +:+ "@"
   +:+ format_val B close +:+ " - FAILED with ex=" +:+ format_exn B x).

(** A builder that raises changes no order list, balance or position.  The
    failure is written to [debug_msg]; an engine that raises on errors
    re-raises it before the counters are read back, any other engine
    swallows it and reads them back. *)
Theorem failed_builder_leaves_the_account (t : string) (row : PyVal)
    (shares : option Z) (reason : option string) (e : Engine)
    (close dataset_date : PyVal) (x : Exn) :
  getitem row "close" = Ok close ->
  getitem row "date" = Ok dataset_date ->
  (build_buy_order
     (order_args B e t close dataset_date shares (order_details_of B row) reason)
   = Raise x ->
   create_buy_order B build_buy_order t row shares reason e
   = if raise_on_err (settings e)
     then (Raise x, set_debug_msg (failure_msg "buy" t close x e) e)
     else (Ok tt, refreshed t (set_debug_msg (failure_msg "buy" t close x e) e)))
  /\ (build_sell_order
        (order_args B e t close dataset_date shares (order_details_of B row) reason)
      = Raise x ->
      create_sell_order B build_sell_order t row shares reason e
      = if raise_on_err (settings e)
        then (Raise x, set_debug_msg (failure_msg "sell" t close x e) e)
        else (Ok tt,
              refreshed t (set_debug_msg (failure_msg "sell" t close x e) e))).
Proof.
  intros Hclose Hdate. split; intros Hbuild.
  - unfold create_buy_order, order_failed, st_bind, st_try, st_lift, st_get,
      st_modify.
    rewrite Hclose, Hdate, Hbuild. cbn [settings set_debug_msg set_run].
    destruct (raise_on_err (settings e)); reflexivity.
  - unfold create_sell_order, order_failed, st_bind, st_try, st_lift, st_get,
      st_modify.
    rewrite Hclose, Hdate, Hbuild. cbn [settings set_debug_msg set_run].
    destruct (raise_on_err (settings e)); reflexivity.
Qed.

#[local] Instance other_positions_kept_preorder (t : string) :
  PreOrder (other_positions_kept t).
Proof.
  split.
  - intros e t' _. reflexivity.
  - intros e1 e2 e3 H1 H2 t' Hne. rewrite (H2 t' Hne). apply H1, Hne.
Qed.

Lemma other_positions_kept_acct (t : string) (f : Engine -> Engine) :
  (forall e, positions (acct (f e)) = positions (acct e)) ->
  respects (other_positions_kept t) (st_modify f).
Proof.
  intros H. apply respects_modify. intros e t' _. rewrite H. reflexivity.
Qed.

Lemma other_positions_kept_set (t : string) (p : Position) :
  respects (other_positions_kept t) (st_modify (set_position t p)).
Proof.
  apply respects_modify. intros e t' Hne. cbn.
  apply lookup_insert_ne. congruence.
Qed.

(** An order on one ticker leaves the positions of every other ticker as
    they were, whatever the builder answers and however the method ends. *)
Theorem orders_touch_one_position (t : string) (row : PyVal)
    (shares : option Z) (reason : option string) :
  respects (other_positions_kept t)
    (create_buy_order B build_buy_order t row shares reason)
  /\ respects (other_positions_kept t)
       (create_sell_order B build_sell_order t row shares reason).
Proof.
  split.
  - unfold create_buy_order, order_failed, refresh_counters.
    respects_tac;
      first [apply other_positions_kept_set
            | apply other_positions_kept_acct; intros; reflexivity].
  - unfold create_sell_order, order_failed, refresh_counters.
    respects_tac;
      first [apply other_positions_kept_set
            | apply other_positions_kept_acct; intros; reflexivity].
Qed.

End MoreOrderFacts.

(** *** More on loading one dataset node *)

(** A node without data raises, whether the engine raises on errors or
    not: the string that stands in for the data has no [get].  By then the
    previous id, date and data are backed up and the new id and date are in
    place; the thirteen dataset members and everything else are as they
    were. *)
Lemma load_from_dataset_without_data (B : Builtins) (n : Node) (e : Engine) :
  node_data n = None ->
  load_from_dataset B n e
  = (Raise (AttributeError "get"),
     set_market (backup_and_load n (market e)) e)
  /\ ds_data (backup_and_load n (market e)) = DsMissing
  /\ last_ds_id (backup_and_load n (market e)) = ds_id (market e)
  /\ df_daily (backup_and_load n (market e)) = df_daily (market e).
Proof.
  intros Hd. unfold load_from_dataset, backup_and_load. rewrite Hd.
  repeat split.
Qed.

(** After a node with data is loaded, every one of the thirteen dataset
    members has the [empty] attribute, [df_pricing] included, whether the
    price extraction raised or not: strategy code can test [.empty] on any
    of them. *)
Lemma loaded_frames_all_have_empty (B : Builtins) (n : Node)
    (d : gmap string PyVal) (e : Engine) :
  node_data n = Some d ->
  has_empty (empty_pd (settings e)) = true ->
  let m := market (snd (load_from_dataset B n e)) in
  Forall (fun v => has_empty v = true)
    [df_daily m; df_minute m; df_stats m; df_peers m; df_financials m;
     df_earnings m; df_dividends m; df_quote m; df_company m; df_iex_news m;
     df_yahoo_news m; df_options m; df_pricing m].
Proof.
  intros Hd Hep m. subst m.
  destruct (load_from_dataset_frames B n d e Hd) as [-> _].
  assert (H : forall v, has_empty (or_empty (empty_pd (settings e)) v) = true).
  { intros v. unfold or_empty. destruct (has_empty v) eqn:Hv; [exact Hv | exact Hep]. }
  cbn [check_frames df_daily df_minute df_stats df_peers df_financials
       df_earnings df_dividends df_quote df_company df_iex_news df_yahoo_news
       df_options df_pricing].
  repeat constructor; apply H.
Qed.

(** An engine that does not raise on errors returns from any node that has
    data, however malformed its daily frame is: the failure is written to
    [debug_msg] and swallowed. *)
Theorem price_failures_are_contained (B : Builtins) (n : Node)
    (d : gmap string PyVal) (e : Engine) :
  node_data n = Some d ->
  raise_on_err (settings e) = false ->
  fst (load_from_dataset B n e) = Ok tt.
Proof.
  intros Hd Hr. unfold load_from_dataset. rewrite Hd.
  do 5 (unfold st_bind at 1; unfold st_modify at 1).
  match goal with |- fst (st_try _ _ ?s) = _ => set (s1 := s) end.
  assert (Hs1 : settings s1 = settings e) by reflexivity.
  unfold st_try.
  destruct (load_latest_prices B s1) as [[[]|x] s2] eqn:E; [reflexivity|].
  destruct (load_latest_prices_same_frames B s1) as [_ Hs2].
  rewrite E in Hs2. cbn [snd] in Hs2.
  unfold st_bind at 1. unfold st_get at 1.
  unfold st_bind at 1. unfold st_modify at 1.
  rewrite Hs2, Hs1, Hr. reflexivity.
Qed.

#[local] Instance starting_close_kept_preorder : PreOrder starting_close_kept.
Proof.
  split.
  - intros e _. reflexivity.
  - intros e1 e2 e3 H1 H2 Hz. rewrite H2; [apply H1, Hz|].
    rewrite (H1 Hz). exact Hz.
Qed.

Lemma starting_close_kept_latest (f : Engine -> Engine) :
  (forall e, starting_close (latest (f e)) = starting_close (latest e)) ->
  respects starting_close_kept (st_modify f).
Proof. intros H. apply respects_modify. intros e _. apply H. Qed.

Lemma load_column_starting_close {A} (cols : list string) (col : string) (conv : PyVal -> Outcome A) (store : A -> Latest -> Latest) :
  (forall x l, Qis_zero (starting_close l) = false ->
               starting_close (store x l) = starting_close l) ->
  respects starting_close_kept (load_column cols col conv store).
Proof.
  intros H. unfold load_column. respects_tac.
  apply respects_modify. intros e Hz. cbn. apply H, Hz.
Qed.

(** The starting close is captured once: a load never changes a starting
    close that is already set, so the start price of the trade history is
    the first non-zero close the engine saw. *)
Theorem starting_close_is_captured_once (B : Builtins) (n : Node) :
  respects starting_close_kept (load_from_dataset B n).
Proof.
  unfold load_from_dataset, load_latest_prices.
  respects_tac;
    first [ apply starting_close_kept_latest; intros; reflexivity
          | apply load_column_starting_close; intros x l Hz; cbn;
            try rewrite Hz; reflexivity ].
Qed.

(** *** Loops *)

Section RespectsLoops.

Context {S : Type} (R : S -> S -> Prop) `{!PreOrder R}.

Lemma respects_for {A} (l : list A) (body : A -> ST S unit) :
  (forall x, respects R (body x)) -> respects R (st_for l body).
Proof.
  intros H. induction l as [|x l IH]; cbn [st_for].
  - apply respects_ret; exact _.
  - apply respects_bind; [exact _ | apply H | intros _; exact IH].
Qed.

Lemma respects_for_counted {A} (i : Z) (l : list A)
    (body : Z -> A -> ST S unit) :
  (forall i x, respects R (body i x)) -> respects R (st_for_counted i l body).
Proof.
  intros H. revert i. induction l as [|x l IH]; intros i; cbn [st_for_counted].
  - apply respects_ret; exact _.
  - apply respects_bind; [exact _ | apply H | intros _; apply IH].
Qed.

Lemma respects_fold {A X} (l : list A) (acc : X) (body : X -> A -> ST S X) :
  (forall acc x, respects R (body acc x)) -> respects R (st_fold l acc body).
Proof.
  intros H. revert acc. induction l as [|x l IH]; intros acc; cbn [st_fold].
  - apply respects_ret; exact _.
  - apply respects_bind; [exact _ | apply H | intros acc'; apply IH].
Qed.

End RespectsLoops.

(** *** Running a dataset *)

#[local] Instance history_grows_preorder : PreOrder history_grows.
Proof.
  split.
  - intros e. unfold history_grows. reflexivity.
  - intros e1 e2 e3 H1 H2. unfold history_grows in *. etransitivity; eassumption.
Qed.

Lemma history_grows_modify (f : Engine -> Engine) :
  (forall e, order_history (run (f e)) = order_history (run e)) ->
  respects history_grows (st_modify f).
Proof.
  intros H. apply respects_modify. intros e. unfold history_grows.
  rewrite H. reflexivity.
Qed.

Lemma history_grows_append (h : PyVal) :
  respects history_grows (st_modify (append_history h)).
Proof.
  apply respects_modify. intros e. unfold history_grows. cbn.
  apply prefix_app_r. reflexivity.
Qed.

Ltac history_tac :=
  respects_tac;
  first [ apply history_grows_append
        | apply history_grows_modify; intros; reflexivity ].

Lemma history_grows_load_column {A} (cols : list string) (col : string)
    (conv : PyVal -> Outcome A) (store : A -> Latest -> Latest) :
  respects history_grows (load_column cols col conv store).
Proof. unfold load_column. history_tac. Qed.

Lemma history_grows_load (B : Builtins) (n : Node) :
  respects history_grows (load_from_dataset B n).
Proof.
  unfold load_from_dataset, load_latest_prices.
  respects_tac;
    first [ apply history_grows_load_column
          | apply history_grows_modify; intros; reflexivity ].
Qed.

Section RunFacts.

Variable B : Builtins.
Variable build_buy_order : OrderArgs -> Outcome Order.
Variable build_sell_order : OrderArgs -> Outcome Order.
Variable build_trade_history_entry : HistoryArgs -> Outcome PyVal.
Variable get_percent_done : Z -> Z -> string.

Lemma history_grows_orders (t : string) (row : PyVal) (shares : option Z)
    (reason : option string) :
  respects history_grows (create_buy_order B build_buy_order t row shares reason)
  /\ respects history_grows
       (create_sell_order B build_sell_order t row shares reason).
Proof.
  split.
  - unfold create_buy_order, order_failed, refresh_counters. history_tac.
  - unfold create_sell_order, order_failed, refresh_counters. history_tac.
Qed.

Lemma history_grows_process (algo_id t : string) (n : Node) :
  respects history_grows
    (process B build_buy_order build_sell_order algo_id t n).
Proof.
  unfold process.
  respects_tac;
    first [ apply history_grows_orders
          | apply history_grows_modify; intros; reflexivity ].
Qed.

(** Under the default strategy a run only ever adds entries to the trade
    history: whatever the dataset holds and however the run ends, the
    history it started from is a prefix of the history it leaves. *)
Theorem history_only_grows (data : Dataset) :
  respects history_grows
    (handle_data B build_trade_history_entry get_percent_done
       (process B build_buy_order build_sell_order) data).
Proof.
  unfold handle_data.
  respects_tac;
    try (apply history_grows_modify; intros; reflexivity).
  apply respects_for; [exact _|]. intros t.
  apply respects_for_counted; [exact _|]. intros i n.
  unfold handle_node, get_trade_history_node.
  respects_tac;
    first [ apply history_grows_append
          | apply history_grows_load
          | apply history_grows_process
          | apply history_grows_modify; intros; reflexivity ].
Qed.

End RunFacts.

Section MoreRunFacts.

Variable B : Builtins.
Variable build_buy_order : OrderArgs -> Outcome Order.
Variable build_sell_order : OrderArgs -> Outcome Order.
Variable build_trade_history_entry : HistoryArgs -> Outcome PyVal.
Variable get_percent_done : Z -> Z -> string.
Variable strategy : string -> string -> Node -> Eng unit.

Local Abbreviation run_on :=
  (handle_data B build_trade_history_entry get_percent_done strategy).

(** A dataset that holds none of the engine's tickers is a run without
    work: nothing is loaded, the strategy is not called, and only
    [debug_msg] and the remembered dataset change. *)
Theorem run_without_supported_tickers (data : Dataset) (e : Engine) :
  truthy_dataset (loaded_dataset (run e)) = false ->
  get_supported_tickers_in_data e data = Ok [] ->
  run_on data e
  = (Ok tt,
     set_debug_msg
       (name (settings e) +:+ " handle - end tickers=" +:+ format_val B (PyInt 0))
       (set_last_handle_data data
          (set_debug_msg (name (settings e) +:+ " handle - start") e))).
Proof.
  intros Hl Hs. unfold handle_data.
  unfold st_bind at 1. unfold st_modify at 1.
  unfold st_bind at 1. unfold st_get at 1.
  cbn [loaded_dataset run set_debug_msg set_run].
  rewrite Hl.
  change (get_supported_tickers_in_data (set_debug_msg _ e) data)
    with (get_supported_tickers_in_data e data).
  unfold st_bind at 1. unfold st_lift at 1. rewrite Hs.
  reflexivity.
Qed.

(** A node without data aborts the run, whether the engine raises on
    errors or not: when the first node of the first supported ticker has a
    date and no data, [handle_data] raises the [AttributeError] of the
    load, the strategy is not called and the history gains nothing. *)
Theorem node_without_data_aborts_the_run (data : Dataset) (e : Engine)
    (t : string) (ts : list string) (n : Node) (ns : list Node) (date : string) :
  truthy_dataset (loaded_dataset (run e)) = false ->
  get_supported_tickers_in_data e data = Ok (t :: ts) ->
  data !! t = Some (n :: ns) ->
  node_date n = Some date ->
  node_data n = None ->
  exists e',
    run_on data e = (Raise (AttributeError "get"), e')
    /\ order_history (run e') = order_history (run e).
Proof.
  intros Hl Hs Ht Hdate Hdata. eexists. split.
  - unfold handle_data.
    unfold st_bind at 1. unfold st_modify at 1.
    unfold st_bind at 1. unfold st_get at 1.
    cbn [loaded_dataset run set_debug_msg set_run].
    rewrite Hl.
    change (get_supported_tickers_in_data (set_debug_msg _ e) data)
      with (get_supported_tickers_in_data e data).
    unfold st_bind at 1. unfold st_lift at 1. rewrite Hs.
    unfold st_bind at 1.
    change (0 <? Z.of_nat (List.length (t :: ts))) with true. cbv iota.
    unfold st_modify at 1.
    unfold st_bind at 1. cbn [st_for]. rewrite Ht. cbn [default from_option id st_for_counted].
    unfold st_bind at 1. unfold st_bind at 1.
    unfold handle_node at 1.
    unfold st_bind at 1. rewrite Hdate. unfold st_lift at 1.
    unfold st_bind at 1. unfold st_modify at 1.
    unfold st_bind at 1. unfold st_modify at 1.
    unfold st_bind at 1. unfold st_modify at 1.
    unfold st_bind at 1.
    unfold load_from_dataset at 1. rewrite Hdata.
    unfold st_bind at 1. unfold st_modify at 1. unfold st_raise.
    reflexivity.
  - reflexivity.
Qed.

#[local] Instance buys_kept_preorder : PreOrder buys_kept.
Proof.
  split.
  - intros e. split; [reflexivity | auto].
  - intros e1 e2 e3 [H1 H1'] [H2 H2']. split; [congruence | auto].
Qed.

Lemma buys_kept_modify (f : Engine -> Engine) :
  (forall e, buys (acct (f e)) = buys (acct e)) ->
  (forall e, should_buy (flags (f e)) = should_buy (flags e)) ->
  respects buys_kept (st_modify f).
Proof.
  intros H1 H2. apply respects_modify. intros e. split; [apply H1|].
  rewrite H2. auto.
Qed.

Lemma buys_kept_sell (t : string) (row : PyVal) (shares : option Z)
    (reason : option string) :
  respects buys_kept (create_sell_order B build_sell_order t row shares reason).
Proof.
  unfold create_sell_order, order_failed, refresh_counters.
  respects_tac; apply buys_kept_modify; intros; reflexivity.
Qed.

(** What the default strategy comes to: [should_sell] and [should_buy] are
    switched off before they are read, so of the three orders only the
    closing sell can be placed. *)
Lemma process_runs (algo_id t : string) (n : Node) (e : Engine) :
  process B build_buy_order build_sell_order algo_id t n e
  = match ticker (run e) with
    | None => (Raise (AttributeError "ticker"), e)
    | Some _ =>
        match index_len (df_daily (market e)) with
        | Raise x => (Raise x, set_should false false e)
        | Ok _ =>
            if truthy_int (num_owned (counters e))
               && negb (created_sell (flags e))
            then create_sell_order B build_sell_order t (example_row algo_id)
                   None (Some "testing") (set_should false false e)
            else (Ok tt, set_should false false e)
        end
    end.
Proof.
  unfold process.
  unfold st_bind at 1. unfold st_get at 1.
  unfold st_bind at 1. unfold st_lift at 1.
  destruct (ticker (run e)) as [tk|]; [|reflexivity].
  unfold st_bind at 1. unfold st_modify at 1.
  unfold st_bind at 1. unfold st_lift at 1.
  destruct (index_len (df_daily (market e))) as [len|x]; [|reflexivity].
  unfold st_bind at 1. unfold st_get at 1.
  cbn [counters flags set_should set_flags should_sell should_buy created_sell].
  rewrite andb_false_r.
  unfold st_bind at 1. unfold st_ret at 1.
  unfold st_bind at 1. unfold st_get at 1.
  cbn [counters flags set_should set_flags should_sell should_buy created_sell].
  unfold st_bind at 1. unfold st_ret at 1.
  unfold st_bind at 1. unfold st_get at 1.
  cbn [counters flags set_should set_flags should_sell should_buy created_sell].
  destruct (truthy_int (num_owned (counters e)) && negb (created_sell (flags e)));
    reflexivity.
Qed.

(** The default strategy never buys: no buy order is recorded, whatever
    the buy builder would answer, and with nothing owned it places no order
    at all. *)
Theorem default_process_never_buys (algo_id t : string) (n : Node)
    (e : Engine) :
  let r := process B build_buy_order build_sell_order algo_id t n e in
  buys (acct (snd r)) = buys (acct e)
  /\ (truthy_int (num_owned (counters e)) = false -> acct (snd r) = acct e).
Proof.
  cbv zeta. rewrite process_runs.
  destruct (ticker (run e)) as [tk|]; [|split; reflexivity].
  destruct (index_len (df_daily (market e))) as [len|x]; [|split; reflexivity].
  split.
  - destruct (truthy_int (num_owned (counters e)) && negb (created_sell (flags e)));
      [|reflexivity].
    destruct (buys_kept_sell t (example_row algo_id) None (Some "testing")
                (set_should false false e)) as [Hb _].
    rewrite Hb. reflexivity.
  - intros ->. reflexivity.
Qed.

(** [reset_for_next_run] drops the loaded dataset: the run that follows is
    the replay of its own argument, whatever the engine had loaded. *)
Theorem reset_lets_the_argument_run (data : Dataset) (e : Engine) :
  run_on data (reset_for_next_run e)
  = replay B build_trade_history_entry get_percent_done strategy data
      (reset_for_next_run e).
Proof. rewrite handle_data_is_replay. reflexivity. Qed.

End MoreRunFacts.

(** *** Loading from an external source *)

Section SourceFacts.

Variable file_exists : string -> bool.
Variable load_algo_dataset_from_file : string -> bool -> Outcome (option Dataset).

(** The selectors once the arguments are taken in. *)
Local Abbreviation chosen arg member := (if truthy_str arg then arg else member).

(** An archive key or a cache key selects a loader that does not exist
    yet: the call returns without loading anything, and a file named
    beside the key is not looked at, so the outcome is the same for every
    file system. *)
Theorem remote_selectors_load_nothing (path s3 redis : option string)
    (e : Engine) :
  truthy_str (chosen s3 (load_from_s3 (settings e)))
  || truthy_str (chosen redis (load_from_redis (settings e))) = true ->
  exists e',
    load_from_external_source file_exists load_algo_dataset_from_file
      path s3 redis e = (Ok tt, e')
    /\ loaded_dataset (run e') = loaded_dataset (run e)
    /\ forall exists' loader',
        load_from_external_source exists' loader' path s3 redis e = (Ok tt, e').
Proof.
  intros H. unfold load_from_external_source.
  unfold st_bind, st_modify, st_get.
  cbn [settings set_settings set_load_selectors load_from_s3 load_from_redis].
  destruct (truthy_str (chosen s3 (load_from_s3 (settings e)))).
  - eexists. split; [reflexivity|]. split; [reflexivity|]. intros. reflexivity.
  - cbn [orb] in H. rewrite H.
    eexists. split; [reflexivity|]. split; [reflexivity|]. intros. reflexivity.
Qed.

(** A file that is named and not found makes the load raise, whether the
    engine raises on errors or not. *)
Lemma missing_file_raises (path s3 redis : option string) (e : Engine)
    (f : string) :
  truthy_str (chosen s3 (load_from_s3 (settings e))) = false ->
  truthy_str (chosen redis (load_from_redis (settings e))) = false ->
  chosen path (load_from_file (settings e)) = Some f ->
  truthy_str (Some f) = true ->
  file_exists f = false ->
  fst (load_from_external_source file_exists load_algo_dataset_from_file
         path s3 redis e)
  = Raise (Exception ("external load - did not find file=" +:+ f)).
Proof.
  intros Hs3 Hredis Hfile Hf Hex. unfold load_from_external_source.
  unfold st_bind, st_modify, st_get.
  cbn [settings set_settings set_load_selectors load_from_s3 load_from_redis
       load_from_file].
  rewrite Hs3, Hredis, Hfile, Hf. cbn [fmt_opt]. rewrite Hex. reflexivity.
Qed.

End SourceFacts.

(** Construction fails on a missing file: an engine told to load from a
    file that does not exist is not built, whatever [raise_on_err] says. *)
Theorem init_with_missing_file_raises (C : Consts)
    (utc_now_str : string -> string) (build_publish_request : PubOverrides)
    (file_exists : string -> bool)
    (load_algo_dataset_from_file : string -> bool -> Outcome (option Dataset))
    (a : InitArgs) (f : string) :
  truthy_str (a_load_from_s3 a) = false ->
  truthy_str (a_load_from_redis a) = false ->
  a_load_from_file a = Some f ->
  truthy_str (Some f) = true ->
  file_exists f = false ->
  init C utc_now_str build_publish_request file_exists
    load_algo_dataset_from_file a
  = Raise (Exception ("external load - did not find file=" +:+ f)).
Proof.
  intros Hs3 Hredis Hfile Hf Hex. unfold init.
  pose proof (missing_file_raises file_exists load_algo_dataset_from_file
                None None None
                (init_members C utc_now_str build_publish_request a) f) as H.
  cbn [truthy_str settings init_members load_from_s3 load_from_redis
       load_from_file] in H.
  specialize (H Hs3 Hredis Hfile Hf Hex).
  destruct (load_from_external_source _ _ _ _ _ _) as [[u|x] e'];
    cbn [fst] in H; [discriminate H | congruence].
Qed.

(** *** More on publishing *)

Lemma append_nonempty (a b : string) :
  String.eqb b "" = false -> String.eqb (a +:+ b) "" = false.
Proof. intros H. destruct a; [exact H | reflexivity]. Qed.

#[local] Instance books_kept_preorder : PreOrder books_kept.
Proof.
  split.
  - intros e. repeat split.
  - intros e1 e2 e3 (H1 & H2 & H3 & H4) (H5 & H6 & H7 & H8).
    repeat split; congruence.
Qed.

#[local] Instance books_kept_no_call_preorder : PreOrder books_kept_no_call.
Proof.
  split.
  - intros s. split; reflexivity.
  - intros s1 s2 s3 [H1 H2] [H3 H4]. split; [|congruence].
    etransitivity; eassumption.
Qed.

Lemma books_kept_modify (f : Engine -> Engine) :
  (forall e, books_kept e (f e)) -> respects books_kept (st_modify f).
Proof. intros H. apply respects_modify. exact H. Qed.

Ltac books_tac :=
  respects_tac;
  try (apply books_kept_modify; intros; repeat split).

Lemma books_kept_load_column {A} (cols : list string) (col : string)
    (conv : PyVal -> Outcome A) (store : A -> Latest -> Latest) :
  respects books_kept (load_column cols col conv store).
Proof. unfold load_column. books_tac. Qed.

Lemma books_kept_load (B : Builtins) (n : Node) :
  respects books_kept (load_from_dataset B n).
Proof.
  unfold load_from_dataset, load_latest_prices.
  respects_tac;
    first [ apply books_kept_load_column
          | apply books_kept_modify; intros; repeat split ].
Qed.

Lemma on_engine_no_call {A} (m : Eng A) :
  respects books_kept m -> respects books_kept_no_call (on_engine m).
Proof.
  intros H [e tr]. unfold on_engine. cbn [fst snd].
  specialize (H e). destruct (m e) as [o e']. split; [exact H | reflexivity].
Qed.

Section PublishFacts.

Variable B : Builtins.
Variable publish : PublishCall -> Status.
Variable get_percent_done : Z -> Z -> string.
Variable format_node : Node -> string.
Variable dump_record : gmap string (list NewNode) -> string.

Local Abbreviation run_input :=
  (publish_input_datasets B publish get_percent_done format_node dump_record).

(** Asked to publish to no file ([output_file=None]), an engine that does
    not raise on errors publishes nothing on any of its three surfaces: an
    enabled surface answers [INVALID], a disabled one [NOT_RUN], and
    neither the engine nor the list of calls changes. *)
Theorem surface_without_file_is_invalid (kw : PubOverrides) (e : Engine)
    (tr : list PublishCall) :
  raise_on_err (settings e) = false ->
  kw_output_file kw = Some None ->
  publish_report_datasets B publish kw e tr
  = (Ok (if publish_report (settings e) then INVALID else NOT_RUN, None), tr)
  /\ publish_trade_history B publish kw e tr
     = (Ok (if publish_history (settings e) then INVALID else NOT_RUN, None), tr)
  /\ run_input kw (e, tr)
     = (Ok (if publish_input (settings e) then INVALID else NOT_RUN, None),
        (e, tr)).
Proof.
  intros Hr Hf.
  unfold publish_report_datasets, publish_trade_history, publish_surface,
    publish_input_datasets, resolved_output_file.
  unfold st_bind at 1. unfold on_engine at 1. unfold st_get at 1.
  cbn [fst snd resolve_kwargs output_file].
  rewrite Hr, Hf. cbn [andb default from_option id truthy_str negb].
  destruct (publish_report (settings e)), (publish_history (settings e)),
    (publish_input (settings e)); repeat split.
Qed.


(** Before the first run there is no dataset to convert: with a ticker to
    look for, an enabled input surface that has a file raises a
    [TypeError], and neither the engine nor the list of calls changes. *)
Theorem publish_input_before_any_run_raises (kw : PubOverrides) (e : Engine)
    (tr : list PublishCall) (t : string) (ts : list string) :
  last_handle_data (run e) = None ->
  tickers (settings e) = Some (t :: ts) ->
  publish_input (settings e) = true ->
  truthy_str (resolved_output_file "input"
                (resolve_kwargs kw e (input_cfg e)) e) = true ->
  run_input kw (e, tr) = (Raise TypeError, (e, tr)).
Proof.
  intros Hl Ht Hon Hf. unfold publish_input_datasets.
  unfold st_bind at 1. unfold on_engine at 1. unfold st_get at 1.
  cbn [fst snd]. rewrite Hon, Hf. cbn [negb].
  unfold supported_in_last_handle_data. rewrite Hl, Ht. reflexivity.
Qed.

Lemma books_kept_convert_value (n : Node) (acc : gmap string string)
    (kv : string * PyVal) :
  respects books_kept (convert_value B format_node n acc kv).
Proof. unfold convert_value. books_tac. Qed.

Lemma books_kept_convert_node (t : string) (total i : Z) (n : Node) :
  respects books_kept (convert_node B get_percent_done format_node t total i n).
Proof.
  unfold convert_node.
  respects_tac;
    first [ apply books_kept_load
          | apply respects_fold; [exact _ | intros; apply books_kept_convert_value]
          | apply books_kept_modify; intros; repeat split ].
Qed.

Lemma books_kept_convert_ticker (data : Dataset)
    (acc : gmap string (list NewNode)) (t : string) :
  respects books_kept
    (convert_ticker B get_percent_done format_node data acc t).
Proof.
  unfold convert_ticker. apply respects_bind; [exact _ | |].
  - apply respects_fold; [exact _|]. intros acc' n.
    apply respects_bind; [exact _ | apply books_kept_convert_node |].
    intros. apply respects_ret. exact _.
  - intros. apply respects_ret. exact _.
Qed.

(** Publishing the input datasets never trades.  It loads every node of
    the last run again, so the dataset members, the latest prices and the
    flags move, but the balance, the orders, the positions, the trade
    history, the remembered dataset and the settings are as they were,
    however the call ends; and it makes at most one call to the publish
    utility, whose status is then the answer. *)
Theorem publish_input_never_trades (kw : PubOverrides)
    (s : Engine * list PublishCall) :
  let r := run_input kw s in
  books_kept (fst s) (fst (snd r))
  /\ (snd (snd r) = snd s
      \/ exists c f, snd (snd r) = (snd s ++ [c])%list
                     /\ fst r = Ok (publish c, f)).
Proof.
  cbv zeta. destruct (run_input kw s) as [o [e' tr']] eqn:E.
  destruct s as [e tr]. cbn [fst snd].
  unfold publish_input_datasets in E.
  unfold st_bind at 1 in E. unfold on_engine at 1 in E. unfold st_get at 1 in E.
  cbn [fst snd] in E.
  destruct (publish_input (settings e)); cbn [negb] in E;
    [|inversion E; subst; split; [reflexivity | left; reflexivity]].
  destruct (truthy_str (resolved_output_file "input"
              (resolve_kwargs kw e (input_cfg e)) e)); cbn [negb] in E;
    [|inversion E; subst; split; [reflexivity | left; reflexivity]].
  unfold st_bind at 1 in E. unfold st_lift at 1 in E.
  destruct (supported_in_last_handle_data e) as [tickers|x];
    [|inversion E; subst; split; [reflexivity | left; reflexivity]].
  unfold st_bind at 1 in E.
  match type of E with
  | context [let (_, _) := ?m (e, tr) in _] =>
      assert (H1 : respects books_kept_no_call m);
      [|specialize (H1 (e, tr)); destruct (m (e, tr)) as [o1 [e1 tr1]]]
  end.
  { destruct (0 <? Z.of_nat (List.length tickers)).
    - apply on_engine_no_call, books_kept_modify. intros. repeat split.
    - apply respects_ret. exact _. }
  unfold books_kept_no_call in H1. cbn [fst snd] in H1. destruct H1 as [Hb1 ->].
  destruct o1 as [[]|x];
    [|inversion E; subst; split; [exact Hb1 | left; reflexivity]].
  unfold st_bind at 1 in E.
  match type of E with
  | context [let (_, _) := ?m (e1, tr) in _] =>
      assert (H2 : respects books_kept_no_call m);
      [|specialize (H2 (e1, tr)); destruct (m (e1, tr)) as [o2 [e2 tr2]]]
  end.
  { apply on_engine_no_call, respects_fold; [exact _|].
    intros. apply books_kept_convert_ticker. }
  unfold books_kept_no_call in H2. cbn [fst snd] in H2. destruct H2 as [Hb2 ->].
  assert (Hb : books_kept e e2) by (etransitivity; eassumption).
  destruct o2 as [record|x];
    [|inversion E; subst; split; [exact Hb | left; reflexivity]].
  unfold st_bind at 1 in E. unfold st_lift at 1 in E.
  destruct (py_or _ _) as [[]|x]; cbn [fst snd] in E; inversion E; subst.
  - split; [exact Hb|]. right. eexists _, _. split; reflexivity.
  - split; [exact Hb | left; reflexivity].
  - split; [exact Hb | left; reflexivity].
Qed.

End PublishFacts.

Lemma resolved_file_when_given (surface : string) (a : PubCfg) (e : Engine) :
  truthy_str (output_file a) = true ->
  resolved_output_file surface a e = output_file a.
Proof.
  intros H. unfold resolved_output_file. rewrite H. cbn [negb].
  rewrite andb_false_r. reflexivity.
Qed.

#[local] Instance surfaces_kept_preorder : PreOrder surfaces_kept.
Proof.
  split.
  - intros e. repeat split.
  - intros e1 e2 e3 (H1 & H2 & H3) (H4 & H5 & H6). repeat split; congruence.
Qed.

Lemma surfaces_kept_load (file_exists : string -> bool)
    (load_algo_dataset_from_file : string -> bool -> Outcome (option Dataset))
    (path s3 redis : option string) :
  respects surfaces_kept
    (load_from_external_source file_exists load_algo_dataset_from_file
       path s3 redis).
Proof.
  unfold load_from_external_source.
  respects_tac; apply respects_modify; intros; repeat split.
Qed.

(** The cache address of a built engine is the archive switch.  The
    constructor reads the default of [history_redis_address] from
    [ENABLED_S3_UPLOAD]: for an engine built without a history
    configuration, with a default publish request that names neither a
    cache address nor an output file, and with no [config_dict] or one
    that names neither [history_redis_address] nor [history_output_file],
    an enabled [publish_trade_history] makes one call to the publish
    utility, and the cache address of that call is [ENABLED_S3_UPLOAD]. *)
Theorem fresh_engine_publishes_the_archive_switch (C : Consts)
    (utc_now_str : string -> string) (build_publish_request : PubOverrides)
    (file_exists : string -> bool)
    (load_algo_dataset_from_file : string -> bool -> Outcome (option Dataset))
    (B : Builtins) (publish : PublishCall -> Status) (a : InitArgs)
    (e : Engine) (tr : list PublishCall) (use_data : string) :
  init C utc_now_str build_publish_request file_exists
    load_algo_dataset_from_file a = Ok e ->
  a_history_config a = None ->
  kw_redis_address build_publish_request = None ->
  kw_output_file build_publish_request = None ->
  names_history_target (a_config_dict a) = false ->
  publish_history (settings e) = true ->
  json_dumps B placeholder_output_data = Some use_data ->
  exists c f,
    publish_trade_history B publish no_overrides e tr
    = (Ok (publish c, f), (tr ++ [c])%list)
    /\ redis_address (pub_args c) = ENABLED_S3_UPLOAD C.
Proof.
  intros Hinit Hcfg Haddr Hfile Hnames Hon Hd.
  set (e0 := init_members C utc_now_str build_publish_request a).
  assert (Hout0 : output_file (history_cfg e0)
                  = Some (default_history_output_file (settings e0))).
  { subst e0. cbn [history_cfg init_members]. rewrite Hcfg.
    cbn [truthy_overrides]. unfold surface_cfg. cbn [output_file].
    rewrite Hfile. reflexivity. }
  assert (Hredis0 : redis_address (history_cfg e0) = ENABLED_S3_UPLOAD C).
  { subst e0. cbn [history_cfg init_members]. rewrite Hcfg.
    cbn [truthy_overrides]. unfold surface_cfg. cbn [redis_address].
    rewrite Haddr. reflexivity. }
  assert (Hkept : output_file (history_cfg e) = output_file (history_cfg e0)
                  /\ redis_address (history_cfg e)
                     = redis_address (history_cfg e0)).
  { unfold init in Hinit. fold e0 in Hinit.
    pose proof (surfaces_kept_load file_exists load_algo_dataset_from_file
                  None None None e0) as (_ & Hh & _).
    destruct (load_from_external_source _ _ _ _ _ e0) as [[u|x] e1];
      [|discriminate Hinit].
    cbn [snd] in Hh. inversion Hinit as [He]. clear Hinit.
    unfold load_from_config_members, names_history_target in *.
    destruct (a_config_dict a) as [c|]; [|rewrite Hh; split; reflexivity].
    apply orb_false_elim in Hnames as [Hn1 Hn2].
    cbn [history_cfg config_surface output_file redis_address].
    destruct (kw_redis_address (cfg_history c)); [discriminate Hn1|].
    destruct (kw_output_file (cfg_history c)); [discriminate Hn2|].
    cbn [default from_option id]. rewrite Hh. split; reflexivity. }
  destruct Hkept as [Hout Hredis].
  assert (Htruthy : truthy_str
                      (output_file (resolve_kwargs no_overrides e (history_cfg e)))
                    = true).
  { cbn [resolve_kwargs output_file no_overrides kw_output_file default
         from_option id].
    rewrite Hout, Hout0. subst e0.
    destruct (default_output_files_of_init C utc_now_str build_publish_request a)
      as (_ & _ & -> & _).
    cbn [truthy_str]. rewrite append_nonempty by reflexivity. reflexivity. }
  eexists _, _. split.
  - apply publish_trade_history_payload; [exact Hon | | exact Hd].
    rewrite resolved_file_when_given by exact Htruthy. exact Htruthy.
  - cbn [pub_args with_output_file redis_address resolve_kwargs no_overrides
         kw_redis_address default from_option id].
    rewrite Hredis. exact Hredis0.
Qed.

(** *** The properties above, at the demo engine *)

Local Abbreviation demo_strategy :=
  (process Demo.builtins (OrderBuilders.build_buy_order Demo.builtins)
     (OrderBuilders.build_sell_order Demo.builtins)).


Lemma unfilled_orders_are_only_recorded_witness :
  exists o,
    create_sell_order Demo.builtins
      (OrderBuilders.build_sell_order Demo.builtins) "SPY"
      (PyDict [("close", PyFloat 270); ("date", PyStr "2018-11-02")]) None None
      Demo.engine
    = (Ok tt, refreshed "SPY" (append_sell o Demo.engine))
    /\ balance (acct (refreshed "SPY" (append_sell o Demo.engine))) = 1000%Q.
Proof.
  eexists. split; [|reflexivity].
  eapply (unfilled_orders_are_only_recorded Demo.builtins
            (OrderBuilders.build_buy_order Demo.builtins)
            (OrderBuilders.build_sell_order Demo.builtins)
            "SPY" _ None None Demo.engine);
    [reflexivity | reflexivity | | vm_compute; reflexivity].
  vm_compute. discriminate.
Defined.

Lemma failed_builder_leaves_the_account_witness :
  exists e',
    create_buy_order Demo.builtins (OrderBuilders.build_buy_order Demo.builtins)
      "SPY" (PyDict [("close", PyNone); ("date", PyStr "2018-11-02")]) None None
      Demo.engine
    = (Ok tt, e')
    /\ acct e' = acct Demo.engine.
Proof.
  eexists. split.
  - eapply (failed_builder_leaves_the_account Demo.builtins
              (OrderBuilders.build_buy_order Demo.builtins)
              (OrderBuilders.build_sell_order Demo.builtins)
              "SPY" _ None None Demo.engine);
      [reflexivity | reflexivity | vm_compute; reflexivity].
  - reflexivity.
Defined.

Lemma price_failures_are_contained_witness :
  fst (load_from_dataset Demo.builtins Demo.broken_node Demo.engine) = Ok tt
  /\ debug_msg (run (snd (load_from_dataset Demo.builtins Demo.broken_node
                            Demo.engine)))
     <> debug_msg (run Demo.engine).
Proof.
  split.
  - eapply (price_failures_are_contained Demo.builtins Demo.broken_node);
      reflexivity.
  - vm_compute. discriminate.
Defined.

Lemma run_without_supported_tickers_witness :
  fst (Demo.handle_data {[ "QQQ" := [] ]} Demo.engine) = Ok tt.
Proof.
  unfold Demo.handle_data.
  rewrite (run_without_supported_tickers Demo.builtins Demo.history_entry
             Demo.percent_done demo_strategy {[ "QQQ" := [] ]} Demo.engine);
    reflexivity.
Defined.

Lemma node_without_data_aborts_the_run_witness :
  exists e',
    Demo.handle_data {[ "SPY" := [Demo.bare_node; Demo.node "2018-11-04" 270 100] ]}
      Demo.engine
    = (Raise (AttributeError "get"), e')
    /\ order_history (run e') = order_history (run Demo.engine).
Proof.
  eapply (node_without_data_aborts_the_run Demo.builtins Demo.history_entry
            Demo.percent_done demo_strategy _ Demo.engine "SPY" []);
    reflexivity.
Defined.

(** At the engine that loaded the two days of SPY: after the reset, a run
    on one later day replays that day alone. *)
Lemma reset_lets_the_argument_run_witness :
  let later : Dataset := {[ "SPY" := [Demo.node "2018-11-05" 270 100] ]} in
  loaded_dataset (run Demo.engine_loaded) = Some Demo.dataset
  /\ exists e',
      Demo.handle_data later (reset_for_next_run Demo.engine_loaded) = (Ok tt, e')
      /\ last_handle_data (run e') = Some later
      /\ List.map (fun h => getitem h "ds_id") (order_history (run e'))
         = [Ok (PyStr "SPY_2018-11-05")].
Proof.
  cbv zeta. split; [reflexivity|].
  unfold Demo.handle_data.
  rewrite (reset_lets_the_argument_run Demo.builtins Demo.history_entry
             Demo.percent_done demo_strategy).
  eexists. split; [vm_compute; reflexivity|].
  split; vm_compute; reflexivity.
Defined.

Lemma remote_selectors_load_nothing_witness :
  exists e',
    load_from_external_source Demo.one_file Demo.loader (Some Demo.saved_file)
      (Some "algo-key") None Demo.engine = (Ok tt, e')
    /\ loaded_dataset (run e') = None.
Proof.
  edestruct (remote_selectors_load_nothing Demo.one_file Demo.loader
               (Some Demo.saved_file) (Some "algo-key") None Demo.engine)
    as (e' & Hrun & Hl & _); [reflexivity|].
  exists e'. split; [exact Hrun | exact Hl].
Defined.

Lemma init_with_missing_file_raises_witness :
  init Demo.consts Demo.utc_now_str no_overrides Demo.no_files Demo.no_loader
    (Demo.args_with None true (Some Demo.saved_file))
  = Raise (Exception ("external load - did not find file=" +:+ Demo.saved_file)).
Proof.
  apply (init_with_missing_file_raises Demo.consts Demo.utc_now_str no_overrides
           Demo.no_files Demo.no_loader); reflexivity.
Defined.

Lemma surface_without_file_is_invalid_witness :
  publish_trade_history Demo.builtins (fun _ => SUCCESS) Demo.to_no_file
    Demo.engine_after_run []
  = (Ok (INVALID, None), []).
Proof.
  apply (surface_without_file_is_invalid Demo.builtins (fun _ => SUCCESS)
           Demo.percent_done (fun _ => "node") (fun _ => "{}")
           Demo.to_no_file Demo.engine_after_run []);
    reflexivity.
Defined.


Lemma publish_input_before_any_run_raises_witness :
  publish_input_datasets Demo.builtins (fun _ => SUCCESS) Demo.percent_done
    (fun _ => "node") (fun _ => "{}") no_overrides (Demo.engine, [])
  = (Raise TypeError, (Demo.engine, [])).
Proof.
  eapply (publish_input_before_any_run_raises Demo.builtins (fun _ => SUCCESS)
            Demo.percent_done (fun _ => "node") (fun _ => "{}") no_overrides
            Demo.engine []);
    reflexivity.
Defined.

(** At the demo engine, built without a [config_dict]. *)
Lemma fresh_engine_publishes_the_archive_switch_witness :
  exists e c f,
    init Demo.consts Demo.utc_now_str no_overrides Demo.no_files Demo.no_loader
      Demo.args = Ok e
    /\ publish_trade_history Demo.builtins (fun _ => SUCCESS) no_overrides e []
       = (Ok (SUCCESS, f), [c])
    /\ redis_address (pub_args c) = PyBool false.
Proof.
  eexists.
  edestruct (fresh_engine_publishes_the_archive_switch Demo.consts
               Demo.utc_now_str no_overrides Demo.no_files Demo.no_loader
               Demo.builtins (fun _ => SUCCESS) Demo.args)
    as (c & f & Hrun & Haddr);
    [vm_compute; reflexivity | reflexivity | reflexivity | reflexivity
    | reflexivity | reflexivity | vm_compute; reflexivity |].
  exists c, f. split; [vm_compute; reflexivity|].
  split; [exact Hrun | exact Haddr].
Defined.

(** A map that names no member leaves the engine as it was, as no map
    does. *)
Lemma empty_config_changes_nothing (e : Engine) :
  load_from_config_members (Some no_config) e = e
  /\ load_from_config_members None e = e.
Proof.
  split; [|reflexivity].
  destruct e as [[] [] [] [] [] [] [] [] [] []]. reflexivity.
Qed.

(** A [config_dict] that names the member is applied when construction
    ends: built with [{'history_redis_address': 'localhost:6379'}], the
    engine publishes its history to that address. *)
Lemma config_dict_sets_the_cache_address :
  names_history_target (a_config_dict Demo.args_configured) = true
  /\ exists e c f,
      init Demo.consts Demo.utc_now_str no_overrides Demo.no_files
        Demo.no_loader Demo.args_configured = Ok e
      /\ publish_trade_history Demo.builtins (fun _ => SUCCESS) no_overrides
           e [] = (Ok (SUCCESS, f), [c])
      /\ redis_address (pub_args c) = PyStr "localhost:6379".
Proof.
  split; [reflexivity|].
  eexists _, _, _. split; [vm_compute; reflexivity|].
  split; vm_compute; reflexivity.
Qed.

(** The default strategy on an engine in the middle of a run, where it
    runs to its end: with nothing owned it places no order, and with ten
    shares owned it places the closing sell and no buy. *)
Lemma default_process_never_buys_witness :
  let id := "ticker=SPY 50% 1/2" in
  let n := Demo.node "2018-11-01" 272 123 in
  let idle := demo_strategy id "SPY" n Demo.engine_at_node in
  let busy := demo_strategy id "SPY" n Demo.engine_holding_at_node in
  fst idle = Ok tt
  /\ acct (snd idle) = acct Demo.engine_at_node
  /\ fst busy = Ok tt
  /\ buys (acct (snd busy)) = buys (acct Demo.engine_holding_at_node)
  /\ List.length (sells (acct (snd busy)))
     = S (List.length (sells (acct Demo.engine_holding_at_node))).
Proof.
  cbv zeta.
  split; [vm_compute; reflexivity|].
  split.
  { apply (default_process_never_buys Demo.builtins
             (OrderBuilders.build_buy_order Demo.builtins)
             (OrderBuilders.build_sell_order Demo.builtins)).
    reflexivity. }
  split; [vm_compute; reflexivity|].
  split.
  { apply (default_process_never_buys Demo.builtins
             (OrderBuilders.build_buy_order Demo.builtins)
             (OrderBuilders.build_sell_order Demo.builtins)). }
  vm_compute. reflexivity.
Defined.

End AlgoFacts.
